(** * Marketplace front end: cart, checkout, discount codes, payouts, admin gate

    A shallow embedding of the page handlers of the marketplace client
    (HomePage, ProductDetails, BookDetails, Cart, Checkout, DiscountCode,
    SellerPayouts, App and the admin configuration) together with the
    properties the specification states about them.

    Conventions of the embedding:
    - JavaScript numbers that carry money are exact rationals ([Q]); counts
      (quantities, stock, use counters) and timestamps are integers ([Z]).
      A value that may be [NaN] or [null] is modelled explicitly where the
      code branches on it.  The pages compute in double precision; what
      is said of a payout allocation that holds only where that arithmetic
      is exact is said under the hypothesis [whole_amounts].
    - Strings are sequences of 8-bit characters and stand for ASCII text;
      a property that depends on what the case conversions do to letters
      is stated for ASCII text ([is_ascii_text]).
    - The hosted backend is a record of tables ([Db]); every table is the
      list of its rows in the order the backend returns them.
    - A handler is a computation in the monad [M]: it threads the backend,
      the trace of requests sent to it, the notifications raised and the
      counter behind generated identifiers, and it may throw.  The product
      lookup is the request that may reject (the cart page catches exactly
      that one); the other requests resolve. *)

From Stdlib Require Import List String Ascii Bool ZArith QArith Qminmax.
From Stdlib Require Import Lia Lqa Permutation Sorted DecimalString.
Import ListNotations.

Set Implicit Arguments.

Local Open Scope string_scope.

(** ** JavaScript primitives used by the handlers *)

Module Js.

Definition upper_ascii (c : ascii) : ascii :=
  let n := nat_of_ascii c in
  if (97 <=? n)%nat && (n <=? 122)%nat then ascii_of_nat (n - 32) else c.

Definition lower_ascii (c : ascii) : ascii :=
  let n := nat_of_ascii c in
  if (65 <=? n)%nat && (n <=? 90)%nat then ascii_of_nat (n + 32) else c.

Fixpoint map_string (f : ascii -> ascii) (s : string) : string :=
  match s with
  | EmptyString => EmptyString
  | String c s' => String (f c) (map_string f s')
  end.

(** [String.prototype.toUpperCase] and [toLowerCase] on ASCII text, where
    they turn [a-z] into [A-Z] (and back) and leave every other character
    as it is.  Outside ASCII the JavaScript functions follow Unicode and
    these do not. *)
Definition toUpperCase : string -> string := map_string upper_ascii.
Definition toLowerCase : string -> string := map_string lower_ascii.

Definition is_space (c : ascii) : bool :=
  let n := nat_of_ascii c in
  (n =? 32)%nat || ((9 <=? n)%nat && (n <=? 13)%nat).

Fixpoint trimStart (s : string) : string :=
  match s with
  | EmptyString => EmptyString
  | String c s' => if is_space c then trimStart s' else s
  end.

Fixpoint rev_string (acc s : string) : string :=
  match s with
  | EmptyString => acc
  | String c s' => rev_string (String c acc) s'
  end.

Definition trimEnd (s : string) : string :=
  rev_string "" (trimStart (rev_string "" s)).

(** [String.prototype.trim]. *)
Definition trim (s : string) : string := trimEnd (trimStart s).

(** A string is falsy exactly when it is empty. *)
Definition falsy_string (s : string) : bool := (s =? "")%string.

(** [x || 0] on a number: zero is the only falsy rational. *)
Definition or_zero (q : Q) : Q := if Qeq_bool q 0 then 0%Q else q.

(** Truthiness of a nullable count, as in [maxUses && ...]. *)
Definition truthy_count (n : option Z) : bool :=
  match n with
  | Some k => negb (k =? 0)%Z
  | None => false
  end.

Definition Qltb (a b : Q) : bool := negb (Qle_bool b a).

(** [Array.prototype.includes] on strings. *)
Definition includes (l : list string) (s : string) : bool :=
  existsb (String.eqb s) l.

(** The outcome of [parseFloat]. *)
Inductive number : Type :=
| NaN
| Infinity (positive : bool)
| Finite (q : Q).

End Js.

(** ** Rows of the backend tables *)

Inductive DiscountType : Type := percentage | fixed.

(** What [new Date(expiresAt)] can be: the column is empty, holds text that
    is no date, or holds an instant. *)
Inductive Expiry : Type :=
| NoExpiry
| InvalidDate
| ExpiresAt (t : Z).

Inductive EarningStatus : Type := available | pending_payout | paid_out.

Definition EarningStatus_eqb (a b : EarningStatus) : bool :=
  match a, b with
  | available, available => true
  | pending_payout, pending_payout => true
  | paid_out, paid_out => true
  | _, _ => false
  end.

Record ProductRow : Type := mkProduct {
  p_id : string;
  p_name : string;
  p_price : Q;
  p_stock_quantity : Z;
  p_user_id : string
}.

Record CartRow : Type := mkCartRow {
  c_id : string;
  c_user_id : string;
  c_product_id : string;
  c_quantity : Z;
  c_created_at : Z
}.

Record OrderRow : Type := mkOrder {
  o_id : string;
  o_user_id : string;
  o_total_amount : Q;
  o_subtotal_amount : Q;
  o_discount_amount : Q;
  o_discount_code : option string;
  o_status : string;
  o_shipping_address : string
}.

Record OrderItemRow : Type := mkOrderItem {
  oi_id : string;
  oi_order_id : string;
  oi_product_id : string;
  oi_quantity : Z;
  oi_price : Q
}.

Record EarningRow : Type := mkEarning {
  e_id : string;
  e_seller_id : string;
  e_order_id : string;
  e_product_id : string;
  e_quantity : Z;
  e_unit_price : Q;
  e_total_earnings : Q;
  e_commission_rate : Q;
  e_commission_amount : Q;
  e_net_earnings : Q;
  e_status : EarningStatus;
  e_created_at : Z
}.

Record DiscountCodeRow : Type := mkDiscountCode {
  d_id : string;
  d_code : string;
  d_description : string;
  d_discountType : DiscountType;
  d_discountValue : Q;
  d_minimumOrderAmount : Q;
  d_maxUses : option Z;
  d_currentUses : Z;
  d_expiresAt : Expiry;
  d_isActive : bool
}.

Record DiscountUseRow : Type := mkDiscountUse {
  u_id : string;
  u_discount_code_id : string;
  u_user_id : string;
  u_order_id : string;
  u_discount_amount : Q
}.

(** The object that [JSON.stringify(paymentDetails)] serialises. *)
Inductive PaymentDetails : Type :=
| BankDetails (bankName accountNumber sortCode accountHolderName : string)
| PaypalDetails (paypalEmail : string)
| EmptyDetails.

Record PayoutRequestRow : Type := mkPayoutRequest {
  pr_id : string;
  pr_seller_id : string;
  pr_amount : Q;
  pr_status : string;
  pr_payment_method : string;
  pr_payment_details : PaymentDetails;
  pr_notes : string;
  pr_requested_at : Z
}.

Record PayoutItemRow : Type := mkPayoutItem {
  pi_id : string;
  pi_payout_request_id : string;
  pi_seller_earning_id : string;
  pi_amount : Q
}.

Record Db : Type := mkDb {
  products : list ProductRow;
  cartItems : list CartRow;
  orders : list OrderRow;
  orderItems : list OrderItemRow;
  sellerEarnings : list EarningRow;
  discountCodes : list DiscountCodeRow;
  discountCodeUses : list DiscountUseRow;
  payoutRequests : list PayoutRequestRow;
  payoutItems : list PayoutItemRow
}.

(** ** Requests and the world a handler runs in *)

Inductive Request : Type :=
| Req_auth_me
| Req_products_list (id : string)
| Req_products_update (id : string) (stock_quantity : Z)
| Req_cartItems_list (user_id : string) (product_id : option string)
| Req_cartItems_create (row : CartRow)
| Req_cartItems_update (id : string) (quantity : Z)
| Req_cartItems_delete (id : string)
| Req_orders_create (row : OrderRow)
| Req_orderItems_create (row : OrderItemRow)
| Req_sellerEarnings_list (seller_id : string)
| Req_sellerEarnings_create (row : EarningRow)
| Req_sellerEarnings_update (id : string) (status : EarningStatus)
| Req_discountCodes_list (code : string) (active_only : bool)
| Req_discountCodes_update (id : string) (current_uses : Z)
| Req_discountCodeUses_list (discount_code_id user_id : string)
| Req_discountCodeUses_create (row : DiscountUseRow)
| Req_payoutRequests_list (seller_id : string)
| Req_payoutRequests_create (row : PayoutRequestRow)
| Req_payoutItems_create (row : PayoutItemRow).

(** A request mutates the backend when it is a create, update or delete. *)
Definition is_write (r : Request) : bool :=
  match r with
  | Req_auth_me | Req_products_list _ | Req_cartItems_list _ _
  | Req_sellerEarnings_list _ | Req_discountCodes_list _ _
  | Req_discountCodeUses_list _ _ | Req_payoutRequests_list _ => false
  | _ => true
  end.

Record World : Type := mkWorld {
  db : Db;
(** requests sent so far, most recent first *)
trace : list Request;
(** titles of the notifications raised so far, most recent first *)
toasts : list string;
(** the signed-in user, as [blink.auth.me()] reports it *)
session_user : string;
(** product ids whose lookup rejects *)
rejects : string -> bool;
(** stands for [Date.now()] and [Math.random()] in generated ids *)
nonce : nat
}.

Inductive Result (A : Type) : Type :=
| Ok (a : A)
| Throw.
Arguments Throw {A}.

Definition M (A : Type) : Type := World -> Result A * World.

Definition ret {A} (a : A) : M A := fun w => (Ok a, w).

Definition bind {A B} (m : M A) (k : A -> M B) : M B :=
  fun w =>
    match m w with
    | (Ok a, w') => k a w'
    | (Throw, w') => (Throw, w')
    end.

(** [try { m } catch { h }] *)
Definition try_catch {A} (m : M A) (h : M A) : M A :=
  fun w =>
    match m w with
    | (Ok a, w') => (Ok a, w')
    | (Throw, w') => h w'
    end.

Declare Scope monad_scope.
Delimit Scope monad_scope with monad.
Notation "x <- m ;; k" := (bind m (fun x => k))
  (at level 100, m at next level, right associativity) : monad_scope.
Notation "m ;; k" := (bind m (fun _ => k))
  (at level 100, right associativity) : monad_scope.
Local Open Scope monad_scope.

Fixpoint mapM {A B} (f : A -> M B) (l : list A) : M (list B) :=
  match l with
  | [] => ret []
  | x :: xs => y <- f x ;; ys <- mapM f xs ;; ret (y :: ys)
  end.

(** [for (const x of l) { f x }] *)
Fixpoint forM_ {A} (l : list A) (f : A -> M unit) : M unit :=
  match l with
  | [] => ret tt
  | x :: xs => f x ;; forM_ xs f
  end.

Definition with_db (f : Db -> Db) (w : World) : World :=
  mkWorld (f (db w)) (trace w) (toasts w) (session_user w) (rejects w) (nonce w).

Definition send (r : Request) (w : World) : World :=
  mkWorld (db w) (r :: trace w) (toasts w) (session_user w) (rejects w) (nonce w).

Definition toast (title : string) : M unit :=
  fun w =>
    (Ok tt,
     mkWorld (db w) (trace w) (title :: toasts w) (session_user w) (rejects w)
       (nonce w)).

(** An identifier [prefix_<Date.now()>_<random>]. *)
Definition generated (prefix : string) (n : nat) : string :=
  prefix ++ "_" ++ NilEmpty.string_of_uint (Nat.to_uint n).

Definition fresh (prefix : string) : M string :=
  fun w =>
    (Ok (generated prefix (nonce w)),
     mkWorld (db w) (trace w) (toasts w) (session_user w) (rejects w)
       (S (nonce w))).

(** A read-only request: record it and answer from the tables. *)
Definition query {A} (r : Request) (answer : Db -> A) : M A :=
  fun w => (Ok (answer (db w)), send r w).

(** A mutating request: record it and apply it to the tables. *)
Definition mutate (r : Request) (f : Db -> Db) : M unit :=
  fun w => (Ok tt, with_db f (send r w)).

(** The creation time the backend stamps on a new row. *)
Definition stamp (w : World) : Z := Z.of_nat (nonce w).

(** [orderBy: { key: 'desc' }]: a stable insertion sort, largest key first. *)
Section OrderBy.
Variable A : Type.
Variable key : A -> Z.

Fixpoint insert_desc (x : A) (l : list A) : list A :=
  match l with
  | [] => [x]
  | y :: ys =>
      if (key y <? key x)%Z then x :: y :: ys else y :: insert_desc x ys
  end.

Fixpoint orderBy_desc (l : list A) : list A :=
  match l with
  | [] => []
  | x :: xs => insert_desc x (orderBy_desc xs)
  end.
End OrderBy.

(** ** The backend client, one definition per request the pages send *)

Module blink.

Definition auth_me : M string :=
  fun w => (Ok (session_user w), send Req_auth_me w).

Module products.
(** [list({ where: { id }, limit: 1 })] *)
Definition list_by_id (id : string) : M (list ProductRow) :=
  fun w =>
    if rejects w id then (Throw, send (Req_products_list id) w)
    else
      (Ok (firstn 1 (filter (fun p => (p_id p =? id)%string)
                       (products (db w)))),
       send (Req_products_list id) w).

(** [update(id, { stock_quantity })] *)
Definition update_stock (id : string) (stock : Z) : M unit :=
  mutate (Req_products_update id stock)
    (fun d =>
       mkDb
         (map (fun p =>
                 if (p_id p =? id)%string
                 then mkProduct (p_id p) (p_name p) (p_price p) stock
                        (p_user_id p)
                 else p) (products d))
         (cartItems d) (orders d) (orderItems d) (sellerEarnings d)
         (discountCodes d) (discountCodeUses d) (payoutRequests d)
         (payoutItems d)).
End products.

Module cartItems.
(** [list({ where: { user_id }, orderBy: { created_at: 'desc' } })] *)
Definition list_of_user (user : string) : M (list CartRow) :=
  query (Req_cartItems_list user None)
    (fun d =>
       orderBy_desc c_created_at
         (filter (fun c => (c_user_id c =? user)%string) (cartItems d))).

(** [list({ where: { user_id, product_id } })] *)
Definition list_of_user_product (user product : string)
  : M (list CartRow) :=
  query (Req_cartItems_list user (Some product))
    (fun d =>
       filter (fun c => (c_user_id c =? user)%string
                        && (c_product_id c =? product)%string)
         (cartItems d)).

(** [create({ id, user_id, product_id, quantity })]; the backend fills in
    [created_at]. *)
Definition create (id user product : string) (quantity : Z) : M unit :=
  fun w =>
    let row := mkCartRow id user product quantity (stamp w) in
    mutate (Req_cartItems_create row)
      (fun d =>
         mkDb (products d) (cartItems d ++ [row]) (orders d) (orderItems d)
           (sellerEarnings d) (discountCodes d) (discountCodeUses d)
           (payoutRequests d) (payoutItems d)) w.

(** [update(id, { quantity })] *)
Definition update_quantity (id : string) (quantity : Z) : M unit :=
  mutate (Req_cartItems_update id quantity)
    (fun d =>
       mkDb (products d)
         (map (fun c =>
                 if (c_id c =? id)%string
                 then mkCartRow (c_id c) (c_user_id c) (c_product_id c)
                        quantity (c_created_at c)
                 else c) (cartItems d))
         (orders d) (orderItems d) (sellerEarnings d) (discountCodes d)
         (discountCodeUses d) (payoutRequests d) (payoutItems d)).

Definition delete (id : string) : M unit :=
  mutate (Req_cartItems_delete id)
    (fun d =>
       mkDb (products d)
         (filter (fun c => negb (c_id c =? id)%string) (cartItems d))
         (orders d) (orderItems d) (sellerEarnings d) (discountCodes d)
         (discountCodeUses d) (payoutRequests d) (payoutItems d)).
End cartItems.

Module orders.
Definition create (row : OrderRow) : M unit :=
  mutate (Req_orders_create row)
    (fun d =>
       mkDb (products d) (cartItems d) (orders d ++ [row]) (orderItems d)
         (sellerEarnings d) (discountCodes d) (discountCodeUses d)
         (payoutRequests d) (payoutItems d)).
End orders.

Module orderItems.
Definition create (row : OrderItemRow) : M unit :=
  mutate (Req_orderItems_create row)
    (fun d =>
       mkDb (products d) (cartItems d) (orders d) (orderItems d ++ [row])
         (sellerEarnings d) (discountCodes d) (discountCodeUses d)
         (payoutRequests d) (payoutItems d)).
End orderItems.

Module sellerEarnings.
(** [list({ where: { sellerId }, orderBy: { createdAt: 'desc' } })] *)
Definition list_of_seller (seller : string) : M (list EarningRow) :=
  query (Req_sellerEarnings_list seller)
    (fun d =>
       orderBy_desc e_created_at
         (filter (fun e => (e_seller_id e =? seller)%string)
            (sellerEarnings d))).

(** [create({ ... })]; the backend fills in [created_at]. *)
Definition create (row : Z -> EarningRow) : M unit :=
  fun w =>
    mutate (Req_sellerEarnings_create (row (stamp w)))
      (fun d =>
         mkDb (products d) (cartItems d) (orders d) (orderItems d)
           (sellerEarnings d ++ [row (stamp w)]) (discountCodes d)
           (discountCodeUses d) (payoutRequests d) (payoutItems d)) w.

(** [update(id, { status })] *)
Definition update_status (id : string) (status : EarningStatus)
  : M unit :=
  mutate (Req_sellerEarnings_update id status)
    (fun d =>
       mkDb (products d) (cartItems d) (orders d) (orderItems d)
         (map (fun e =>
                 if (e_id e =? id)%string
                 then mkEarning (e_id e) (e_seller_id e) (e_order_id e)
                        (e_product_id e) (e_quantity e) (e_unit_price e)
                        (e_total_earnings e) (e_commission_rate e)
                        (e_commission_amount e) (e_net_earnings e) status
                        (e_created_at e)
                 else e) (sellerEarnings d))
         (discountCodes d) (discountCodeUses d) (payoutRequests d)
         (payoutItems d)).
End sellerEarnings.

Module discountCodes.
(** [list({ where: { code, isActive: "1" }, limit: 1 })] when
    [active_only], [list({ where: { code }, limit: 1 })] otherwise. *)
Definition list_by_code (code : string) (active_only : bool)
  : M (list DiscountCodeRow) :=
  query (Req_discountCodes_list code active_only)
    (fun d =>
       firstn 1
         (filter (fun c => (d_code c =? code)%string
                           && (if active_only then d_isActive c else true))
            (discountCodes d))).

(** [update(id, { current_uses })] *)
Definition update_uses (id : string) (uses : Z) : M unit :=
  mutate (Req_discountCodes_update id uses)
    (fun d =>
       mkDb (products d) (cartItems d) (orders d) (orderItems d)
         (sellerEarnings d)
         (map (fun c =>
                 if (d_id c =? id)%string
                 then mkDiscountCode (d_id c) (d_code c) (d_description c)
                        (d_discountType c) (d_discountValue c)
                        (d_minimumOrderAmount c) (d_maxUses c) uses
                        (d_expiresAt c) (d_isActive c)
                 else c) (discountCodes d))
         (discountCodeUses d) (payoutRequests d) (payoutItems d)).
End discountCodes.

Module discountCodeUses.
(** [list({ where: { discountCodeId, userId }, limit: 1 })] *)
Definition list_of_code_user (code_id user : string)
  : M (list DiscountUseRow) :=
  query (Req_discountCodeUses_list code_id user)
    (fun d =>
       firstn 1
         (filter (fun u => (u_discount_code_id u =? code_id)%string
                           && (u_user_id u =? user)%string)
            (discountCodeUses d))).

Definition create (row : DiscountUseRow) : M unit :=
  mutate (Req_discountCodeUses_create row)
    (fun d =>
       mkDb (products d) (cartItems d) (orders d) (orderItems d)
         (sellerEarnings d) (discountCodes d) (discountCodeUses d ++ [row])
         (payoutRequests d) (payoutItems d)).
End discountCodeUses.

Module payoutRequests.
(** [list({ where: { sellerId }, orderBy: { requestedAt: 'desc' } })] *)
Definition list_of_seller (seller : string) : M (list PayoutRequestRow) :=
  query (Req_payoutRequests_list seller)
    (fun d =>
       orderBy_desc pr_requested_at
         (filter (fun r => (pr_seller_id r =? seller)%string)
            (payoutRequests d))).

(** [create({ ... })]; the backend fills in [requested_at]. *)
Definition create (row : Z -> PayoutRequestRow) : M unit :=
  fun w =>
    mutate (Req_payoutRequests_create (row (stamp w)))
      (fun d =>
         mkDb (products d) (cartItems d) (orders d) (orderItems d)
           (sellerEarnings d) (discountCodes d) (discountCodeUses d)
           (payoutRequests d ++ [row (stamp w)]) (payoutItems d)) w.
End payoutRequests.

Module payoutItems.
Definition create (row : PayoutItemRow) : M unit :=
  mutate (Req_payoutItems_create row)
    (fun d =>
       mkDb (products d) (cartItems d) (orders d) (orderItems d)
         (sellerEarnings d) (discountCodes d) (discountCodeUses d)
         (payoutRequests d) (payoutItems d ++ [row])).
End payoutItems.

End blink.


(** ** Admin configuration and the application shell *)

Module ADMIN_CONFIG.

Definition adminEmails : list string :=
  [ "kai.jiabo.feng@gmail.com"; "mustafayare2009@gmail.com" ].

Definition isAdmin (email : string) : bool :=
  Js.includes adminEmails (Js.toLowerCase email).

End ADMIN_CONFIG.

Module App.

Record User : Type := mkUser {
  id : string;
  email : string
}.

(** The argument of the [onAuthStateChanged] callback. *)
Record AuthState : Type := mkAuthState {
  auth_user : option User;
  isLoading : bool
}.

(** The three [useState] cells of the component. *)
Record State : Type := mkState {
  user : option User;
  loading : bool;
  isAdmin : bool
}.

Definition initial : State := mkState None true false.

(** The [onAuthStateChanged] callback: [isAdmin] is written only when the
    new state carries a user with a truthy email. *)
Definition onAuthStateChanged (s : State) (state : AuthState) : State :=
  mkState (auth_user state) (isLoading state)
    (match auth_user state with
     | Some u =>
         if Js.falsy_string (email u) then isAdmin s
         else ADMIN_CONFIG.isAdmin (email u)
     | None => isAdmin s
     end).

Inductive Screen : Type :=
| LoadingScreen
| SignInScreen
| RouterScreen (routes : list string).

Definition render (s : State) : Screen :=
  if loading s then LoadingScreen
  else
    match user s with
    | None => SignInScreen
    | Some _ =>
        RouterScreen
          ([ "/"; "/product/:id"; "/cart"; "/checkout" ]
             ++ (if isAdmin s then [ "/admin" ] else []))
    end.

(** The component after a sequence of auth notifications, oldest first. *)
Definition run (events : list AuthState) : State :=
  fold_left onAuthStateChanged events initial.

Definition route_registered (path : string) (s : State) : bool :=
  match render s with
  | RouterScreen routes => Js.includes routes path
  | _ => false
  end.

End App.

(** ** The discount-code widget *)

Record AppliedDiscount : Type := mkApplied {
  ad_code : string;
  ad_amount : Q;
  ad_description : string
}.

Module DiscountCode.

(** [discountCode.expiresAt && new Date(discountCode.expiresAt) < new Date()] *)
Definition has_expired (now : Z) (d : DiscountCodeRow) : bool :=
  match d_expiresAt d with
  | ExpiresAt t => (t <? now)%Z
  | InvalidDate | NoExpiry => false
  end.

(** [discountCode.maxUses && discountCode.currentUses >= discountCode.maxUses] *)
Definition limit_reached (d : DiscountCodeRow) : bool :=
  match d_maxUses d with
  | Some k => Js.truthy_count (Some k) && (k <=? d_currentUses d)%Z
  | None => false
  end.

Definition discount_of (subtotal : Q) (d : DiscountCodeRow) : Q :=
  let discountAmount :=
    match d_discountType d with
    | percentage => (subtotal * d_discountValue d / 100)%Q
    | fixed => d_discountValue d
    end in
  Qmin discountAmount subtotal.

(** Returns the discount handed to [onDiscountApplied], if any. *)
Definition validateAndApplyDiscount (now : Z) (code : string) (subtotal : Q)
  : M (option AppliedDiscount) :=
  if Js.falsy_string (Js.trim code) then
    toast "Error" ;; ret None
  else
    try_catch
      (user <- blink.auth_me ;;
       discountCodes <-
         blink.discountCodes.list_by_code (Js.toUpperCase code) true ;;
       match discountCodes with
       | [] => toast "Invalid Code" ;; ret None
       | discountCode :: _ =>
           if has_expired now discountCode then
             toast "Expired Code" ;; ret None
           else if limit_reached discountCode then
             toast "Code Limit Reached" ;; ret None
           else if Js.Qltb subtotal (d_minimumOrderAmount discountCode) then
             toast "Minimum Order Not Met" ;; ret None
           else
             existingUses <-
               blink.discountCodeUses.list_of_code_user (d_id discountCode)
                 user ;;
             if (0 <? List.length existingUses)%nat then
               toast "Already Used" ;; ret None
             else
               let discountAmount := discount_of subtotal discountCode in
               toast "Discount Applied!" ;;
               ret (Some (mkApplied (d_code discountCode) discountAmount
                            (d_description discountCode)))
       end)
      (toast "Error" ;; ret None).

End DiscountCode.

(** ** Cart and checkout pages *)

Record ProductView : Type := mkView {
  pv_id : string;
  pv_name : string;
  pv_price : Q;
  pv_stockQuantity : Z
}.

Record CartItem : Type := mkCartItem {
  ci_id : string;
  ci_userId : string;
  ci_productId : string;
  ci_quantity : Z;
  ci_product : option ProductView
}.

(** The camelCase view of a product row (presentation-only fields left
    out); a numeric [x || 0] is the identity on the integers. *)
Definition view_of (p : ProductRow) : ProductView :=
  mkView (p_id p) (p_name p) (p_price p) (p_stock_quantity p).

Definition has_product (item : CartItem) : bool :=
  match ci_product item with
  | Some _ => true
  | None => false
  end.

Definition price_or_zero (item : CartItem) : Q :=
  match ci_product item with
  | Some p => Js.or_zero (pv_price p)
  | None => 0%Q
  end.

Module Cart.

Record State : Type := mkState {
  cartItems : list CartItem;
  appliedDiscount : option AppliedDiscount
}.

(** The per-row body of the [items.map(async ...)] of the cart page. *)
Definition enrich (item : CartRow) : M CartItem :=
  try_catch
    (products <- blink.products.list_by_id (c_product_id item) ;;
     match products with
     | product :: _ =>
         ret (mkCartItem (c_id item) (c_user_id item) (c_product_id item)
                (c_quantity item) (Some (view_of product)))
     | [] =>
         ret (mkCartItem (c_id item) (c_user_id item) (c_product_id item)
                (c_quantity item) None)
     end)
    (ret (mkCartItem (c_id item) (c_user_id item) (c_product_id item)
            (c_quantity item) None)).

(** The join of already fetched rows with their products. *)
Definition join (items : list CartRow) : M (list CartItem) :=
  itemsWithProducts <- mapM enrich items ;;
  ret (filter has_product itemsWithProducts).

(** The outer handler raises its notification unless the error message
    says that no records were found; the state is left as it was. *)
Definition loadCartItems (st : State) : M State :=
  try_catch
    (user <- blink.auth_me ;;
     items <- blink.cartItems.list_of_user user ;;
     validItems <- join items ;;
     ret (mkState validItems (appliedDiscount st)))
    (toast "Error" ;; ret st).

Definition calculateSubtotal (cartItems : list CartItem) : Q :=
  fold_left
    (fun total item => (total + price_or_zero item * inject_Z (ci_quantity item))%Q)
    cartItems 0%Q.

Definition calculateTotal (st : State) : Q :=
  let subtotal := calculateSubtotal (cartItems st) in
  let discountAmount :=
    match appliedDiscount st with
    | Some d => Js.or_zero (ad_amount d)
    | None => 0%Q
    end in
  Qmax 0 (subtotal - discountAmount).

End Cart.

Module Checkout.

Record State : Type := mkState {
  cartItems : list CartItem;
  appliedDiscount : option AppliedDiscount;
  orderComplete : bool
}.

Record FormData : Type := mkForm {
  firstName : string;
  lastName : string;
  email : string;
  phone : string;
  address : string;
  city : string;
  state : string;
  zipCode : string;
  country : string
}.

(** The per-row body of the [items.map(async ...)] of the checkout page:
    no [try] around the lookup. *)
Definition enrich (item : CartRow) : M CartItem :=
  products <- blink.products.list_by_id (c_product_id item) ;;
  ret (mkCartItem (c_id item) (c_user_id item) (c_product_id item)
         (c_quantity item)
         (match products with
          | product :: _ => Some (view_of product)
          | [] => None
          end)).

Definition join (items : list CartRow) : M (list CartItem) :=
  itemsWithProducts <- mapM enrich items ;;
  ret (filter has_product itemsWithProducts).

(** Navigation to the cart page (on an empty cart or an error) is not part
    of the state and is left out. *)
Definition loadCartItems (st : State) : M State :=
  try_catch
    (user <- blink.auth_me ;;
     items <- blink.cartItems.list_of_user user ;;
     validItems <- join items ;;
     ret (mkState validItems (appliedDiscount st) (orderComplete st)))
    (toast "Error" ;; ret st).

Definition calculateSubtotal (cartItems : list CartItem) : Q :=
  fold_left
    (fun total item => (total + price_or_zero item * inject_Z (ci_quantity item))%Q)
    cartItems 0%Q.

Definition discountAmount_of (appliedDiscount : option AppliedDiscount) : Q :=
  match appliedDiscount with
  | Some d => Js.or_zero (ad_amount d)
  | None => 0%Q
  end.

Definition calculateTotal (st : State) : Q :=
  let subtotal := calculateSubtotal (cartItems st) in
  let discountAmount := discountAmount_of (appliedDiscount st) in
  Qmax 0 (subtotal - discountAmount).

(** [appliedDiscount?.code || null] *)
Definition discountCode_of (appliedDiscount : option AppliedDiscount)
  : option string :=
  match appliedDiscount with
  | Some d => if Js.falsy_string (ad_code d) then None else Some (ad_code d)
  | None => None
  end.

Inductive StockError : Type :=
| ProductNotFound
| NoLongerAvailable (name : string)
| InsufficientStock (name : string) (currentStock requested : Z).

(** The stock re-validation loop, [errors] being the array filled so far. *)
Fixpoint stockValidation (items : list CartItem) (errors : list StockError)
  : M (list StockError) :=
  match items with
  | [] => ret errors
  | item :: rest =>
      match ci_product item with
      | None => stockValidation rest (errors ++ [ProductNotFound])
      | Some product =>
          currentProducts <- blink.products.list_by_id (ci_productId item) ;;
          match currentProducts with
          | [] =>
              stockValidation rest
                (errors ++ [NoLongerAvailable (pv_name product)])
          | current :: _ =>
              let currentStock := p_stock_quantity current in
              if (currentStock <? ci_quantity item)%Z then
                stockValidation rest
                  (errors ++ [InsufficientStock (pv_name product) currentStock
                                (ci_quantity item)])
              else stockValidation rest errors
          end
      end
  end.

Definition commissionRate : Q := 5 # 100.

(** Body of the loop that writes order items, stock and seller earnings. *)
Definition fulfil (orderId : string) (item : CartItem) : M unit :=
  itemId <- fresh "orderitem" ;;
  blink.orderItems.create
    (mkOrderItem itemId orderId (ci_productId item) (ci_quantity item)
       (price_or_zero item)) ;;
  match ci_product item with
  | Some product =>
      let newStock := Z.max 0 (pv_stockQuantity product - ci_quantity item) in
      blink.products.update_stock (ci_productId item) newStock ;;
      let unitPrice := pv_price product in
      let totalEarnings := (unitPrice * inject_Z (ci_quantity item))%Q in
      let commissionAmount := (totalEarnings * commissionRate)%Q in
      let netEarnings := (totalEarnings - commissionAmount)%Q in
      products <- blink.products.list_by_id (ci_productId item) ;;
      match products with
      | seller :: _ =>
          earningId <- fresh "earning" ;;
          blink.sellerEarnings.create
            (mkEarning earningId (p_user_id seller) orderId
               (ci_productId item) (ci_quantity item) unitPrice totalEarnings
               commissionRate commissionAmount netEarnings available)
      | [] => ret tt
      end
  | None => ret tt
  end.

Definition recordDiscountUsage (user orderId : string)
  (appliedDiscount : option AppliedDiscount) : M unit :=
  match appliedDiscount with
  | Some applied =>
      discountCodes <- blink.discountCodes.list_by_code (ad_code applied) false ;;
      match discountCodes with
      | discountCode :: _ =>
          usageId <- fresh "usage" ;;
          blink.discountCodeUses.create
            (mkDiscountUse usageId (d_id discountCode) user orderId
               (ad_amount applied)) ;;
          blink.discountCodes.update_uses (d_id discountCode)
            (d_currentUses discountCode + 1)
      | [] => ret tt
      end
  | None => ret tt
  end.

Inductive SubmitOutcome : Type :=
| MissingFields
| StockValidationFailed (errors : list StockError)
| OrderPlaced (orderId : string)
| ProcessingFailed.

(** The outcome [OrderPlaced] stands for [setOrderComplete(true)]. *)
Definition handleSubmit (formData : FormData) (st : State)
  : M SubmitOutcome :=
  if Js.falsy_string (firstName formData)
     || Js.falsy_string (lastName formData)
     || Js.falsy_string (email formData)
     || Js.falsy_string (address formData)
  then toast "Error" ;; ret MissingFields
  else
    try_catch
      (user <- blink.auth_me ;;
       stockValidationErrors <- stockValidation (cartItems st) [] ;;
       if (0 <? List.length stockValidationErrors)%nat then
         toast "Stock Validation Failed" ;;
         ret (StockValidationFailed stockValidationErrors)
       else
         orderId <- fresh "order" ;;
         let shippingAddress :=
           address formData ++ ", " ++ city formData ++ ", "
           ++ state formData ++ " " ++ zipCode formData ++ ", "
           ++ country formData in
         let subtotal := calculateSubtotal (cartItems st) in
         let discountAmount := discountAmount_of (appliedDiscount st) in
         let totalAmount := calculateTotal st in
         blink.orders.create
           (mkOrder orderId user totalAmount subtotal discountAmount
              (discountCode_of (appliedDiscount st)) "completed"
              shippingAddress) ;;
         forM_ (cartItems st) (fulfil orderId) ;;
         recordDiscountUsage user orderId (appliedDiscount st) ;;
         forM_ (cartItems st) (fun item => blink.cartItems.delete (ci_id item)) ;;
         toast "Order Placed!" ;;
         ret (OrderPlaced orderId))
      (toast "Error" ;; ret ProcessingFailed).

End Checkout.

(** ** Adding to the cart: listing page, product page, legacy book page *)

Inductive AddOutcome : Type :=
| NothingLoaded
| OutOfStock
| InsufficientStock
| AddedToCart
| AddFailed.

Module HomePage.

Definition addToCart (product : ProductView) : M AddOutcome :=
  try_catch
    (if (pv_stockQuantity product <=? 0)%Z then
       toast "Out of Stock" ;; ret OutOfStock
     else
       user <- blink.auth_me ;;
       existingItems <-
         blink.cartItems.list_of_user_product user (pv_id product) ;;
       match existingItems with
       | existing :: _ =>
           let newQuantity := (c_quantity existing + 1)%Z in
           if (pv_stockQuantity product <? newQuantity)%Z then
             toast "Insufficient Stock" ;; ret InsufficientStock
           else
             blink.cartItems.update_quantity (c_id existing) newQuantity ;;
             toast "Added to Cart" ;; ret AddedToCart
       | [] =>
           cartId <- fresh "cart" ;;
           blink.cartItems.create cartId user (pv_id product) 1 ;;
           toast "Added to Cart" ;; ret AddedToCart
       end)
    (toast "Error" ;; ret AddFailed).

End HomePage.

Module ProductDetails.

Record State : Type := mkState {
  product : option ProductView;
  quantity : Z
}.

Definition addToCart (st : State) : M AddOutcome :=
  match product st with
  | None => ret NothingLoaded
  | Some product =>
      let quantity := quantity st in
      try_catch
        (if (pv_stockQuantity product <=? 0)%Z then
           toast "Out of Stock" ;; ret OutOfStock
         else if (pv_stockQuantity product <? quantity)%Z then
           toast "Insufficient Stock" ;; ret InsufficientStock
         else
           user <- blink.auth_me ;;
           existingItems <-
             blink.cartItems.list_of_user_product user (pv_id product) ;;
           match existingItems with
           | existing :: _ =>
               let newQuantity := (c_quantity existing + quantity)%Z in
               if (pv_stockQuantity product <? newQuantity)%Z then
                 toast "Insufficient Stock" ;; ret InsufficientStock
               else
                 blink.cartItems.update_quantity (c_id existing) newQuantity ;;
                 toast "Added to Cart" ;; ret AddedToCart
           | [] =>
               cartId <- fresh "cart" ;;
               blink.cartItems.create cartId user (pv_id product) quantity ;;
               toast "Added to Cart" ;; ret AddedToCart
           end)
        (toast "Error" ;; ret AddFailed)
  end.

End ProductDetails.

Module BookDetails.

Record Book : Type := mkBook {
  id : string;
  title : string;
  price : Q;
  stockQuantity : Z
}.

(** The legacy page keys its cart rows by [bookId]; the column is the
    product column of [CartRow]. *)
Definition addToCart (book : option Book) : M AddOutcome :=
  match book with
  | None => ret NothingLoaded
  | Some book =>
      try_catch
        (user <- blink.auth_me ;;
         existingItems <- blink.cartItems.list_of_user_product user (id book) ;;
         match existingItems with
         | existing :: _ =>
             blink.cartItems.update_quantity (c_id existing)
               (c_quantity existing + 1) ;;
             toast "Added to Cart" ;; ret AddedToCart
         | [] =>
             cartId <- fresh "cart" ;;
             blink.cartItems.create cartId user (id book) 1 ;;
             toast "Added to Cart" ;; ret AddedToCart
         end)
        (toast "Error" ;; ret AddFailed)
  end.

End BookDetails.

(** ** Seller payouts *)

Module SellerPayouts.

(** [{ ...earning, product: products[0] || null }] *)
Record SellerEarning : Type := mkSellerEarning {
  row : EarningRow;
  product : option ProductRow
}.

Record PayoutStats : Type := mkStats {
  totalEarnings : Q;
  availableBalance : Q;
  pendingPayouts : nat;
  completedPayouts : nat
}.

Record State : Type := mkState {
  earnings : list SellerEarning;
  payoutRequests : list PayoutRequestRow;
  stats : PayoutStats
}.

Definition initial : State := mkState [] [] (mkStats 0 0 0 0).

(** [payoutFormData], with [amount] already through [parseFloat]. *)
Record PayoutForm : Type := mkForm {
  amount : Js.number;
  paymentMethod : string;
  bankName : string;
  accountNumber : string;
  sortCode : string;
  accountHolderName : string;
  paypalEmail : string;
  notes : string
}.

Definition netEarnings (earning : SellerEarning) : Q :=
  e_net_earnings (row earning).

Definition is_available (earning : SellerEarning) : bool :=
  EarningStatus_eqb (e_status (row earning)) available.

(** [list.reduce((sum, earning) => sum + earning.netEarnings, 0)] *)
Definition sum_net (l : list SellerEarning) : Q :=
  fold_left (fun sum earning => (sum + netEarnings earning)%Q) l 0%Q.

Definition loadEarnings (st : State) : M State :=
  try_catch
    (user <- blink.auth_me ;;
     earningsData <- blink.sellerEarnings.list_of_seller user ;;
     earningsWithProducts <-
       mapM (fun earning =>
               products <- blink.products.list_by_id (e_product_id earning) ;;
               ret (mkSellerEarning earning (hd_error products)))
         earningsData ;;
     let totalEarnings := sum_net earningsWithProducts in
     let availableBalance :=
       sum_net (filter is_available earningsWithProducts) in
     ret (mkState earningsWithProducts (payoutRequests st)
            (mkStats totalEarnings availableBalance
               (pendingPayouts (stats st)) (completedPayouts (stats st)))))
    (toast "Error" ;; ret st).

Definition loadPayoutRequests (st : State) : M State :=
  try_catch
    (user <- blink.auth_me ;;
     requests <- blink.payoutRequests.list_of_seller user ;;
     let pendingPayouts :=
       List.length (filter (fun r => (pr_status r =? "pending")%string) requests) in
     let completedPayouts :=
       List.length (filter (fun r => (pr_status r =? "completed")%string) requests) in
     ret (mkState (earnings st) requests
            (mkStats (totalEarnings (stats st)) (availableBalance (stats st))
               pendingPayouts completedPayouts)))
    (toast "Error" ;; ret st).

(** [!requestAmount || requestAmount <= 0] *)
Definition not_positive (n : Js.number) : bool :=
  match n with
  | Js.NaN => true
  | Js.Infinity positive => negb positive
  | Js.Finite q => Qle_bool q 0
  end.

(** [requestAmount > balance] *)
Definition exceeds (n : Js.number) (balance : Q) : bool :=
  match n with
  | Js.NaN => false
  | Js.Infinity positive => positive
  | Js.Finite q => Js.Qltb balance q
  end.

Definition paymentDetails_of (form : PayoutForm) : PaymentDetails :=
  if (paymentMethod form =? "bank_transfer")%string then
    BankDetails (bankName form) (accountNumber form) (sortCode form)
      (accountHolderName form)
  else if (paymentMethod form =? "paypal")%string then
    PaypalDetails (paypalEmail form)
  else EmptyDetails.

(** The allocation loop over [availableEarnings].  The remainder is an
    exact rational here and a double on the page: which earnings the loop
    reaches first, and what it writes for each, is the same; where it
    stops can differ by a rounding residue unless the amounts are such
    that the page's arithmetic is exact. *)
Fixpoint allocate (payoutRequestId : string) (remainingAmount : Q)
  (availableEarnings : list SellerEarning) : M unit :=
  match availableEarnings with
  | [] => ret tt
  | earning :: rest =>
      if Qle_bool remainingAmount 0 then ret tt
      else
        let allocationAmount := Qmin remainingAmount (netEarnings earning) in
        itemId <- fresh "payoutitem" ;;
        blink.payoutItems.create
          (mkPayoutItem itemId payoutRequestId (e_id (row earning))
             allocationAmount) ;;
        blink.sellerEarnings.update_status (e_id (row earning))
          pending_payout ;;
        allocate payoutRequestId (remainingAmount - allocationAmount) rest
  end.

Inductive PayoutOutcome : Type :=
| InvalidAmount
| InsufficientBalance
| Submitted (payoutRequestId : string)
| PayoutFailed.

(** Returns the outcome and the page state after the reload; closing the
    dialog and clearing the form are left out. *)
Definition handlePayoutRequest (form : PayoutForm) (st : State)
  : M (PayoutOutcome * State) :=
  let requestAmount := amount form in
  if not_positive requestAmount then
    toast "Error" ;; ret (InvalidAmount, st)
  else if exceeds requestAmount (availableBalance (stats st)) then
    toast "Error" ;; ret (InsufficientBalance, st)
  else
    match requestAmount with
    | Js.Finite requested =>
        try_catch
          (user <- blink.auth_me ;;
           payoutRequestId <- fresh "payout" ;;
           blink.payoutRequests.create
             (mkPayoutRequest payoutRequestId user requested "pending"
                (paymentMethod form) (paymentDetails_of form) (notes form)) ;;
           let availableEarnings := filter is_available (earnings st) in
           allocate payoutRequestId requested availableEarnings ;;
           toast "Success" ;;
           st1 <- loadEarnings st ;;
           st2 <- loadPayoutRequests st1 ;;
           ret (Submitted payoutRequestId, st2))
          (toast "Error" ;; ret (PayoutFailed, st))
    | _ =>
        (* not reached: NaN and the infinities are turned away above *)
        ret (InvalidAmount, st)
    end.

End SellerPayouts.

(** * Vocabulary of the properties

    Predicates and functions in which the properties are stated, and the
    concrete shops, carts and sessions used as examples. *)

Unset Implicit Arguments.
Local Open Scope list_scope.

(** ** Order totals, request traces and what a computation preserves *)

(** The amount of the discount in force, none counting as zero. *)
Definition applied_amount (d : option AppliedDiscount) : Q :=
  match d with
  | Some a => ad_amount a
  | None => 0
  end.

Definition preserves {A} (R : World -> World -> Prop) (m : M A) : Prop :=
  forall w, R w (snd (m w)).

(** The requests sent between two worlds all satisfy [P]. *)
Definition extends_by (P : Request -> Prop) (w w' : World) : Prop :=
  exists delta, trace w' = delta ++ trace w /\ Forall P delta.

(** Nothing but reads went out, and the tables, the session and the set of
    failing lookups are as before. *)
Definition quiet (w w' : World) : Prop :=
  db w' = db w /\ session_user w' = session_user w
  /\ rejects w' = rejects w
  /\ extends_by (fun r => is_write r = false) w w'.

(** A request is acceptable for the cart [items] when, if it writes a stock
    value, that value is the clamped difference for one of the line items. *)
Definition stock_write_ok (items : list CartItem) (r : Request) : Prop :=
  match r with
  | Req_products_update id v =>
      (0 <= v)%Z
      /\ exists item product,
           In item items /\ ci_product item = Some product
           /\ ci_productId item = id
           /\ v = Z.max 0 (pv_stockQuantity product - ci_quantity item)
  | _ => True
  end.

(** Every stock write sent between the two worlds is acceptable. *)
Definition stock_trace (items : list CartItem) : World -> World -> Prop :=
  extends_by (stock_write_ok items).

(** The stock writes among some requests, in the order of the requests. *)
Fixpoint stock_writes (requests : list Request) : list (string * Z) :=
  match requests with
  | [] => []
  | Req_products_update id stock :: rest => (id, stock) :: stock_writes rest
  | _ :: rest => stock_writes rest
  end.

(** What the fulfilment loop writes for one line item:
    [max(0, stockQuantity - quantity)] from the stock the page holds, and
    nothing for an item without product. *)
Definition clamped_write (item : CartItem) : list (string * Z) :=
  match ci_product item with
  | Some product =>
      [(ci_productId item,
        Z.max 0 (pv_stockQuantity product - ci_quantity item))]
  | None => []
  end.

(** One write per line item, first line first. *)
Definition clamped_writes (items : list CartItem) : list (string * Z) :=
  flat_map clamped_write items.

(** No stock write was sent between the two worlds. *)
Definition no_stock_write (w w' : World) : Prop :=
  stock_writes (trace w') = stock_writes (trace w).

(** ** Validation failures *)

(** A computation whose normal results all satisfy [P]. *)
Definition returns_only {A} (P : A -> Prop) (m : M A) : Prop :=
  forall w a, fst (m w) = Ok a -> P a.

Definition same_toasts (w w' : World) : Prop := toasts w' = toasts w.

Definition validation_failure (o : Result Checkout.SubmitOutcome) : bool :=
  match o with
  | Ok Checkout.MissingFields | Ok (Checkout.StockValidationFailed _) => true
  | _ => false
  end.

Definition code_rejected (o : Result (option AppliedDiscount)) : bool :=
  match o with
  | Ok None => true
  | _ => false
  end.

(** The statement of the specification: a failed validation ends with the
    trace of requests exactly as it was. *)
Definition fails_before_any_request (form : Checkout.FormData)
  (st : Checkout.State) (w : World) : Prop :=
  validation_failure (fst (Checkout.handleSubmit form st w)) = true ->
  trace (snd (Checkout.handleSubmit form st w)) = trace w.

Definition sold_out_lamp : ProductRow := mkProduct "p1" "Lamp" 20 1 "seller".

Definition lamp_world : World :=
  mkWorld
    (mkDb [sold_out_lamp] [mkCartRow "c1" "alice" "p1" 2 0] [] [] [] [] [] [] [])
    [] [] "alice" (fun _ => false) 0.

Definition lamp_cart : Checkout.State :=
  Checkout.mkState
    [mkCartItem "c1" "alice" "p1" 2 (Some (view_of sold_out_lamp))] None false.

Definition alice_form : Checkout.FormData :=
  Checkout.mkForm "Alice" "Doe" "alice@example.com" "" "1 High Street"
    "Leeds" "" "LS1" "United Kingdom".

(** ** Discount codes *)

(** The first active row whose code is the upper-cased entry. *)
Definition first_active_match (code : string) (codes : list DiscountCodeRow)
  : option DiscountCodeRow :=
  find (fun d => (d_code d =? Js.toUpperCase code)%string && d_isActive d)
    codes.

Definition unexpired (now : Z) (d : DiscountCodeRow) : Prop :=
  match d_expiresAt d with
  | ExpiresAt t => (now <= t)%Z
  | InvalidDate | NoExpiry => True
  end.

(** Uses are below the maximum, a maximum of [null] or [0] being none. *)
Definition under_max_uses (d : DiscountCodeRow) : Prop :=
  match d_maxUses d with
  | Some k => k <> 0%Z -> (d_currentUses d < k)%Z
  | None => True
  end.

Definition never_used_by (user : string) (d : DiscountCodeRow)
  (uses : list DiscountUseRow) : Prop :=
  forall u, In u uses -> u_discount_code_id u = d_id d -> u_user_id u <> user.

Definition eligible (now : Z) (subtotal : Q) (w : World) (d : DiscountCodeRow)
  : Prop :=
  unexpired now d /\ under_max_uses d
  /\ d_minimumOrderAmount d <= subtotal
  /\ never_used_by (session_user w) d (discountCodeUses (db w)).

Definition accepts (now : Z) (code : string) (subtotal : Q) (w : World)
  : Prop :=
  exists applied,
    fst (DiscountCode.validateAndApplyDiscount now code subtotal w)
    = Ok (Some applied).

(** [min(subtotal, value)] or [min(subtotal, subtotal * pct / 100)]. *)
Definition discount_by_rule (subtotal : Q) (d : DiscountCodeRow) : Q :=
  match d_discountType d with
  | fixed => Qmin subtotal (d_discountValue d)
  | percentage => Qmin subtotal (subtotal * d_discountValue d / 100)
  end.

Definition used_by (user : string) (d : DiscountCodeRow)
  (uses : list DiscountUseRow) : bool :=
  existsb (fun u => (u_discount_code_id u =? d_id d)%string
                    && (u_user_id u =? user)%string) uses.

(** The outcome of the widget in closed form. *)
Definition widget_outcome (now : Z) (code : string) (subtotal : Q) (w : World)
  : option AppliedDiscount :=
  if (Js.trim code =? "")%string then None
  else
    match first_active_match code (discountCodes (db w)) with
    | None => None
    | Some d =>
        if DiscountCode.has_expired now d
           || DiscountCode.limit_reached d
           || Js.Qltb subtotal (d_minimumOrderAmount d)
           || used_by (session_user w) d (discountCodeUses (db w))
        then None
        else Some (mkApplied (d_code d) (DiscountCode.discount_of subtotal d)
                     (d_description d))
    end.

(** The statement of the specification, with "a matching code exists". *)
Definition accepts_iff_some_code_qualifies (now : Z) (code : string)
  (subtotal : Q) (w : World) : Prop :=
  accepts now code subtotal w <->
  exists d,
    In d (discountCodes (db w))
    /\ d_code d = Js.toUpperCase code /\ d_isActive d = true
    /\ eligible now subtotal w d.

(** A code issued twice: the earlier row has lapsed, the later one has not. *)
Definition lapsed_save10 : DiscountCodeRow :=
  mkDiscountCode "d1" "SAVE10" "Spring sale" percentage 10 0 None 0
    (ExpiresAt 5) true.

Definition current_save10 : DiscountCodeRow :=
  mkDiscountCode "d2" "SAVE10" "Summer sale" percentage 10 0 None 0
    (ExpiresAt 50) true.

Definition reissued_code_world : World :=
  mkWorld (mkDb [] [] [] [] [] [lapsed_save10; current_save10] [] [] [])
    [] [] "alice" (fun _ => false) 0.

(** ** Admin sessions and the cart join *)

Definition kai : App.User := App.mkUser "u1" "kai.jiabo.feng@gmail.com".

(** An account that reports no email address. *)
Definition guest : App.User := App.mkUser "u2" "".

(** An administrator signs in and out, then [guest] signs in, all within
    one lifetime of the component. *)
Definition admin_then_guest : list App.AuthState :=
  [ App.mkAuthState (Some kai) false;
    App.mkAuthState None false;
    App.mkAuthState (Some guest) false ].

(** What the lookup of a product id yields: nothing when the request
    rejects or no row has the id. *)
Definition lookup (w : World) (pid : string) : option ProductRow :=
  if rejects w pid then None
  else find (fun p => (p_id p =? pid)%string) (products (db w)).

(** The cart rows of the signed-in user. *)
Definition my_rows (w : World) : list CartRow :=
  filter (fun c => (c_user_id c =? session_user w)%string) (cartItems (db w)).

Definition enriched (w : World) (item : CartRow) : CartItem :=
  mkCartItem (c_id item) (c_user_id item) (c_product_id item)
    (c_quantity item) (option_map view_of (lookup w (c_product_id item))).

Definition found (w : World) (item : CartRow) : bool :=
  match lookup w (c_product_id item) with
  | Some _ => true
  | None => false
  end.

(** The four columns of a cart row that the page keeps. *)
Definition row_columns (item : CartRow) : string * string * string * Z :=
  (c_id item, c_user_id item, c_product_id item, c_quantity item).

Definition item_columns (item : CartItem) : string * string * string * Z :=
  (ci_id item, ci_userId item, ci_productId item, ci_quantity item).

(** ** Cart rows and payout guards *)

(** The cart table after the quantity of row [id] is set to [q]. *)
Definition with_quantity (id : string) (q : Z) (rows : list CartRow)
  : list CartRow :=
  map (fun c =>
         if (c_id c =? id)%string
         then mkCartRow (c_id c) (c_user_id c) (c_product_id c) q
                (c_created_at c)
         else c) rows.

Definition rows_of (w : World) (user product : string) : list CartRow :=
  filter (fun c => (c_user_id c =? user)%string
                   && (c_product_id c =? product)%string)
    (cartItems (db w)).



Definition last_copy : BookDetails.Book := BookDetails.mkBook "b1" "Dune" 8 1.

(** The one copy in stock is already in the customer's cart. *)
Definition last_copy_in_cart : World :=
  mkWorld (mkDb [] [mkCartRow "c1" "alice" "b1" 1 0] [] [] [] [] [] [] [])
    [] [] "alice" (fun _ => false) 0.

(** The sum of the net earnings that are available. *)
Definition available_balance (earnings : list SellerPayouts.SellerEarning)
  : Q :=
  SellerPayouts.sum_net (filter SellerPayouts.is_available earnings).

(** The statistics agree with the earnings on display, as they do after
    every load. *)
Definition coherent (st : SellerPayouts.State) : Prop :=
  SellerPayouts.availableBalance (SellerPayouts.stats st)
  = available_balance (SellerPayouts.earnings st).

Definition not_a_positive_number (n : Js.number) : Prop :=
  match n with
  | Js.NaN => True
  | Js.Infinity positive => positive = false
  | Js.Finite q => q <= 0
  end.

Definition greater_than (n : Js.number) (balance : Q) : Prop :=
  match n with
  | Js.NaN => False
  | Js.Infinity positive => positive = true
  | Js.Finite q => balance < q
  end.

(** ** Listing order *)

(** Largest key first. *)
Definition descending {A} (key : A -> Z) : list A -> Prop :=
  StronglySorted (fun a b => (key b <= key a)%Z).

(** ** Payout allocation *)

(** The earnings the loop visits, each with the amount taken from it. *)
Fixpoint allocation (remaining : Q) (l : list SellerPayouts.SellerEarning)
  : list (SellerPayouts.SellerEarning * Q) :=
  match l with
  | [] => []
  | earning :: rest =>
      if Qle_bool remaining 0 then []
      else
        let a := Qmin remaining (SellerPayouts.netEarnings earning) in
        (earning, a) :: allocation (remaining - a) rest
  end.

Definition touched (remaining : Q) (l : list SellerPayouts.SellerEarning)
  : list SellerPayouts.SellerEarning :=
  map fst (allocation remaining l).

Definition sumQ (l : list Q) : Q := fold_right Qplus 0 l.

(** [takes r l amounts]: from each earning of [l] in turn the amount taken
    is [min(remaining, netEarnings)], [r] being what remains at the start. *)
Inductive takes : Q -> list SellerPayouts.SellerEarning -> list Q -> Prop :=
| takes_nil r : takes r [] []
| takes_cons r e es a rest :
    0 < r ->
    a = Qmin r (SellerPayouts.netEarnings e) ->
    takes (r - a) es rest ->
    takes r (e :: es) (a :: rest).

(** The requested amount and the net earnings are whole numbers, small
    enough for every sum and difference of them to be a whole number below
    [2^53].  The page computes in double precision; on such amounts its
    additions, subtractions and comparisons are exact, and so agree with
    the rationals of the model. *)
Definition whole_amounts (requested : Q)
  (earnings : list SellerPayouts.SellerEarning) : Prop :=
  exists (n : Z) (nets : list Z),
    requested == inject_Z n
    /\ Forall2 (fun earning net =>
                  SellerPayouts.netEarnings earning == inject_Z net)
         earnings nets
    /\ (Z.abs n + fold_right Z.add 0 (map Z.abs nets) <= 2 ^ 53)%Z.

Definition set_pending (e : EarningRow) : EarningRow :=
  mkEarning (e_id e) (e_seller_id e) (e_order_id e) (e_product_id e)
    (e_quantity e) (e_unit_price e) (e_total_earnings e) (e_commission_rate e)
    (e_commission_amount e) (e_net_earnings e) pending_payout (e_created_at e).

(** The earnings table once the rows with an id in [ids] are pending. *)
Definition flip_to_pending (ids : list string) (rows : list EarningRow)
  : list EarningRow :=
  map (fun e => if Js.includes ids (e_id e) then set_pending e else e) rows.

Definition earning_id (e : SellerPayouts.SellerEarning) : string := e_id (SellerPayouts.row e).

(** The seller's earnings are on display in the order they were loaded. *)
Definition on_display (w : World) (st : SellerPayouts.State) : Prop :=
  map SellerPayouts.row (SellerPayouts.earnings st)
  = orderBy_desc e_created_at
      (filter (fun e => (e_seller_id e =? session_user w)%string)
         (sellerEarnings (db w))).

(** ** Payout scenarios *)

(** An available earning of the signed-in seller that ends up pending. *)
Definition consumed (w w' : World) (e : EarningRow) : Prop :=
  In e (sellerEarnings (db w))
  /\ e_seller_id e = session_user w
  /\ e_status e = available
  /\ exists e',
       In e' (sellerEarnings (db w')) /\ e_id e' = e_id e
       /\ e_status e' = pending_payout.

(** The statement of the specification read as oldest first: an earning is
    consumed only if every older available earning of the seller is. *)
Definition consumes_oldest_first (w w' : World) : Prop :=
  forall older newer,
    In older (sellerEarnings (db w)) ->
    e_seller_id older = session_user w ->
    e_status older = available ->
    (e_created_at older < e_created_at newer)%Z ->
    consumed w w' newer ->
    consumed w w' older.

Definition january_sale : EarningRow :=
  mkEarning "e1" "sam" "o1" "p1" 1 20 20 (5 # 100) 1 19 available 1.

Definition march_sale : EarningRow :=
  mkEarning "e2" "sam" "o2" "p1" 1 20 20 (5 # 100) 1 19 available 3.

Definition two_sales : World :=
  mkWorld (mkDb [] [] [] [] [january_sale; march_sale] [] [] [] [])
    [] [] "sam" (fun _ => false) 0.

(** The page as it stands after loading in [two_sales]. *)
Definition two_sales_page : SellerPayouts.State :=
  SellerPayouts.mkState [SellerPayouts.mkSellerEarning march_sale None; SellerPayouts.mkSellerEarning january_sale None]
    [] (SellerPayouts.mkStats 38 38 0 0).

Definition request_of (q : Q) : SellerPayouts.PayoutForm :=
  SellerPayouts.mkForm (Js.Finite q) "paypal" "" "" "" "" "sam@example.com" "".

(** ** Checkout *)

(** What the stock re-validation asks of a row: its product is found and
    has at least the quantity in stock. *)
Definition revalidates (w : World) (item : CartRow) : bool :=
  match lookup w (c_product_id item) with
  | Some p => (c_quantity item <=? p_stock_quantity p)%Z
  | None => false
  end.

(** The cart as the checkout page loads it. *)
Definition loaded_cart (w : World) : list CartItem :=
  filter has_product
    (map (enriched w) (orderBy_desc c_created_at (my_rows w))).

Definition stock_in (ps : list ProductRow) (pid : string) : option Z :=
  option_map p_stock_quantity (find (fun p => (p_id p =? pid)%string) ps).

Definition set_stock (pid : string) (v : Z) (ps : list ProductRow)
  : list ProductRow :=
  map (fun p =>
         if (p_id p =? pid)%string
         then mkProduct (p_id p) (p_name p) (p_price p) v (p_user_id p)
         else p) ps.

(** The products table after the stock write of one line item. *)
Definition restock1 (ps : list ProductRow) (item : CartItem)
  : list ProductRow :=
  match ci_product item with
  | Some product =>
      set_stock (ci_productId item)
        (Z.max 0 (pv_stockQuantity product - ci_quantity item)) ps
  | None => ps
  end.

Definition restock (items : list CartItem) (ps : list ProductRow)
  : list ProductRow :=
  fold_left restock1 items ps.

(** What one pass of the fulfilment loop leaves as it was. *)
Definition fulfil_frame (w w' : World) : Prop :=
  cartItems (db w') = cartItems (db w)
  /\ orders (db w') = orders (db w)
  /\ session_user w' = session_user w
  /\ rejects w' = rejects w.

(** What recording the use of a code leaves as it was. *)
Definition usage_frame (w w' : World) : Prop :=
  cartItems (db w') = cartItems (db w)
  /\ orders (db w') = orders (db w)
  /\ orderItems (db w') = orderItems (db w)
  /\ products (db w') = products (db w)
  /\ session_user w' = session_user w.

Definition required_fields_filled (form : Checkout.FormData) : Prop :=
  Checkout.firstName form <> "" /\ Checkout.lastName form <> ""
  /\ Checkout.email form <> "" /\ Checkout.address form <> "".

(** A line item that passes the re-validation in world [w]. *)
Definition item_in_stock (w : World) (item : CartItem) : Prop :=
  ci_product item <> None
  /\ exists p, lookup w (ci_productId item) = Some p
               /\ (ci_quantity item <= p_stock_quantity p)%Z.

Definition checkout_with_code (now : Z) (code : string)
  (form : Checkout.FormData) : M Checkout.SubmitOutcome :=
  page <- Checkout.loadCartItems (Checkout.mkState [] None false) ;;
  applied <-
    DiscountCode.validateAndApplyDiscount now code
      (Checkout.calculateSubtotal (Checkout.cartItems page)) ;;
  Checkout.handleSubmit form
    (Checkout.mkState (Checkout.cartItems page) applied false).




(** ** Checkout scenarios *)

(** A cart worth 100: two lamps at 30 and a chair at 40. *)
Definition lamp : ProductRow := mkProduct "p1" "Lamp" 30 5 "sam".
Definition chair : ProductRow := mkProduct "p2" "Chair" 40 1 "kim".

Definition save10 : DiscountCodeRow :=
  mkDiscountCode "d1" "SAVE10" "Ten percent off" percentage 10 50 (Some 100%Z)
    3 (ExpiresAt 500) true.

Definition shop : World :=
  mkWorld
    (mkDb [lamp; chair]
       [mkCartRow "c1" "alice" "p1" 2 10; mkCartRow "c2" "alice" "p2" 1 20;
        mkCartRow "c3" "bob" "p1" 1 30]
       [] [] [] [save10] [] [] [])
    [] [] "alice" (fun _ => false) 0.

(** The page shows a stock of one, loaded before a delivery of four more;
    the cart row asks for three. *)
Definition stale_page : Checkout.State :=
  Checkout.mkState
    [mkCartItem "c1" "alice" "p1" 3 (Some (mkView "p1" "Lamp" 30 1))] None
    false.

Definition restocked_shop : World :=
  mkWorld
    (mkDb [mkProduct "p1" "Lamp" 30 5 "sam"]
       [mkCartRow "c1" "alice" "p1" 3 0] [] [] [] [] [] [] [])
    [] [] "alice" (fun _ => false) 0.




(** * Further code and its vocabulary *)

(** ** Quantity controls of the cart page *)

Module CartControls.

(** [{ ...item, quantity: newQuantity }] *)
Definition with_item_quantity (item : CartItem) (quantity : Z) : CartItem :=
  mkCartItem (ci_id item) (ci_userId item) (ci_productId item) quantity
    (ci_product item).

Definition updateQuantity (itemId : string) (newQuantity : Z)
  (st : Cart.State) : M Cart.State :=
  if (newQuantity <? 1)%Z then ret st
  else
    try_catch
      (match
         find (fun item => (ci_id item =? itemId)%string) (Cart.cartItems st)
       with
       | None => toast "Error" ;; ret st
       | Some cartItem =>
           match ci_product cartItem with
           | None => toast "Error" ;; ret st
           | Some product =>
               if (pv_stockQuantity product <? newQuantity)%Z then
                 toast "Insufficient Stock" ;; ret st
               else
                 blink.cartItems.update_quantity itemId newQuantity ;;
                 ret (Cart.mkState
                        (map (fun item =>
                                if (ci_id item =? itemId)%string
                                then with_item_quantity item newQuantity
                                else item) (Cart.cartItems st))
                        (Cart.appliedDiscount st))
           end
       end)
      (toast "Error" ;; ret st).

Definition removeItem (itemId : string) (st : Cart.State) : M Cart.State :=
  try_catch
    (blink.cartItems.delete itemId ;;
     let items :=
       filter (fun item => negb (ci_id item =? itemId)%string)
         (Cart.cartItems st) in
     toast "Removed" ;;
     ret (Cart.mkState items (Cart.appliedDiscount st)))
    (toast "Error" ;; ret st).

End CartControls.

(** Every displayed quantity is at least one and at most the stock the
    page holds for the product. *)
Definition within_stock (st : Cart.State) : Prop :=
  forall item product,
    In item (Cart.cartItems st) ->
    ci_product item = Some product ->
    (1 <= ci_quantity item <= pv_stockQuantity product)%Z.

(** The displayed quantity of an item is the quantity of its backend row. *)
Definition in_sync (w : World) (st : Cart.State) : Prop :=
  forall item row,
    In item (Cart.cartItems st) ->
    In row (cartItems (db w)) ->
    c_id row = ci_id item ->
    c_quantity row = ci_quantity item.

Definition cart_page_of (items : list CartItem) : Cart.State :=
  Cart.mkState items None.

Definition two_lamps_on_display : Cart.State :=
  cart_page_of [mkCartItem "c1" "alice" "p1" 2 (Some (mkView "p1" "Lamp" 30 5))].

Definition two_lamps_in_cart : World :=
  mkWorld
    (mkDb [mkProduct "p1" "Lamp" 30 5 "sam"]
       [mkCartRow "c1" "alice" "p1" 2 10] [] [] [] [] [] [] [])
    [] [] "alice" (fun _ => false) 0.

(** ** One cart row per user and product *)

(** [Array.from({ length: Math.min(10, stockQuantity) }, (_, i) => i + 1)]:
    the quantities the product page offers. *)
Definition quantity_options (stockQuantity : Z) : list Z :=
  map (fun i => (Z.of_nat i + 1)%Z)
    (seq 0 (Z.to_nat (Z.min 10 stockQuantity))).

(** No user has two cart rows for one product. *)
Definition one_row_per_product (w : World) : Prop :=
  forall user product, (List.length (rows_of w user product) <= 1)%nat.

Definition new_row_for (w : World) (product : string) (quantity : Z)
  : CartRow :=
  mkCartRow (generated "cart" (nonce w)) (session_user w) product quantity
    (Z.of_nat (S (nonce w))).

Definition empty_shop : World :=
  mkWorld (mkDb [mkProduct "p1" "Lamp" 30 5 "sam"] [] [] [] [] [] [] [] [])
    [] [] "alice" (fun _ => false) 0.

Definition lamp_view : ProductView := mkView "p1" "Lamp" 30 5.

(** ** Seller earnings written at checkout *)

(** A request is acceptable when, if it books an earning, the earning is
    for one of the line items, at the price on display, available, with a
    commission of 5% of the line total and the other 95% as net earning. *)
Definition earning_ok (items : list CartItem) (r : Request) : Prop :=
  match r with
  | Req_sellerEarnings_create row =>
      e_status row = available
      /\ e_commission_amount row == e_total_earnings row * (5 # 100)
      /\ e_net_earnings row == e_total_earnings row * (95 # 100)
      /\ exists item product,
           In item items /\ ci_product item = Some product
           /\ e_product_id row = ci_productId item
           /\ e_quantity row = ci_quantity item
           /\ e_unit_price row = pv_price product
           /\ e_total_earnings row
              = pv_price product * inject_Z (ci_quantity item)
  | _ => True
  end.

Definition earning_trace (items : list CartItem) : World -> World -> Prop :=
  extends_by (earning_ok items).

(** ** A code redeemed at checkout *)

(** The discount tables are as they were. *)
Definition codes_frame (w w' : World) : Prop :=
  discountCodes (db w') = discountCodes (db w)
  /\ discountCodeUses (db w') = discountCodeUses (db w).

(** The first row of the table with the given code, active or not: the row
    the checkout books the use on. *)
Definition first_with_code (code : string) (codes : list DiscountCodeRow)
  : option DiscountCodeRow :=
  find (fun c => (d_code c =? code)%string) codes.

Definition with_uses (uses : Z) (c : DiscountCodeRow) : DiscountCodeRow :=
  mkDiscountCode (d_id c) (d_code c) (d_description c) (d_discountType c)
    (d_discountValue c) (d_minimumOrderAmount c) (d_maxUses c) uses
    (d_expiresAt c) (d_isActive c).

Definition shop_page_with_code : Checkout.State :=
  Checkout.mkState (loaded_cart shop)
    (Some (mkApplied "SAVE10" 10 "Ten percent off")) false.

(** ** The admin flag when no administrator has signed in *)

(** No notification so far carried an allow-listed address. *)
Definition no_admin_among (events : list App.AuthState) : Prop :=
  forall state u,
    In state events -> App.auth_user state = Some u ->
    ADMIN_CONFIG.isAdmin (App.email u) = false.

Definition still_loading : App.AuthState := App.mkAuthState None true.

(** ** Letter case *)

(** Every character of the text is an ASCII character. *)
Definition is_ascii_text (text : string) : bool :=
  forallb (fun c => (nat_of_ascii c <? 128)%nat) (list_ascii_of_string text).

(** ** A failing lookup while the checkout page loads *)

Definition flaky_shop : World :=
  mkWorld
    (mkDb [lamp; chair]
       [mkCartRow "c1" "alice" "p1" 2 10; mkCartRow "c2" "alice" "p2" 1 20]
       [] [] [] [] [] [] [])
    [] [] "alice" (fun id => (id =? "p2")%string) 0.

(** ** The payout page after a request *)

(** The earnings of the signed-in seller, newest first. *)
Definition my_earnings (w : World) : list EarningRow :=
  orderBy_desc e_created_at
    (filter (fun e => (e_seller_id e =? session_user w)%string)
       (sellerEarnings (db w))).

(** The earnings as the page lists them after a load. *)
Definition listed_earnings (w : World) : list SellerPayouts.SellerEarning :=
  map (fun e => SellerPayouts.mkSellerEarning e (lookup w (e_product_id e)))
    (my_earnings w).

(** No product lookup for an earning of the signed-in seller rejects. *)
Definition earnings_reachable (w : World) : Prop :=
  forall e,
    In e (sellerEarnings (db w)) ->
    e_seller_id e = session_user w ->
    rejects w (e_product_id e) = false.

(** ** The listing's filter (src/pages/HomePage.tsx, [loadProducts]) *)

(** The [where] objects the listing builds: [{}], [{ field: value }],
    [{ field: { contains: value } }], [{ AND: [...] }] and [{ OR: [...] }]. *)
Local Set Warnings "-register-all".

Inductive Where : Type :=
| Where_empty
| Where_equals (field value : string)
| Where_contains (field value : string)
| Where_AND (clauses : list Where)
| Where_OR (clauses : list Where).

Module ProductListing.

(** [query.AND]: an array is truthy, a missing key is not. *)
Definition has_AND (query : Where) : bool :=
  match query with Where_AND _ => true | _ => false end.

(** [query.OR]. *)
Definition has_OR (query : Where) : bool :=
  match query with Where_OR _ => true | _ => false end.

(** [Object.keys(query).length]. *)
Definition key_count (query : Where) : nat :=
  match query with Where_empty => 0%nat | _ => 1%nat end.

(** The [where] clause of [loadProducts], built in three steps from the
    search text and the two drop-downs. *)
Definition query (searchQuery filterCategory filterCondition : string)
  : Where :=
  let query0 := Where_empty in
  let query1 :=
    if Js.falsy_string searchQuery then query0
    else Where_OR [ Where_contains "name" searchQuery;
                    Where_contains "brand" searchQuery;
                    Where_contains "description" searchQuery;
                    Where_contains "category" searchQuery ] in
  let query2 :=
    if negb (filterCategory =? "all") then
      if Js.falsy_string searchQuery
      then Where_equals "category" filterCategory
      else Where_AND [query1; Where_equals "category" filterCategory]
    else query1 in
  if negb (filterCondition =? "all") then
    let conditionQuery := Where_equals "condition" filterCondition in
    if has_AND query2 || has_OR query2 || (0 <? key_count query2)%nat
    then Where_AND [query2; conditionQuery]
    else conditionQuery
  else query2.

End ProductListing.

(** What a [where] object selects.  A row is read by column name;
    [contains needle text] is the backend's substring test, left open.
    The empty object selects every row. *)
Fixpoint selects (contains : string -> string -> bool)
  (row : string -> string) (q : Where) : bool :=
  match q with
  | Where_empty => true
  | Where_equals field value => (row field =? value)
  | Where_contains field value => contains value (row field)
  | Where_AND clauses => forallb (selects contains row) clauses
  | Where_OR clauses => existsb (selects contains row) clauses
  end.

(** * Properties *)

(** ** Arithmetic of the primitives *)

Lemma or_zero_eq (q : Q) : Js.or_zero q == q.
Proof.
  unfold Js.or_zero. destruct (Qeq_bool q 0) eqn:E.
  - apply Qeq_bool_eq in E. symmetry. exact E.
  - reflexivity.
Qed.

Lemma Qltb_true (a b : Q) : Js.Qltb a b = true <-> a < b.
Proof.
  unfold Js.Qltb. rewrite negb_true_iff. split.
  - intros H. apply Qnot_le_lt. intros Hle.
    apply Qle_bool_iff in Hle. congruence.
  - intros H. destruct (Qle_bool b a) eqn:E; [|reflexivity].
    apply Qle_bool_iff in E. exfalso. apply (Qlt_not_le _ _ H E).
Qed.

Lemma Qltb_false (a b : Q) : Js.Qltb a b = false <-> b <= a.
Proof.
  unfold Js.Qltb. rewrite negb_false_iff. apply Qle_bool_iff.
Qed.

Lemma includes_In (l : list string) (s : string) :
  Js.includes l s = true <-> In s l.
Proof.
  unfold Js.includes. rewrite existsb_exists. split.
  - intros [x [Hin Heq]]. apply String.eqb_eq in Heq. subst. exact Hin.
  - intros Hin. exists s. split; [exact Hin | apply String.eqb_refl].
Qed.

(** ** Order totals *)

Lemma discountAmount_of_eq (d : option AppliedDiscount) :
  Checkout.discountAmount_of d == applied_amount d.
Proof. destruct d; simpl; [apply or_zero_eq | reflexivity]. Qed.

(** C9: on the cart page and on the checkout page the order total is
    [max(0, subtotal - discountAmount)] for every cart and every applied
    discount, whatever its amount, and so is never negative. *)
Theorem total_is_clamped_difference :
  (forall st : Cart.State,
      Cart.calculateTotal st
      == Qmax 0 (Cart.calculateSubtotal (Cart.cartItems st)
                 - applied_amount (Cart.appliedDiscount st))
      /\ 0 <= Cart.calculateTotal st)
  /\ (forall st : Checkout.State,
         Checkout.calculateTotal st
         == Qmax 0 (Checkout.calculateSubtotal (Checkout.cartItems st)
                    - applied_amount (Checkout.appliedDiscount st))
         /\ 0 <= Checkout.calculateTotal st).
Proof.
  split; intros st; (split; [| apply Q.le_max_l]).
  - unfold Cart.calculateTotal.
    destruct (Cart.appliedDiscount st) as [a|]; simpl;
      [rewrite or_zero_eq|]; reflexivity.
  - unfold Checkout.calculateTotal. rewrite discountAmount_of_eq. reflexivity.
Qed.

(** ** What a computation leaves invariant

    [preserves R m]: whatever [m] returns or throws, the world it ends in is
    related by [R] to the world it started in. *)

Section Preservation.

Variable R : World -> World -> Prop.
Hypothesis R_refl : forall w, R w w.
Hypothesis R_trans : forall a b c, R a b -> R b c -> R a c.

Lemma preserves_ret {A} (a : A) : preserves R (ret a).
Proof. intros w. apply R_refl. Qed.

Lemma preserves_bind {A B} (m : M A) (k : A -> M B) :
  preserves R m -> (forall a, preserves R (k a)) -> preserves R (bind m k).
Proof.
  intros Hm Hk w. unfold bind. specialize (Hm w).
  destruct (m w) as [[a|] w1]; simpl in *.
  - eapply R_trans; [exact Hm | apply Hk].
  - exact Hm.
Qed.

Lemma preserves_try_catch {A} (m h : M A) :
  preserves R m -> preserves R h -> preserves R (try_catch m h).
Proof.
  intros Hm Hh w. unfold try_catch. specialize (Hm w).
  destruct (m w) as [[a|] w1]; simpl in *.
  - exact Hm.
  - eapply R_trans; [exact Hm | apply Hh].
Qed.

Lemma preserves_mapM {A B} (f : A -> M B) (l : list A) :
  (forall x, In x l -> preserves R (f x)) -> preserves R (mapM f l).
Proof.
  induction l as [|x xs IH]; intros Hf; simpl.
  - apply preserves_ret.
  - apply preserves_bind; [apply Hf; now left|]. intros y.
    apply preserves_bind; [apply IH; intros; apply Hf; now right|].
    intros ys. apply preserves_ret.
Qed.

Lemma preserves_forM {A} (f : A -> M unit) (l : list A) :
  (forall x, In x l -> preserves R (f x)) -> preserves R (forM_ l f).
Proof.
  induction l as [|x xs IH]; intros Hf; simpl.
  - apply preserves_ret.
  - apply preserves_bind; [apply Hf; now left|]. intros _.
    apply IH. intros; apply Hf; now right.
Qed.

End Preservation.

Lemma extends_by_same P w w' : trace w' = trace w -> extends_by P w w'.
Proof. intros H. exists []. split; [exact H | constructor]. Qed.

Lemma extends_by_refl P w : extends_by P w w.
Proof. now apply extends_by_same. Qed.

Lemma extends_by_trans P a b c :
  extends_by P a b -> extends_by P b c -> extends_by P a c.
Proof.
  intros [d1 [E1 F1]] [d2 [E2 F2]]. exists (d2 ++ d1). split.
  - rewrite E2, E1. apply app_assoc.
  - apply Forall_app. split; assumption.
Qed.

Lemma extends_by_cons P r w w' :
  trace w' = r :: trace w -> P r -> extends_by P w w'.
Proof. intros E H. exists [r]. split; [exact E | repeat constructor; exact H]. Qed.

Lemma extends_by_send P r w : P r -> extends_by P w (send r w).
Proof. now apply extends_by_cons. Qed.

Ltac quiet_intro :=
  unfold quiet; simpl; repeat apply conj; try reflexivity.

Lemma quiet_refl w : quiet w w.
Proof. quiet_intro. apply extends_by_refl. Qed.

Lemma quiet_trans a b c : quiet a b -> quiet b c -> quiet a c.
Proof.
  intros (D1 & S1 & J1 & E1) (D2 & S2 & J2 & E2).
  unfold quiet; repeat apply conj; try congruence.
  eapply extends_by_trans; eassumption.
Qed.

Lemma quiet_toast t : preserves quiet (toast t).
Proof. intros w. quiet_intro. now apply extends_by_same. Qed.

Lemma quiet_query {A} r (answer : Db -> A) :
  is_write r = false -> preserves quiet (query r answer).
Proof. intros H w. quiet_intro. apply (extends_by_send _ _ w H). Qed.

Lemma quiet_auth_me : preserves quiet blink.auth_me.
Proof. intros w. quiet_intro. now apply (extends_by_send _ Req_auth_me w). Qed.

Lemma quiet_products_list id : preserves quiet (blink.products.list_by_id id).
Proof.
  intros w. unfold blink.products.list_by_id.
  destruct (rejects w id); quiet_intro;
    now apply (extends_by_send _ (Req_products_list id) w).
Qed.

Ltac quiet_step :=
  first
    [ apply (preserves_ret quiet quiet_refl)
    | apply quiet_toast
    | apply quiet_auth_me
    | apply quiet_products_list
    | apply quiet_query; reflexivity
    | apply (preserves_bind quiet quiet_trans); [| intros ?]
    | apply (preserves_try_catch quiet quiet_trans) ].

Lemma quiet_stockValidation items errors :
  preserves quiet (Checkout.stockValidation items errors).
Proof.
  revert errors. induction items as [|item rest IH]; intros errors; simpl.
  - quiet_step.
  - destruct (ci_product item) as [product|]; [|apply IH].
    quiet_step; [quiet_step|].
    destruct a as [|current ?]; [apply IH|].
    destruct (_ <? _)%Z; apply IH.
Qed.

Lemma quiet_cart_enrich item : preserves quiet (Cart.enrich item).
Proof.
  unfold Cart.enrich. repeat quiet_step. destruct a; quiet_step.
Qed.

Lemma quiet_checkout_enrich item : preserves quiet (Checkout.enrich item).
Proof. unfold Checkout.enrich. repeat quiet_step. Qed.

Lemma quiet_cart_join items : preserves quiet (Cart.join items).
Proof.
  unfold Cart.join. quiet_step; [|quiet_step].
  apply (preserves_mapM quiet quiet_refl quiet_trans). intros; apply quiet_cart_enrich.
Qed.

Lemma quiet_checkout_join items : preserves quiet (Checkout.join items).
Proof.
  unfold Checkout.join. quiet_step; [|quiet_step].
  apply (preserves_mapM quiet quiet_refl quiet_trans).
  intros; apply quiet_checkout_enrich.
Qed.

Lemma quiet_widget now code subtotal :
  preserves quiet (DiscountCode.validateAndApplyDiscount now code subtotal).
Proof.
  unfold DiscountCode.validateAndApplyDiscount.
  destruct (Js.falsy_string _); [repeat quiet_step|].
  quiet_step; [|repeat quiet_step].
  quiet_step; [quiet_step|]. quiet_step; [unfold blink.discountCodes.list_by_code; quiet_step|].
  destruct a0 as [|discountCode ?]; [repeat quiet_step|].
  destruct (DiscountCode.has_expired _ _); [repeat quiet_step|].
  destruct (DiscountCode.limit_reached _); [repeat quiet_step|].
  destruct (Js.Qltb _ _); [repeat quiet_step|].
  quiet_step; [unfold blink.discountCodeUses.list_of_code_user; quiet_step|].
  destruct (_ <? _)%nat; repeat quiet_step.
Qed.

(** ** Stock written at checkout *)

Ltac ext_prim :=
  let w := fresh "w" in
  intros w; cbn;
  first
    [ now apply extends_by_same
    | eapply extends_by_cons; [reflexivity | exact I] ].

Section StockWrites.

Variable items : list CartItem.

Lemma stock_trace_refl : forall w, stock_trace items w w.
Proof. apply extends_by_refl. Qed.

Lemma stock_trace_trans :
  forall a b c,
    stock_trace items a b -> stock_trace items b c -> stock_trace items a c.
Proof. apply extends_by_trans. Qed.

Lemma stock_ok_products_list id : preserves (stock_trace items) (blink.products.list_by_id id).
Proof.
  intros w. unfold blink.products.list_by_id, stock_trace.
  destruct (rejects w id); cbn;
    (eapply extends_by_cons; [reflexivity | exact I]).
Qed.

Ltac stock_step :=
  first
    [ apply (preserves_ret (stock_trace items) stock_trace_refl)
    | apply stock_ok_products_list
    | apply (preserves_bind (stock_trace items) stock_trace_trans); [| intros ?]
    | apply (preserves_try_catch (stock_trace items) stock_trace_trans)
    | unfold stock_trace; ext_prim ].

Lemma stock_ok_stockValidation l errors :
  preserves (stock_trace items) (Checkout.stockValidation l errors).
Proof.
  revert errors. induction l as [|item rest IH]; intros errors; simpl.
  - stock_step.
  - destruct (ci_product item) as [product|]; [|apply IH].
    stock_step; [stock_step|].
    destruct a as [|current ?]; [apply IH|].
    destruct (_ <? _)%Z; apply IH.
Qed.

Lemma stock_ok_fulfil orderId item :
  In item items -> preserves (stock_trace items) (Checkout.fulfil orderId item).
Proof.
  intros Hin. unfold Checkout.fulfil.
  stock_step; [stock_step|]. stock_step; [stock_step|].
  destruct (ci_product item) as [product|] eqn:Hp; [|stock_step].
  stock_step.
  - intros w. unfold stock_trace. cbn.
    eapply extends_by_cons; [reflexivity|].
    split; [apply Z.le_max_l|]. exists item, product. auto.
  - stock_step; [stock_step|]. destruct a2; repeat stock_step.
Qed.

Lemma stock_ok_recordDiscountUsage user orderId applied :
  preserves (stock_trace items) (Checkout.recordDiscountUsage user orderId applied).
Proof.
  unfold Checkout.recordDiscountUsage. destruct applied; [|stock_step].
  stock_step; [stock_step|]. destruct a0; repeat stock_step.
Qed.

Lemma stock_ok_handleSubmit form st :
  items = Checkout.cartItems st ->
  preserves (stock_trace items) (Checkout.handleSubmit form st).
Proof.
  intros E. unfold Checkout.handleSubmit.
  destruct (_ || _); [repeat stock_step|].
  stock_step; [|repeat stock_step].
  stock_step; [stock_step|].
  stock_step; [apply stock_ok_stockValidation|].
  destruct (_ <? _)%nat; [repeat stock_step|].
  stock_step; [stock_step|]. stock_step; [stock_step|].
  stock_step.
  { apply (preserves_forM (stock_trace items) stock_trace_refl stock_trace_trans). intros x Hx.
    apply stock_ok_fulfil. rewrite E. exact Hx. }
  stock_step; [apply stock_ok_recordDiscountUsage|].
  stock_step.
  { apply (preserves_forM (stock_trace items) stock_trace_refl stock_trace_trans). intros x Hx. stock_step. }
  repeat stock_step.
Qed.

End StockWrites.

(** ** Validation failures *)

Lemma returns_only_ret {A} (P : A -> Prop) (a : A) :
  P a -> returns_only P (ret a).
Proof. intros H w b E. cbn in E. now inversion E; subst. Qed.

Lemma returns_only_bind {A B} (P : B -> Prop) (m : M A) (k : A -> M B) :
  (forall a, returns_only P (k a)) -> returns_only P (bind m k).
Proof.
  intros H w b. unfold bind. destruct (m w) as [[a|] w1]; cbn.
  - apply H.
  - discriminate.
Qed.

Lemma same_toasts_stockValidation items errors :
  preserves same_toasts (Checkout.stockValidation items errors).
Proof.
  assert (Hr : forall w, same_toasts w w) by reflexivity.
  assert (Ht : forall a b c, same_toasts a b -> same_toasts b c -> same_toasts a c)
    by (unfold same_toasts; congruence).
  revert errors. induction items as [|item rest IH]; intros errors; simpl.
  - now apply preserves_ret.
  - destruct (ci_product item) as [product|]; [|apply IH].
    apply (preserves_bind _ Ht).
    + intros w. unfold blink.products.list_by_id.
      destruct (rejects w _); reflexivity.
    + intros [|current ?]; [apply IH|]. destruct (_ <? _)%Z; apply IH.
Qed.

Lemma handleSubmit_failure_is_quiet form st w :
  validation_failure (fst (Checkout.handleSubmit form st w)) = true ->
  quiet w (snd (Checkout.handleSubmit form st w))
  /\ (exists t, toasts (snd (Checkout.handleSubmit form st w)) = t :: toasts w)
  /\ (fst (Checkout.handleSubmit form st w) = Ok Checkout.MissingFields ->
      trace (snd (Checkout.handleSubmit form st w)) = trace w).
Proof.
  remember (Checkout.handleSubmit form st w) as r eqn:Er.
  unfold Checkout.handleSubmit in Er.
  destruct (_ || _).
  { cbn in Er. subst r. cbn. intros _.
    split; [|split; [eexists; reflexivity | reflexivity]].
    quiet_intro. now apply extends_by_same. }
  unfold try_catch in Er. unfold bind at 1 in Er.
  unfold blink.auth_me in Er. cbv beta iota in Er.
  unfold bind at 1 in Er.
  pose proof (quiet_stockValidation (Checkout.cartItems st) []
                (send Req_auth_me w)) as Hq.
  pose proof (same_toasts_stockValidation (Checkout.cartItems st) []
                (send Req_auth_me w)) as Hs.
  destruct (Checkout.stockValidation _ _ _) as [[errs|] w1]; cbn in Hq, Hs.
  2:{ cbn in Er. subst r. cbn. discriminate. }
  destruct (0 <? List.length errs)%nat.
  - cbn in Er. subst r. cbn. intros _. split; [|split].
    + eapply quiet_trans; [apply (quiet_auth_me w)|].
      eapply quiet_trans; [exact Hq|].
      quiet_intro. now apply extends_by_same.
    + exists "Stock Validation Failed". f_equal. exact Hs.
    + discriminate.
  - match type of Er with
    | context [match ?m w1 with _ => _ end] =>
        assert (Hr : returns_only
                  (fun o => exists oid, o = Checkout.OrderPlaced oid) m)
    end.
    { apply returns_only_bind. intros oid.
      repeat (apply returns_only_bind; intros ?).
      apply returns_only_ret. eauto. }
    match type of Er with
    | context [match ?m w1 with _ => _ end] =>
        specialize (Hr w1); destruct (m w1) as [[o|] w2]
    end.
    + destruct (Hr o eq_refl) as [oid ->]. subst r. cbn. discriminate.
    + subst r. cbn. discriminate.
Qed.

Lemma widget_rejection_is_quiet now code subtotal w :
  code_rejected
    (fst (DiscountCode.validateAndApplyDiscount now code subtotal w)) = true ->
  quiet w (snd (DiscountCode.validateAndApplyDiscount now code subtotal w))
  /\ (exists t,
         toasts (snd (DiscountCode.validateAndApplyDiscount now code subtotal w))
         = t :: toasts w)
  /\ (Js.trim code = "" ->
      trace (snd (DiscountCode.validateAndApplyDiscount now code subtotal w))
      = trace w).
Proof.
  intros H. split; [apply quiet_widget|]. revert H.
  unfold DiscountCode.validateAndApplyDiscount, Js.falsy_string.
  destruct (Js.trim code =? "")%string eqn:Eb.
  { cbn. intros _. split; [eexists; reflexivity | reflexivity]. }
  apply String.eqb_neq in Eb.
  intros H. split; [|intros; contradiction]. revert H.
  unfold try_catch, bind, blink.auth_me, blink.discountCodes.list_by_code,
    blink.discountCodeUses.list_of_code_user, query. cbn.
  match goal with
  | |- context [filter ?f (discountCodes (db w))] =>
      destruct (filter f (discountCodes (db w))) as [|d ?]; cbn
  end.
  { intros _. eexists; reflexivity. }
  destruct (DiscountCode.has_expired now d); cbn; [intros _; eexists; reflexivity|].
  destruct (DiscountCode.limit_reached d); cbn; [intros _; eexists; reflexivity|].
  destruct (Js.Qltb subtotal _); cbn; [intros _; eexists; reflexivity|].
  match goal with
  | |- context [filter ?f (discountCodeUses (db w))] =>
      destruct (filter f (discountCodeUses (db w))); cbn
  end; [discriminate | intros _; eexists; reflexivity].
Qed.

(** C7, as the specification states it, fails: a checkout turned away for
    insufficient stock has already asked the backend who the user is and
    what the stock is. *)
Lemma stock_failure_has_sent_requests :
  ~ fails_before_any_request alice_form lamp_cart lamp_world.
Proof.
  unfold fails_before_any_request. intros H.
  assert (E : validation_failure
                (fst (Checkout.handleSubmit alice_form lamp_cart lamp_world))
              = true) by (vm_compute; reflexivity).
  specialize (H E). vm_compute in H. discriminate H.
Qed.

(** C7, amended: a failed validation (required checkout fields empty,
    stock insufficient at checkout, discount code turned away) raises a
    notification and leaves the backend untouched: the requests sent by
    then are reads only.  The empty-field check and the blank-code check
    come before any request at all. *)
Theorem validation_failure_writes_nothing :
  (forall form st w,
      validation_failure (fst (Checkout.handleSubmit form st w)) = true ->
      quiet w (snd (Checkout.handleSubmit form st w))
      /\ (exists t,
             toasts (snd (Checkout.handleSubmit form st w)) = t :: toasts w)
      /\ (fst (Checkout.handleSubmit form st w) = Ok Checkout.MissingFields ->
          trace (snd (Checkout.handleSubmit form st w)) = trace w))
  /\ (forall now code subtotal w,
         code_rejected
           (fst (DiscountCode.validateAndApplyDiscount now code subtotal w))
         = true ->
         quiet w (snd (DiscountCode.validateAndApplyDiscount now code subtotal w))
         /\ (exists t,
                toasts
                  (snd (DiscountCode.validateAndApplyDiscount now code subtotal w))
                = t :: toasts w)
         /\ (Js.trim code = "" ->
             trace
               (snd (DiscountCode.validateAndApplyDiscount now code subtotal w))
             = trace w)).
Proof.
  split.
  - apply handleSubmit_failure_is_quiet.
  - apply widget_rejection_is_quiet.
Qed.

(** ** Acceptance of a discount code *)

(** The row a [limit: 1] lookup returns is the first one that matches. *)
Lemma firstn_1_filter {A} (f : A -> bool) (l : list A) :
  firstn 1 (filter f l) = match find f l with Some x => [x] | None => [] end.
Proof.
  induction l as [|x xs IH]; simpl; [reflexivity|].
  destruct (f x); [reflexivity | exact IH].
Qed.

Lemma existsb_find {A} (f : A -> bool) (l : list A) :
  existsb f l = match find f l with Some _ => true | None => false end.
Proof.
  induction l as [|x xs IH]; simpl; [reflexivity|].
  destruct (f x); simpl; [reflexivity | exact IH].
Qed.

Lemma discount_of_by_rule subtotal d :
  DiscountCode.discount_of subtotal d == discount_by_rule subtotal d.
Proof.
  unfold DiscountCode.discount_of, discount_by_rule.
  destruct (d_discountType d); apply Q.min_comm.
Qed.

Lemma used_by_false user d uses :
  used_by user d uses = false <-> never_used_by user d uses.
Proof.
  unfold used_by, never_used_by. split.
  - intros H u Hin Hid Hu.
    assert (E : existsb (fun u => (u_discount_code_id u =? d_id d)%string
                                  && (u_user_id u =? user)%string) uses = true).
    { apply existsb_exists. exists u. split; [exact Hin|].
      rewrite Hid, Hu, !String.eqb_refl. reflexivity. }
    congruence.
  - intros H. apply not_true_is_false. intros E.
    apply existsb_exists in E. destruct E as [u [Hin Hb]].
    apply andb_true_iff in Hb. destruct Hb as [H1 H2].
    apply String.eqb_eq in H1, H2. exact (H u Hin H1 H2).
Qed.

Lemma has_expired_false now d :
  DiscountCode.has_expired now d = false <-> unexpired now d.
Proof.
  unfold DiscountCode.has_expired, unexpired.
  destruct (d_expiresAt d); try tauto. rewrite Z.ltb_ge. tauto.
Qed.

Lemma limit_reached_false d :
  DiscountCode.limit_reached d = false <-> under_max_uses d.
Proof.
  unfold DiscountCode.limit_reached, under_max_uses, Js.truthy_count.
  destruct (d_maxUses d) as [k|]; [|tauto].
  destruct (Z.eqb_spec k 0); simpl.
  - split; [contradiction | reflexivity].
  - rewrite Z.leb_gt. split; [auto | intros H; exact (H n)].
Qed.

Lemma widget_result now code subtotal w :
  fst (DiscountCode.validateAndApplyDiscount now code subtotal w)
  = Ok (widget_outcome now code subtotal w).
Proof.
  unfold DiscountCode.validateAndApplyDiscount, widget_outcome,
    Js.falsy_string.
  destruct (Js.trim code =? "")%string; [reflexivity|].
  unfold try_catch, bind, blink.auth_me, blink.discountCodes.list_by_code,
    blink.discountCodeUses.list_of_code_user, query.
  cbv beta iota. rewrite firstn_1_filter. unfold first_active_match.
  cbn [session_user db send].
  destruct (find _ (discountCodes (db w))) as [d|]; [|reflexivity].
  destruct (DiscountCode.has_expired now d); [reflexivity|].
  destruct (DiscountCode.limit_reached d); [reflexivity|].
  destruct (Js.Qltb subtotal _); [reflexivity|].
  cbv beta iota. rewrite firstn_1_filter. unfold used_by. simpl orb.
  cbn [session_user db send]. rewrite existsb_find.
  destruct (find _ _); reflexivity.
Qed.

Lemma widget_outcome_some now code subtotal w applied :
  widget_outcome now code subtotal w = Some applied <->
  Js.trim code <> ""
  /\ exists d,
       first_active_match code (discountCodes (db w)) = Some d
       /\ eligible now subtotal w d
       /\ applied = mkApplied (d_code d) (DiscountCode.discount_of subtotal d)
                      (d_description d).
Proof.
  unfold widget_outcome, eligible.
  destruct (String.eqb_spec (Js.trim code) "") as [E|E].
  { split; [discriminate | intros [H _]; contradiction]. }
  destruct (first_active_match code (discountCodes (db w))) as [d|].
  2:{ split; [discriminate | intros [_ [d [H _]]]; discriminate]. }
  split.
  - destruct (DiscountCode.has_expired now d) eqn:E1; [discriminate|].
    destruct (DiscountCode.limit_reached d) eqn:E2; [discriminate|].
    destruct (Js.Qltb subtotal (d_minimumOrderAmount d)) eqn:E3;
      [discriminate|].
    destruct (used_by (session_user w) d (discountCodeUses (db w))) eqn:E4;
      [discriminate|].
    simpl. intros H. inversion H. split; [exact E|]. exists d.
    split; [reflexivity|]. split; [|reflexivity].
    split; [now apply has_expired_false|].
    split; [now apply limit_reached_false|].
    split; [now apply Qltb_false | now apply used_by_false].
  - intros [_ [d' [Hd [(H1 & H2 & H3 & H4) Ha]]]].
    inversion Hd; subst d'.
    apply has_expired_false in H1. apply limit_reached_false in H2.
    apply Qltb_false in H3. apply used_by_false in H4.
    rewrite H1, H2, H3, H4. simpl. now subst applied.
Qed.

(** C1, as the specification states it, fails: with two active rows for
    one code the lookup returns the first, and a lapsed first row turns
    the customer away although the second row qualifies. *)
Lemma reissued_code_is_turned_away :
  ~ accepts_iff_some_code_qualifies 10 "SAVE10" 100 reissued_code_world.
Proof.
  unfold accepts_iff_some_code_qualifies. intros [_ H].
  assert (Hq : exists d,
             In d (discountCodes (db reissued_code_world))
             /\ d_code d = Js.toUpperCase "SAVE10" /\ d_isActive d = true
             /\ eligible 10 100 reissued_code_world d).
  { exists current_save10. split; [right; left; reflexivity|].
    split; [reflexivity|]. split; [reflexivity|].
    unfold eligible, unexpired, under_max_uses, never_used_by. simpl.
    repeat split; try lia; try (intros ? []). unfold Qle; simpl; lia. }
  destruct (H Hq) as [applied Ha]. vm_compute in Ha. discriminate Ha.
Qed.

(** C1, amended: the widget accepts an entry exactly when the entry is not
    blank and the first active row whose code is the upper-cased entry
    (the one row the lookup returns) is unexpired, below its maximum number
    of uses when one is set, asks for no more than the subtotal as minimum
    order, and has no usage record for the requesting user; the discount
    then applied is [min(subtotal, value)] for a fixed code and
    [min(subtotal, subtotal * value / 100)] for a percentage code. *)
Theorem discount_accepted_iff_first_match_qualifies :
  forall (now : Z) (code : string) (subtotal : Q) (w : World),
    (accepts now code subtotal w <->
     Js.trim code <> ""
     /\ exists d,
          first_active_match code (discountCodes (db w)) = Some d
          /\ eligible now subtotal w d)
    /\ (forall applied,
           fst (DiscountCode.validateAndApplyDiscount now code subtotal w)
           = Ok (Some applied) ->
           exists d,
             first_active_match code (discountCodes (db w)) = Some d
             /\ ad_code applied = d_code d
             /\ ad_amount applied == discount_by_rule subtotal d).
Proof.
  intros now code subtotal w. unfold accepts. rewrite widget_result. split.
  - split.
    + intros [applied Ha]. inversion Ha as [Ho].
      apply widget_outcome_some in Ho. destruct Ho as [Hb [d [Hd [He _]]]].
      split; [exact Hb | exists d; split; assumption].
    + intros [Hb [d [Hd He]]]. eexists. f_equal.
      apply widget_outcome_some. split; [exact Hb|].
      exists d. repeat split; try assumption; apply He.
  - intros applied Ha. inversion Ha as [Ho].
    apply widget_outcome_some in Ho. destruct Ho as [_ [d [Hd [_ ->]]]].
    exists d. split; [exact Hd|]. split; [reflexivity|].
    simpl. apply discount_of_by_rule.
Qed.

(** ** The admin route *)

Lemma run_snoc events state :
  App.run (events ++ [state]) = App.onAuthStateChanged (App.run events) state.
Proof. unfold App.run. rewrite fold_left_app. reflexivity. Qed.

Lemma admin_route_iff_flag s :
  App.loading s = false -> App.user s <> None ->
  App.route_registered "/admin" s = App.isAdmin s.
Proof.
  intros Hl Hu. unfold App.route_registered, App.render. rewrite Hl.
  destruct (App.user s); [|contradiction].
  destruct (App.isAdmin s); reflexivity.
Qed.

(** Whatever happened before, once a user with an email is signed in the
    route exists exactly for the allow-listed addresses. *)
Lemma admin_route_for_user_with_email events u :
  App.email u <> "" ->
  App.route_registered "/admin"
    (App.run (events ++ [App.mkAuthState (Some u) false])) = true
  <-> In (Js.toLowerCase (App.email u)) ADMIN_CONFIG.adminEmails.
Proof.
  intros He. rewrite run_snoc, admin_route_iff_flag;
    [| reflexivity | discriminate].
  unfold App.onAuthStateChanged, Js.falsy_string. simpl.
  apply String.eqb_neq in He. rewrite He.
  unfold ADMIN_CONFIG.isAdmin. apply includes_In.
Qed.

(** The flag survives notifications that carry no email. *)
Lemma isAdmin_kept_without_email s state :
  match App.auth_user state with
  | Some u => App.email u = ""
  | None => True
  end ->
  App.isAdmin (App.onAuthStateChanged s state) = App.isAdmin s.
Proof.
  unfold App.onAuthStateChanged. destruct (App.auth_user state) as [u|]; simpl.
  - intros ->. reflexivity.
  - reflexivity.
Qed.

(** C8, where the code departs from it: after an administrator's session,
    a user whose account has no email is still given the [/admin] route,
    although the address is not on the allow-list. *)
Theorem admin_route_outlives_admin_session :
  App.user (App.run admin_then_guest) = Some guest
  /\ ADMIN_CONFIG.isAdmin (App.email guest) = false
  /\ App.route_registered "/admin" (App.run admin_then_guest) = true.
Proof. repeat split. Qed.

(** ** The cart join *)

Lemma lookup_quiet w w' pid : quiet w w' -> lookup w' pid = lookup w pid.
Proof. intros (D & _ & J & _). unfold lookup. now rewrite D, J. Qed.

Lemma cart_enrich_run item w :
  fst (Cart.enrich item w) = Ok (enriched w item).
Proof.
  unfold Cart.enrich, enriched, lookup, try_catch, bind,
    blink.products.list_by_id.
  destruct (rejects w (c_product_id item)); [reflexivity|].
  rewrite firstn_1_filter. destruct (find _ _); reflexivity.
Qed.

Lemma checkout_enrich_run item w :
  rejects w (c_product_id item) = false ->
  fst (Checkout.enrich item w) = Ok (enriched w item).
Proof.
  intros Hr.
  unfold Checkout.enrich, enriched, lookup, bind, blink.products.list_by_id.
  rewrite Hr, firstn_1_filter. destruct (find _ _); reflexivity.
Qed.

Lemma checkout_enrich_throws item w :
  rejects w (c_product_id item) = true ->
  fst (Checkout.enrich item w) = Throw.
Proof.
  intros Hr. unfold Checkout.enrich, bind, blink.products.list_by_id.
  now rewrite Hr.
Qed.

Lemma mapM_run {A B} (f : A -> M B) (g : A -> B) (l : list A) (w0 : World) :
  (forall x, In x l -> preserves quiet (f x)) ->
  (forall x w, In x l -> quiet w0 w -> fst (f x w) = Ok (g x)) ->
  forall w, quiet w0 w -> fst (mapM f l w) = Ok (map g l).
Proof.
  induction l as [|x xs IH]; intros Hq Hf w Hw; simpl; [reflexivity|].
  unfold bind at 1.
  pose proof (Hf x w (or_introl eq_refl) Hw) as Hx.
  pose proof (Hq x (or_introl eq_refl) w) as Hw1.
  destruct (f x w) as [[y|] w1]; simpl in Hx, Hw1; [|discriminate].
  inversion Hx; subst y. unfold bind at 1.
  assert (Hxs : fst (mapM f xs w1) = Ok (map g xs)).
  { apply IH.
    - intros z Hz. apply Hq. now right.
    - intros z w' Hz. apply Hf. now right.
    - eapply quiet_trans; eassumption. }
  destruct (mapM f xs w1) as [[ys|] w2]; simpl in Hxs; [|discriminate].
  inversion Hxs; subst ys. reflexivity.
Qed.

Lemma shown_columns w items :
  map item_columns (filter has_product (map (enriched w) items))
  = map row_columns (filter (found w) items).
Proof.
  induction items as [|item rest IH]; simpl; [reflexivity|].
  unfold has_product at 1, found at 1. simpl.
  destruct (lookup w (c_product_id item)); simpl; [f_equal|]; exact IH.
Qed.

Lemma shown_products w items :
  Forall (fun shown =>
            exists p, lookup w (ci_productId shown) = Some p
                      /\ ci_product shown = Some (view_of p))
    (filter has_product (map (enriched w) items)).
Proof.
  apply Forall_forall. intros shown Hin.
  apply filter_In in Hin. destruct Hin as [Hin Hp].
  apply in_map_iff in Hin. destruct Hin as [item [<- _]].
  unfold has_product in Hp. simpl in *.
  destruct (lookup w (c_product_id item)) as [p|]; [|discriminate].
  exists p. split; reflexivity.
Qed.

Lemma cart_join_run items w :
  fst (Cart.join items w) = Ok (filter has_product (map (enriched w) items)).
Proof.
  unfold Cart.join, bind.
  pose proof (mapM_run Cart.enrich (enriched w) items w
                (fun x _ => quiet_cart_enrich x)) as H.
  assert (Hm : fst (mapM Cart.enrich items w) = Ok (map (enriched w) items)).
  { apply H; [|apply quiet_refl]. intros x w' _ Hq.
    rewrite cart_enrich_run. unfold enriched.
    now rewrite (lookup_quiet w w' _ Hq). }
  destruct (mapM Cart.enrich items w) as [[l|] w1]; simpl in Hm;
    [|discriminate].
  inversion Hm; subst l. reflexivity.
Qed.

Lemma checkout_join_run items w :
  (forall item, In item items -> rejects w (c_product_id item) = false) ->
  fst (Checkout.join items w)
  = Ok (filter has_product (map (enriched w) items)).
Proof.
  intros Hr. unfold Checkout.join, bind.
  pose proof (mapM_run Checkout.enrich (enriched w) items w
                (fun x _ => quiet_checkout_enrich x)) as H.
  assert (Hm : fst (mapM Checkout.enrich items w)
               = Ok (map (enriched w) items)).
  { apply H; [|apply quiet_refl]. intros x w' Hin Hq.
    rewrite checkout_enrich_run.
    - unfold enriched. now rewrite (lookup_quiet w w' _ Hq).
    - destruct Hq as (_ & _ & -> & _). now apply Hr. }
  destruct (mapM Checkout.enrich items w) as [[l|] w1]; simpl in Hm;
    [|discriminate].
  inversion Hm; subst l. reflexivity.
Qed.

(** On the checkout page one failing lookup fails the whole join. *)
Lemma checkout_join_throws items w :
  (exists item, In item items /\ rejects w (c_product_id item) = true) ->
  fst (Checkout.join items w) = Throw.
Proof.
  intros [bad [Hin Hbad]]. unfold Checkout.join, bind.
  assert (Hm : forall w', quiet w w' ->
             fst (mapM Checkout.enrich items w') = Throw).
  { induction items as [|x xs IH]; [contradiction|].
    intros w' Hq. simpl. unfold bind at 1.
    pose proof (quiet_checkout_enrich x w') as Hq1.
    destruct Hin as [->|Hin].
    - rewrite (surjective_pairing (Checkout.enrich bad w')).
      rewrite checkout_enrich_throws; [reflexivity|].
      destruct Hq as (_ & _ & -> & _). exact Hbad.
    - destruct (Checkout.enrich x w') as [[y|] w1]; [|reflexivity].
      simpl in Hq1. unfold bind at 1.
      specialize (IH Hin w1 (quiet_trans _ _ _ Hq Hq1)).
      destruct (mapM Checkout.enrich xs w1) as [[ys|] w2];
        [discriminate | reflexivity]. }
  specialize (Hm w (quiet_refl w)).
  destruct (mapM Checkout.enrich items w) as [[l|] w1];
    [discriminate | reflexivity].
Qed.

Lemma cart_load_run st w :
  fst (Cart.loadCartItems st w)
  = Ok (Cart.mkState
          (filter has_product
             (map (enriched w) (orderBy_desc c_created_at (my_rows w))))
          (Cart.appliedDiscount st)).
Proof.
  pose proof (cart_join_run (orderBy_desc c_created_at (my_rows w))
                (send (Req_cartItems_list (session_user w) None)
                   (send Req_auth_me w))) as Hrun.
  unfold Cart.loadCartItems, try_catch.
  unfold bind at 1. cbn [blink.auth_me]. unfold bind at 1.
  cbn [blink.cartItems.list_of_user query]. unfold bind at 1.
  cbn [db send]. fold (my_rows w).
  destruct (Cart.join _ _) as [r w1]. cbn [fst] in Hrun. rewrite Hrun.
  reflexivity.
Qed.

Lemma quiet_cart_load st : preserves quiet (Cart.loadCartItems st).
Proof.
  unfold Cart.loadCartItems. quiet_step; [|repeat quiet_step].
  quiet_step; [quiet_step|].
  quiet_step; [unfold blink.cartItems.list_of_user; quiet_step|].
  quiet_step; [apply quiet_cart_join | quiet_step].
Qed.

(** C6: whatever rows were fetched, the cart page shows exactly those whose
    product lookup succeeded, in their order and with their identifier,
    user, product and quantity as fetched (a row whose product is gone or
    whose lookup rejects is dropped), each shown row carrying the product
    that was looked up; the join changes nothing in the backend.  Loading
    the page displays the join of the rows fetched for the user. *)
Theorem cart_join_keeps_rows_with_product :
  (forall (items : list CartRow) (w : World),
    exists shown,
      fst (Cart.join items w) = Ok shown
      /\ map item_columns shown = map row_columns (filter (found w) items)
      /\ Forall (fun item =>
                   exists p, lookup w (ci_productId item) = Some p
                             /\ ci_product item = Some (view_of p)) shown
      /\ db (snd (Cart.join items w)) = db w)
  /\ (forall (st : Cart.State) (w : World),
       exists page,
         fst (Cart.loadCartItems st w) = Ok page
         /\ map item_columns (Cart.cartItems page)
            = map row_columns
                (filter (found w) (orderBy_desc c_created_at (my_rows w)))
         /\ db (snd (Cart.loadCartItems st w)) = db w).
Proof.
  split.
  - intros items w. exists (filter has_product (map (enriched w) items)).
    split; [apply cart_join_run|]. split; [apply shown_columns|].
    split; [apply shown_products|]. apply (quiet_cart_join items w).
  - intros st w. eexists. split; [apply cart_load_run|].
    split; [apply shown_columns|]. apply (quiet_cart_load st w).
Qed.

(** ** Adding a product that is already in the cart *)

Lemma with_quantity_length id q rows :
  List.length (with_quantity id q rows) = List.length rows.
Proof. apply length_map. Qed.


(** Product page: the row is incremented by the selected quantity, unless
    that would exceed the stock, in which case nothing is written. *)
Lemma product_addToCart_existing product quantity w existing rest :
  rows_of w (session_user w) (pv_id product) = existing :: rest ->
  (0 < quantity)%Z ->
  let r := ProductDetails.addToCart
             (ProductDetails.mkState (Some product) quantity) w in
  if (c_quantity existing + quantity <=? pv_stockQuantity product)%Z
     && (quantity <=? pv_stockQuantity product)%Z
  then fst r = Ok AddedToCart
       /\ cartItems (db (snd r))
          = with_quantity (c_id existing) (c_quantity existing + quantity)
              (cartItems (db w))
  else (fst r = Ok OutOfStock \/ fst r = Ok InsufficientStock)
       /\ db (snd r) = db w.
Proof.
  unfold rows_of. intros Hrows Hq.
  unfold ProductDetails.addToCart, try_catch. cbn [ProductDetails.product
    ProductDetails.quantity].
  destruct (Z.leb_spec (pv_stockQuantity product) 0) as [Hz|Hz].
  { replace (quantity <=? pv_stockQuantity product)%Z with false
      by (symmetry; apply Z.leb_gt; lia).
    rewrite andb_false_r. cbn. auto. }
  destruct (Z.ltb_spec (pv_stockQuantity product) quantity) as [Hs|Hs].
  { replace (quantity <=? pv_stockQuantity product)%Z with false
      by (symmetry; apply Z.leb_gt; lia).
    rewrite andb_false_r. cbn. auto. }
  replace (quantity <=? pv_stockQuantity product)%Z with true
    by (symmetry; apply Z.leb_le; lia).
  rewrite andb_true_r.
  unfold bind, blink.auth_me, blink.cartItems.list_of_user_product, query.
  cbn [db send session_user]. rewrite Hrows. cbv beta iota.
  destruct (Z.leb_spec (c_quantity existing + quantity)
              (pv_stockQuantity product)) as [Hle|Hgt].
  - apply Z.ltb_ge in Hle. rewrite Hle. cbn. auto.
  - apply Z.ltb_lt in Hgt. rewrite Hgt. cbn. auto.
Qed.





(** The legacy book page, which [App] neither imports nor mounts on a
    route, has no such check: its handler raises the cart row to two copies
    of a book with one in stock. *)
Example book_page_exceeds_stock :
  BookDetails.stockQuantity last_copy = 1%Z
  /\ map c_quantity (cartItems (db last_copy_in_cart)) = [1%Z]
  /\ fst (BookDetails.addToCart (Some last_copy) last_copy_in_cart)
     = Ok AddedToCart
  /\ map c_quantity
       (cartItems
          (db (snd (BookDetails.addToCart (Some last_copy) last_copy_in_cart))))
     = [2%Z].
Proof. repeat split. Qed.

(** ** Payout requests that are turned away *)

Lemma not_positive_iff n :
  SellerPayouts.not_positive n = true <-> not_a_positive_number n.
Proof.
  destruct n as [|[|]|q]; simpl; try (intuition congruence).
  apply Qle_bool_iff.
Qed.

Lemma exceeds_iff n balance :
  SellerPayouts.exceeds n balance = true <-> greater_than n balance.
Proof.
  destruct n as [|[|]|q]; simpl; try (intuition congruence).
  apply Qltb_true.
Qed.

Lemma loadEarnings_coherent st w st' :
  fst (SellerPayouts.loadEarnings st w) = Ok st' ->
  coherent st ->
  coherent st'.
Proof.
  unfold SellerPayouts.loadEarnings, try_catch, bind at 1. cbn [blink.auth_me].
  unfold bind at 1. cbn [blink.sellerEarnings.list_of_seller query].
  unfold bind at 1.
  destruct (mapM _ _ _) as [[l|] w1]; cbn.
  - intros E _. inversion E. reflexivity.
  - intros E H. inversion E. subst. exact H.
Qed.

Lemma initial_coherent : coherent SellerPayouts.initial.
Proof. reflexivity. Qed.

Lemma loadPayoutRequests_coherent st w st' :
  fst (SellerPayouts.loadPayoutRequests st w) = Ok st' ->
  coherent st ->
  coherent st'.
Proof.
  unfold SellerPayouts.loadPayoutRequests, try_catch, bind, coherent.
  cbn. intros E H. inversion E. subst. exact H.
Qed.

(** C4: a payout request for more than the available balance, or for an
    amount that is not a positive number, is turned away before any
    request is sent: the backend holds the same payout requests, payout
    items and earnings as before, and the page state is unchanged. *)
Theorem payout_beyond_balance_is_rejected :
  forall (form : SellerPayouts.PayoutForm) (st : SellerPayouts.State)
         (w : World),
    coherent st ->
    not_a_positive_number (SellerPayouts.amount form)
    \/ greater_than (SellerPayouts.amount form)
         (available_balance (SellerPayouts.earnings st)) ->
    (fst (SellerPayouts.handlePayoutRequest form st w)
     = Ok (SellerPayouts.InvalidAmount, st)
     \/ fst (SellerPayouts.handlePayoutRequest form st w)
        = Ok (SellerPayouts.InsufficientBalance, st))
    /\ trace (snd (SellerPayouts.handlePayoutRequest form st w)) = trace w
    /\ db (snd (SellerPayouts.handlePayoutRequest form st w)) = db w
    /\ toasts (snd (SellerPayouts.handlePayoutRequest form st w))
       = "Error" :: toasts w.
Proof.
  intros form st w Hc H. unfold SellerPayouts.handlePayoutRequest.
  destruct (SellerPayouts.not_positive (SellerPayouts.amount form)) eqn:Enp.
  { cbn. auto. }
  destruct H as [H|H].
  { apply not_positive_iff in H. congruence. }
  rewrite <- Hc in H. apply exceeds_iff in H. rewrite H. cbn. auto.
Qed.

(** ** Listing order *)

Section OrderByFacts.

Variable A : Type.
Variable key : A -> Z.

Lemma insert_desc_perm x l : Permutation (x :: l) (insert_desc key x l).
Proof.
  induction l as [|y ys IH]; simpl; [reflexivity|].
  destruct (key y <? key x)%Z; [reflexivity|].
  rewrite perm_swap. now constructor.
Qed.

Lemma orderBy_desc_perm l : Permutation l (orderBy_desc key l).
Proof.
  induction l as [|x xs IH]; simpl; [constructor|].
  rewrite <- insert_desc_perm. now constructor.
Qed.

Lemma insert_desc_sorted x l : descending key l -> descending key (insert_desc key x l).
Proof.
  unfold descending. induction l as [|y ys IH]; intros Hs; simpl.
  - repeat constructor.
  - inversion Hs as [|? ? Hys Hy]; subst.
    destruct (Z.ltb_spec (key y) (key x)).
    + constructor; [exact Hs|]. constructor; [lia|].
      eapply Forall_impl; [|exact Hy]. simpl. intros; lia.
    + constructor; [now apply IH|].
      apply (Permutation_Forall (insert_desc_perm x ys)).
      constructor; [lia | exact Hy].
Qed.

Lemma orderBy_desc_sorted l : descending key (orderBy_desc key l).
Proof.
  induction l as [|x xs IH]; simpl; [constructor|].
  now apply insert_desc_sorted.
Qed.

Lemma orderBy_desc_In x l : In x (orderBy_desc key l) <-> In x l.
Proof.
  split; apply Permutation_in;
    [symmetry |]; apply orderBy_desc_perm.
Qed.

End OrderByFacts.

Lemma StronglySorted_filter {A} (R : A -> A -> Prop) (f : A -> bool) l :
  StronglySorted R l -> StronglySorted R (filter f l).
Proof.
  induction 1 as [|x xs Hs IH Hx]; simpl; [constructor|].
  destruct (f x); [|exact IH]. constructor; [exact IH|].
  apply Forall_forall. intros y Hy. apply filter_In in Hy.
  rewrite Forall_forall in Hx. now apply Hx.
Qed.

Lemma StronglySorted_map {A B} (R : B -> B -> Prop) (g : A -> B) l :
  StronglySorted R (map g l) -> StronglySorted (fun a b => R (g a) (g b)) l.
Proof.
  induction l as [|x xs IH]; simpl; intros H; [constructor|].
  inversion H as [|? ? Hs Hx]; subst. constructor; [now apply IH|].
  rewrite Forall_map in Hx. exact Hx.
Qed.

(** ** Allocation of a payout over the available earnings *)

Lemma fold_sum_shift (l : list SellerPayouts.SellerEarning) (a : Q) :
  fold_left (fun sum earning => sum + SellerPayouts.netEarnings earning) l a
  == a + fold_left (fun sum earning => sum + SellerPayouts.netEarnings earning) l 0.
Proof.
  revert a. induction l as [|e es IH]; intros a; simpl.
  - lra.
  - rewrite (IH (a + SellerPayouts.netEarnings e)), (IH (0 + SellerPayouts.netEarnings e)). lra.
Qed.

Lemma sum_net_cons e l : SellerPayouts.sum_net (e :: l) == SellerPayouts.netEarnings e + SellerPayouts.sum_net l.
Proof. unfold SellerPayouts.sum_net. simpl. rewrite fold_sum_shift. lra. Qed.

Lemma sum_net_nil : SellerPayouts.sum_net [] == 0.
Proof. reflexivity. Qed.

Lemma allocation_done r l : Qle_bool r 0 = true -> allocation r l = [].
Proof. intros H. destruct l; simpl; [reflexivity | now rewrite H]. Qed.

Lemma allocation_prefix r l : exists rest, l = touched r l ++ rest.
Proof.
  unfold touched. revert r. induction l as [|e es IH]; intros r; simpl.
  - now exists [].
  - destruct (Qle_bool r 0); simpl; [now exists (e :: es)|].
    destruct (IH (r - Qmin r (SellerPayouts.netEarnings e))) as [rest Hr].
    exists rest. now f_equal.
Qed.

Lemma allocation_takes r l :
  takes r (touched r l) (map snd (allocation r l)).
Proof.
  unfold touched. revert r. induction l as [|e es IH]; intros r; simpl.
  - constructor.
  - destruct (Qle_bool r 0) eqn:E; simpl; [constructor|].
    constructor; [|reflexivity | apply IH].
    apply Qnot_le_lt. intros H. apply Qle_bool_iff in H. congruence.
Qed.

(** No proper prefix of the visited earnings covers the amount. *)
Lemma allocation_stops_when_covered r l p s :
  touched r l = p ++ s -> s <> [] -> SellerPayouts.sum_net p < r.
Proof.
  unfold touched. revert r p. induction l as [|e es IH]; intros r p; simpl.
  - intros H Hs. symmetry in H. apply app_eq_nil in H. tauto.
  - destruct (Qle_bool r 0) eqn:E; simpl.
    { intros H Hs. symmetry in H. apply app_eq_nil in H. tauto. }
    assert (Hr : 0 < r).
    { apply Qnot_le_lt. intros H. apply Qle_bool_iff in H. congruence. }
    intros H Hs. destruct p as [|e' p']; [exact Hr|].
    simpl in H. inversion H as [[He Ht]]. subst e'.
    pose proof (IH _ _ Ht Hs) as Hlt.
    assert (Hnext : 0 < r - Qmin r (SellerPayouts.netEarnings e)).
    { apply Qnot_le_lt. intros Hle. apply Qle_bool_iff in Hle.
      rewrite (allocation_done _ _ Hle) in Ht.
      symmetry in Ht. apply app_eq_nil in Ht. tauto. }
    rewrite sum_net_cons.
    destruct (Q.min_spec r (SellerPayouts.netEarnings e)) as [[_ Hm]|[_ Hm]];
      rewrite Hm in Hlt, Hnext; lra.
Qed.

(** An amount within the total is covered exactly. *)
Lemma allocation_covers r l :
  0 < r -> r <= SellerPayouts.sum_net l ->
  r <= SellerPayouts.sum_net (touched r l) /\ sumQ (map snd (allocation r l)) == r.
Proof.
  unfold touched. revert r. induction l as [|e es IH]; intros r Hr Hle.
  - rewrite sum_net_nil in Hle. lra.
  - simpl. destruct (Qle_bool r 0) eqn:E.
    { apply Qle_bool_iff in E. lra. }
    simpl. rewrite sum_net_cons in *.
    destruct (Q.min_spec r (SellerPayouts.netEarnings e)) as [[Hlt Hm]|[Hge Hm]].
    + (* the earning covers what remains *)
      assert (Hz : Qle_bool (r - Qmin r (SellerPayouts.netEarnings e)) 0 = true).
      { apply Qle_bool_iff. rewrite Hm. lra. }
      rewrite (allocation_done _ _ Hz). simpl.
      rewrite sum_net_nil, Hm. split; lra.
    + destruct (Qeq_dec r (SellerPayouts.netEarnings e)) as [Heq|Hne].
      * assert (Hz : Qle_bool (r - Qmin r (SellerPayouts.netEarnings e)) 0 = true).
        { apply Qle_bool_iff. rewrite Hm. lra. }
        rewrite (allocation_done _ _ Hz). simpl.
        rewrite sum_net_nil, Hm. split; lra.
      * assert (Hr' : 0 < r - Qmin r (SellerPayouts.netEarnings e)) by (rewrite Hm; lra).
        assert (Hle' : r - Qmin r (SellerPayouts.netEarnings e) <= SellerPayouts.sum_net es)
          by (rewrite Hm; lra).
        destruct (IH _ Hr' Hle') as [H1 H2].
        rewrite H2. rewrite Hm in *. split; lra.
Qed.

(** ** Running the allocation loop *)

Lemma flip_to_pending_nil rows : flip_to_pending [] rows = rows.
Proof.
  unfold flip_to_pending. rewrite <- (map_id rows) at 2.
  apply map_ext. reflexivity.
Qed.

Lemma flip_to_pending_cons id ids rows :
  flip_to_pending ids
    (map (fun e => if (e_id e =? id)%string then set_pending e else e) rows)
  = flip_to_pending (id :: ids) rows.
Proof.
  unfold flip_to_pending. rewrite map_map. apply map_ext. intros e.
  unfold Js.includes. cbn [existsb].
  destruct (e_id e =? id)%string eqn:E; cbn [orb set_pending e_id].
  - destruct (existsb _ ids); reflexivity.
  - reflexivity.
Qed.

Lemma allocate_run l :
  forall pid r w,
  exists items w',
    SellerPayouts.allocate pid r l w = (Ok tt, w')
    /\ payoutItems (db w') = payoutItems (db w) ++ items
    /\ map pi_seller_earning_id items = map earning_id (touched r l)
    /\ map pi_amount items = map snd (allocation r l)
    /\ Forall (fun i => pi_payout_request_id i = pid) items
    /\ sellerEarnings (db w')
       = flip_to_pending (map earning_id (touched r l)) (sellerEarnings (db w))
    /\ payoutRequests (db w') = payoutRequests (db w)
    /\ session_user w' = session_user w
    /\ rejects w' = rejects w.
Proof.
  unfold touched.
  induction l as [|e es IH]; intros pid r w; simpl.
  - exists [], w. rewrite app_nil_r, flip_to_pending_nil. repeat split.
    constructor.
  - destruct (Qle_bool r 0).
    { exists [], w. simpl. rewrite app_nil_r, flip_to_pending_nil.
      repeat split. constructor. }
    unfold bind at 1. cbn [fresh].
    unfold bind at 1. cbn [blink.payoutItems.create mutate].
    unfold bind at 1. cbn [blink.sellerEarnings.update_status mutate].
    match goal with
    | |- context [SellerPayouts.allocate pid ?r' es ?w1] =>
        destruct (IH pid r' w1) as (items & w' & Hrun & Hi & Hid & Ha & Hp
                                    & He & Hq & Hs & Hj)
    end.
    eexists (_ :: items), w'. rewrite Hrun.
    split; [reflexivity|].
    split; [rewrite Hi; cbn; rewrite <- app_assoc; reflexivity|].
    split; [simpl; f_equal; exact Hid|].
    split; [simpl; f_equal; exact Ha|].
    split; [constructor; [reflexivity | exact Hp]|].
    split; [rewrite He; cbn; apply flip_to_pending_cons|].
    split; [rewrite Hq; reflexivity|].
    split; [rewrite Hs; reflexivity | rewrite Hj; reflexivity].
Qed.

(** ** Submitting a payout request *)

Lemma quiet_loadEarnings st : preserves quiet (SellerPayouts.loadEarnings st).
Proof.
  unfold SellerPayouts.loadEarnings. quiet_step; [|repeat quiet_step].
  quiet_step; [quiet_step|].
  quiet_step; [unfold blink.sellerEarnings.list_of_seller; quiet_step|].
  quiet_step; [|quiet_step].
  apply (preserves_mapM quiet quiet_refl quiet_trans). intros x _.
  repeat quiet_step.
Qed.

Lemma quiet_loadPayoutRequests st : preserves quiet (SellerPayouts.loadPayoutRequests st).
Proof.
  unfold SellerPayouts.loadPayoutRequests. quiet_step; [|repeat quiet_step].
  quiet_step; [quiet_step|].
  quiet_step; [unfold blink.payoutRequests.list_of_seller; quiet_step|].
  quiet_step.
Qed.

Lemma try_catch_returns {A} (m : M A) (a : A) (t : string) w :
  exists b, fst (try_catch m (toast t ;; ret a) w) = Ok b.
Proof.
  unfold try_catch. destruct (m w) as [[b|] w1]; cbn; eauto.
Qed.

Lemma on_display_newest_first w st :
  on_display w st ->
  descending (fun e => e_created_at (SellerPayouts.row e))
    (filter SellerPayouts.is_available (SellerPayouts.earnings st)).
Proof.
  intros H. apply StronglySorted_filter.
  apply (StronglySorted_map (fun a b => (e_created_at b <= e_created_at a)%Z) SellerPayouts.row).
  rewrite H. apply orderBy_desc_sorted.
Qed.

Lemma handlePayoutRequest_run form st w q :
  SellerPayouts.amount form = Js.Finite q ->
  0 < q ->
  q <= SellerPayouts.availableBalance (SellerPayouts.stats st) ->
  exists items st' w1,
    let pid := generated "payout" (nonce w) in
    let request :=
      mkPayoutRequest pid (session_user w) q "pending" (SellerPayouts.paymentMethod form)
        (SellerPayouts.paymentDetails_of form) (SellerPayouts.notes form) (Z.of_nat (S (nonce w))) in
    let taken := touched q (filter SellerPayouts.is_available (SellerPayouts.earnings st)) in
    SellerPayouts.handlePayoutRequest form st w = (Ok (SellerPayouts.Submitted pid, st'), w1)
    /\ payoutRequests (db w1)
       = payoutRequests (db w) ++ [request]
    /\ payoutItems (db w1) = payoutItems (db w) ++ items
    /\ map pi_seller_earning_id items = map earning_id taken
    /\ map pi_amount items
       = map snd (allocation q (filter SellerPayouts.is_available (SellerPayouts.earnings st)))
    /\ Forall (fun i => pi_payout_request_id i = pid) items
    /\ sellerEarnings (db w1)
       = flip_to_pending (map earning_id taken) (sellerEarnings (db w)).
Proof.
  intros Ha Hpos Hle. unfold SellerPayouts.handlePayoutRequest. rewrite Ha.
  assert (E1 : SellerPayouts.not_positive (Js.Finite q) = false).
  { apply not_true_is_false. intros H. apply not_positive_iff in H.
    simpl in H. lra. }
  assert (E2 : SellerPayouts.exceeds (Js.Finite q) (SellerPayouts.availableBalance (SellerPayouts.stats st)) = false).
  { apply not_true_is_false. intros H. apply exceeds_iff in H.
    simpl in H. lra. }
  rewrite E1, E2. unfold try_catch.
  unfold bind at 1. cbn [blink.auth_me].
  unfold bind at 1. cbn [fresh].
  unfold bind at 1. cbn [blink.payoutRequests.create mutate].
  unfold bind at 1.
  match goal with
  | |- context [SellerPayouts.allocate ?pid q ?l ?w0] =>
      destruct (allocate_run l pid q w0)
        as (items & w1 & Hrun & Hi & Hid & Hamt & Hp & He & Hq & Hs & Hj)
  end.
  rewrite Hrun. unfold bind at 1. cbn [toast].
  unfold bind at 1.
  match goal with
  | |- context [SellerPayouts.loadEarnings st ?w0] =>
      pose proof (quiet_loadEarnings st w0) as Hq1;
      destruct (try_catch_returns
                  (user <- blink.auth_me ;;
                   earningsData <- blink.sellerEarnings.list_of_seller user ;;
                   earningsWithProducts <-
                     mapM (fun earning =>
                             products <-
                               blink.products.list_by_id (e_product_id earning) ;;
                             ret (SellerPayouts.mkSellerEarning earning (hd_error products)))
                       earningsData ;;
                   ret (SellerPayouts.mkState earningsWithProducts (SellerPayouts.payoutRequests st)
                          (SellerPayouts.mkStats (SellerPayouts.sum_net earningsWithProducts)
                             (SellerPayouts.sum_net (filter SellerPayouts.is_available earningsWithProducts))
                             (SellerPayouts.pendingPayouts (SellerPayouts.stats st))
                             (SellerPayouts.completedPayouts (SellerPayouts.stats st)))))
                  st "Error" w0) as [st1 Hst1];
      change (fst (SellerPayouts.loadEarnings st w0) = Ok st1) in Hst1;
      destruct (SellerPayouts.loadEarnings st w0) as [r1 w2]
  end.
  simpl in Hst1, Hq1. subst r1. unfold bind at 1.
  pose proof (quiet_loadPayoutRequests st1 w2) as Hq2.
  assert (Hst2 : exists st2, fst (SellerPayouts.loadPayoutRequests st1 w2) = Ok st2)
    by apply try_catch_returns.
  destruct Hst2 as [st2 Hst2].
  destruct (SellerPayouts.loadPayoutRequests st1 w2) as [r2 w3].
  simpl in Hst2, Hq2. subst r2. cbn [ret].
  destruct Hq1 as (D1 & _). destruct Hq2 as (D2 & _). cbn [db] in D1.
  exists items, st2, w3. cbv zeta.
  split; [reflexivity|]. rewrite D2, D1.
  split; [rewrite Hq; reflexivity|].
  split; [rewrite Hi; reflexivity|].
  split; [exact Hid|]. split; [exact Hamt|]. split; [exact Hp|].
  rewrite He. reflexivity.
Qed.

Lemma two_sales_page_loaded :
  fst (SellerPayouts.loadEarnings SellerPayouts.initial two_sales) = Ok two_sales_page.
Proof. vm_compute. reflexivity. Qed.

(** C3, as the specification states it, fails: a request for 5 of the 38
    available is taken from the March sale, the first one listed, while the
    older January sale stays available. *)
Lemma payout_takes_newest_sale_first :
  ~ consumes_oldest_first two_sales
      (snd (SellerPayouts.handlePayoutRequest (request_of 5) two_sales_page two_sales)).
Proof.
  intros H.
  assert (Hnew : consumed two_sales
                   (snd (SellerPayouts.handlePayoutRequest (request_of 5) two_sales_page
                           two_sales)) march_sale).
  { split; [right; left; reflexivity|]. split; [reflexivity|].
    split; [reflexivity|].
    exists (set_pending march_sale). split; [|split; reflexivity].
    vm_compute. right. left. reflexivity. }
  specialize (H january_sale march_sale (or_introl eq_refl) eq_refl eq_refl
                ltac:(reflexivity) Hnew).
  destruct H as (_ & _ & _ & e' & Hin & Hid & Hst).
  vm_compute in Hin. destruct Hin as [<-|[<-|[]]]; discriminate.
Qed.

Lemma allocation_within r l :
  Forall (fun p => snd p <= SellerPayouts.netEarnings (fst p))
    (allocation r l).
Proof.
  revert r. induction l as [|e es IH]; intros r; simpl; [constructor|].
  destruct (Qle_bool r 0); [constructor|].
  constructor; [apply Q.le_min_r | apply IH].
Qed.

Lemma amounts_within (items : list PayoutItemRow)
  (al : list (SellerPayouts.SellerEarning * Q)) :
  map pi_amount items = map snd al ->
  Forall (fun p => snd p <= SellerPayouts.netEarnings (fst p)) al ->
  Forall2 (fun item earning =>
             pi_amount item <= SellerPayouts.netEarnings earning)
    items (map fst al).
Proof.
  revert al. induction items as [|i items IH]; intros [|p al] E F;
    try discriminate; simpl; [constructor|].
  simpl in E. inversion E as [[E1 E2]]. inversion F; subst.
  constructor; [rewrite E1; assumption | now apply IH].
Qed.

Lemma allocation_starts r e es :
  0 < r ->
  allocation r (e :: es)
  = (e, Qmin r (SellerPayouts.netEarnings e))
      :: allocation (r - Qmin r (SellerPayouts.netEarnings e)) es.
Proof.
  intros H. simpl.
  destruct (Qle_bool r 0) eqn:E; [|reflexivity].
  apply Qle_bool_iff in E. lra.
Qed.

(** C3, amended: a payout request for a positive amount within the
    balance shown is submitted.  It creates exactly one payout request,
    walks the available earnings in the order they are listed, which is
    newest first, and for every earning it reaches creates exactly one
    payout item and turns the earning to [pending_payout].  The earnings
    reached are a leading part of that list; it begins with the newest
    available earning, from which [min(amount, netEarnings)] is taken, and
    no item exceeds the net earnings of its earning.  Where the balance
    shown is the sum of the available net earnings and the amounts are
    whole numbers, so that the arithmetic of the page is exact, every item
    is [min(remaining, netEarnings)], the items add up to the amount, and
    the walk stops as soon as the amount is covered. *)
Theorem payout_allocates_in_listed_order :
  forall (form : SellerPayouts.PayoutForm) (st : SellerPayouts.State)
         (w : World) (q : Q)
         (newest : SellerPayouts.SellerEarning)
         (others : list SellerPayouts.SellerEarning),
    SellerPayouts.amount form = Js.Finite q ->
    0 < q ->
    q <= SellerPayouts.availableBalance (SellerPayouts.stats st) ->
    on_display w st ->
    filter SellerPayouts.is_available (SellerPayouts.earnings st)
    = newest :: others ->
    exists pid request items taken rest st',
      fst (SellerPayouts.handlePayoutRequest form st w)
      = Ok (SellerPayouts.Submitted pid, st')
      /\ descending (fun e => e_created_at (SellerPayouts.row e))
           (newest :: others)
      /\ others = taken ++ rest
      /\ payoutRequests
           (db (snd (SellerPayouts.handlePayoutRequest form st w)))
         = payoutRequests (db w) ++ [request]
      /\ pr_id request = pid /\ pr_amount request = q
      /\ pr_seller_id request = session_user w
      /\ pr_status request = "pending"
      /\ payoutItems (db (snd (SellerPayouts.handlePayoutRequest form st w)))
         = payoutItems (db w) ++ items
      /\ map pi_seller_earning_id items = map earning_id (newest :: taken)
      /\ Forall (fun i => pi_payout_request_id i = pid) items
      /\ Forall2 (fun item earning =>
                    pi_amount item <= SellerPayouts.netEarnings earning)
           items (newest :: taken)
      /\ hd_error (map pi_amount items)
         = Some (Qmin q (SellerPayouts.netEarnings newest))
      /\ sellerEarnings
           (db (snd (SellerPayouts.handlePayoutRequest form st w)))
         = flip_to_pending (map earning_id (newest :: taken))
             (sellerEarnings (db w))
      /\ (coherent st ->
          whole_amounts q (newest :: others) ->
          takes q (newest :: taken) (map pi_amount items)
          /\ sumQ (map pi_amount items) == q
          /\ q <= SellerPayouts.sum_net (newest :: taken)
          /\ forall p s,
               newest :: taken = p ++ s -> s <> [] ->
               SellerPayouts.sum_net p < q).
Proof.
  intros form st w q newest others Ha Hpos Hle Hd Eav.
  destruct (handlePayoutRequest_run form st w q Ha Hpos Hle)
    as (items & st' & w1 & Hrun & Hreq & Hitems & Hid & Hamt & Hp & He).
  cbv zeta in *. rewrite Hrun. cbn [fst snd].
  pose proof (on_display_newest_first w st Hd) as Hdesc.
  rewrite Eav in *.
  destruct (allocation_prefix q (newest :: others)) as [rest Hrest].
  pose proof (allocation_covers q (newest :: others) Hpos) as Hcovers.
  pose proof (allocation_takes q (newest :: others)) as Htakes.
  pose proof (allocation_stops_when_covered q (newest :: others)) as Hstop.
  pose proof (amounts_within items (allocation q (newest :: others)) Hamt
                (allocation_within q (newest :: others))) as Hwithin.
  unfold touched in *.
  rewrite (allocation_starts q newest others Hpos) in *.
  cbn [map fst snd] in *.
  set (taken :=
         map fst
           (allocation (q - Qmin q (SellerPayouts.netEarnings newest))
              others)) in *.
  cbn [app] in Hrest.
  assert (Hrest' : others = taken ++ rest) by congruence.
  eexists _, _, items, taken, rest, st'.
  split; [reflexivity|]. split; [exact Hdesc|]. split; [exact Hrest'|].
  split; [exact Hreq|].
  split; [reflexivity|]. split; [reflexivity|]. split; [reflexivity|].
  split; [reflexivity|].
  split; [exact Hitems|]. split; [exact Hid|]. split; [exact Hp|].
  split; [exact Hwithin|].
  split; [rewrite Hamt; reflexivity|].
  split; [exact He|].
  intros Hc _. rewrite Hamt.
  assert (Hle' : q <= SellerPayouts.sum_net (newest :: others)).
  { unfold coherent, available_balance in Hc. rewrite Hc, Eav in Hle.
    exact Hle. }
  destruct (Hcovers Hle') as [Hcov Hsum].
  split; [exact Htakes|]. split; [exact Hsum|]. split; [exact Hcov|].
  exact Hstop.
Qed.

Lemma payout_allocates_in_listed_order_witness :
  exists pid request items taken rest st',
    fst (SellerPayouts.handlePayoutRequest (request_of 25) two_sales_page
           two_sales)
    = Ok (SellerPayouts.Submitted pid, st')
    /\ [SellerPayouts.mkSellerEarning january_sale None] = taken ++ rest
    /\ payoutRequests
         (db (snd (SellerPayouts.handlePayoutRequest (request_of 25)
                     two_sales_page two_sales)))
       = payoutRequests (db two_sales) ++ [request]
    /\ payoutItems
         (db (snd (SellerPayouts.handlePayoutRequest (request_of 25)
                     two_sales_page two_sales)))
       = payoutItems (db two_sales) ++ items
    /\ map pi_seller_earning_id items
       = map earning_id
           (SellerPayouts.mkSellerEarning march_sale None :: taken)
    /\ sumQ (map pi_amount items) == 25.
Proof.
  destruct (payout_allocates_in_listed_order (request_of 25) two_sales_page
              two_sales 25 (SellerPayouts.mkSellerEarning march_sale None)
              [SellerPayouts.mkSellerEarning january_sale None])
    as (pid & request & items & taken & rest & st' & H1 & _ & H3
        & H4 & _ & _ & _ & _ & H9 & H10 & _ & _ & _ & _ & Hexact).
  - reflexivity.
  - reflexivity.
  - vm_compute. discriminate.
  - reflexivity.
  - reflexivity.
  - exists pid, request, items, taken, rest, st'.
    repeat (split; [assumption|]).
    apply Hexact; [reflexivity|].
    exists 25%Z, [19%Z; 19%Z]. split; [reflexivity|]. split.
    + repeat constructor.
    + vm_compute. discriminate.
Defined.

(** ** A complete checkout *)

Lemma stock_in_set_stock pid' v ps pid :
  stock_in (set_stock pid' v ps) pid
  = if (pid =? pid')%string then option_map (fun _ => v) (stock_in ps pid)
    else stock_in ps pid.
Proof.
  unfold stock_in, set_stock. induction ps as [|p ps IH]; simpl.
  - destruct (pid =? pid')%string; reflexivity.
  - destruct (String.eqb_spec (p_id p) pid') as [E1|E1]; simpl;
      destruct (String.eqb_spec (p_id p) pid) as [E2|E2]; simpl.
    + subst. rewrite String.eqb_refl. reflexivity.
    + exact IH.
    + subst. apply String.eqb_neq in E1. rewrite E1. reflexivity.
    + exact IH.
Qed.

Lemma restock_other items ps pid :
  (forall item, In item items -> ci_productId item <> pid) ->
  stock_in (restock items ps) pid = stock_in ps pid.
Proof.
  unfold restock. revert ps. induction items as [|x xs IH]; intros ps H;
    simpl; [reflexivity|].
  rewrite IH by (intros; apply H; now right).
  unfold restock1. destruct (ci_product x); [|reflexivity].
  rewrite stock_in_set_stock.
  assert (E : (pid =? ci_productId x)%string = false).
  { apply String.eqb_neq. intros ->. now apply (H x (or_introl eq_refl)). }
  now rewrite E.
Qed.

Lemma restock_hit items ps item product s :
  NoDup (map ci_productId items) ->
  In item items ->
  ci_product item = Some product ->
  stock_in ps (ci_productId item) = Some s ->
  stock_in (restock items ps) (ci_productId item)
  = Some (Z.max 0 (pv_stockQuantity product - ci_quantity item)).
Proof.
  unfold restock. revert ps s.
  induction items as [|x xs IH]; intros ps s Hnd Hin Hp Hs; [contradiction|].
  simpl in Hnd. inversion Hnd as [|? ? Hnotin Hnd']; subst. simpl.
  destruct Hin as [->|Hin].
  - change (fold_left restock1 xs (restock1 ps item))
      with (restock xs (restock1 ps item)).
    rewrite restock_other.
    + unfold restock1. rewrite Hp, stock_in_set_stock, String.eqb_refl, Hs.
      reflexivity.
    + intros y Hy E. apply Hnotin. rewrite <- E. now apply in_map.
  - assert (Hne : ci_productId x <> ci_productId item).
    { intros E. apply Hnotin. rewrite E. now apply in_map. }
    eapply IH; try eassumption.
    unfold restock1. destruct (ci_product x); [|exact Hs].
    rewrite stock_in_set_stock.
    assert (E : (ci_productId item =? ci_productId x)%string = false)
      by (apply String.eqb_neq; congruence).
    rewrite E. exact Hs.
Qed.

(** *** The loops of [handleSubmit], one line item at a time *)

Lemma stockValidation_passes items :
  forall errors w,
    (forall item, In item items ->
       ci_product item <> None
       /\ exists p, lookup w (ci_productId item) = Some p
                    /\ (ci_quantity item <= p_stock_quantity p)%Z) ->
    fst (Checkout.stockValidation items errors w) = Ok errors.
Proof.
  induction items as [|item rest IH]; intros errors w H; simpl;
    [reflexivity|].
  destruct (H item (or_introl eq_refl)) as [Hp [p [Hl Hq]]].
  destruct (ci_product item) as [product|]; [|contradiction].
  unfold bind, blink.products.list_by_id.
  unfold lookup in Hl.
  destruct (rejects w (ci_productId item)) eqn:Er; [discriminate|].
  rewrite firstn_1_filter, Hl.
  apply Z.ltb_ge in Hq. rewrite Hq.
  apply IH. intros x Hx. destruct (H x (or_intror Hx)) as [Hxp [q [Hxl Hxq]]].
  split; [exact Hxp|]. exists q. split; [|exact Hxq].
  unfold lookup in *. exact Hxl.
Qed.

Lemma fulfil_run orderId item w :
  rejects w (ci_productId item) = false ->
  exists oi w',
    Checkout.fulfil orderId item w = (Ok tt, w')
    /\ orderItems (db w') = orderItems (db w) ++ [oi]
    /\ oi_product_id oi = ci_productId item
    /\ oi_order_id oi = orderId
    /\ products (db w') = restock1 (products (db w)) item
    /\ fulfil_frame w w'.
Proof.
  intros Hr. unfold Checkout.fulfil, fulfil_frame, restock1.
  unfold bind at 1. cbn [fresh]. unfold bind at 1.
  cbn [blink.orderItems.create mutate].
  destruct (ci_product item) as [product|].
  2:{ eexists _, _. split; [reflexivity|]. cbn. repeat split. }
  unfold bind at 1. cbn [blink.products.update_stock mutate].
  unfold bind at 1. unfold blink.products.list_by_id.
  cbn [rejects with_db send]. rewrite Hr.
  destruct (firstn 1 _) as [|seller ?].
  - eexists _, _. split; [reflexivity|]. cbn. repeat split.
  - unfold bind at 1. cbn [fresh]. cbn [blink.sellerEarnings.create mutate].
    eexists _, _. split; [reflexivity|]. cbn. repeat split.
Qed.

Lemma fulfil_loop_run orderId items :
  forall w,
    (forall item, In item items -> rejects w (ci_productId item) = false) ->
    exists ois w',
      forM_ items (Checkout.fulfil orderId) w = (Ok tt, w')
      /\ orderItems (db w') = orderItems (db w) ++ ois
      /\ map oi_product_id ois = map ci_productId items
      /\ Forall (fun oi => oi_order_id oi = orderId) ois
      /\ products (db w') = restock items (products (db w))
      /\ fulfil_frame w w'.
Proof.
  induction items as [|item rest IH]; intros w Hr; simpl.
  - exists [], w. rewrite app_nil_r. unfold fulfil_frame. repeat split.
    constructor.
  - destruct (fulfil_run orderId item w (Hr item (or_introl eq_refl)))
      as (oi & w1 & Hrun & Hoi & Hpid & Hoid & Hps & Hc & Ho & Hs & Hj).
    unfold bind. rewrite Hrun.
    destruct (IH w1) as (ois & w2 & Hrun2 & Hois & Hpids & Hoids & Hps2
                         & Hc2 & Ho2 & Hs2 & Hj2).
    { intros x Hx. rewrite Hj. apply Hr. now right. }
    exists (oi :: ois), w2. split; [exact Hrun2|].
    split; [rewrite Hois, Hoi, <- app_assoc; reflexivity|].
    split; [simpl; now rewrite Hpid, Hpids|].
    split; [now constructor|].
    split; [rewrite Hps2, Hps; reflexivity|].
    unfold fulfil_frame. repeat split; congruence.
Qed.

Lemma recordDiscountUsage_run user orderId applied w :
  exists w',
    Checkout.recordDiscountUsage user orderId applied w = (Ok tt, w')
    /\ usage_frame w w'.
Proof.
  unfold Checkout.recordDiscountUsage, usage_frame.
  destruct applied as [a|].
  2:{ exists w. repeat split. }
  unfold bind at 1. cbn [blink.discountCodes.list_by_code query].
  destruct (firstn 1 _) as [|discountCode ?].
  - eexists. split; [reflexivity|]. repeat split.
  - unfold bind at 1. cbn [fresh]. unfold bind at 1.
    cbn [blink.discountCodeUses.create mutate].
    eexists. split; [reflexivity|]. cbn. repeat split.
Qed.

Lemma filter_twice {A} (f g : A -> bool) (l : list A) :
  filter f (filter g l) = filter (fun x => g x && f x) l.
Proof.
  induction l as [|x xs IH]; simpl; [reflexivity|].
  destruct (g x); simpl; [destruct (f x); now rewrite IH | exact IH].
Qed.

Lemma clear_cart_run items :
  forall w,
  exists w',
    forM_ items (fun item => blink.cartItems.delete (ci_id item)) w
    = (Ok tt, w')
    /\ cartItems (db w')
       = filter (fun c => negb (Js.includes (map ci_id items) (c_id c)))
           (cartItems (db w))
    /\ orders (db w') = orders (db w)
    /\ orderItems (db w') = orderItems (db w)
    /\ products (db w') = products (db w)
    /\ session_user w' = session_user w.
Proof.
  induction items as [|item rest IH]; intros w; simpl.
  - exists w. split; [reflexivity|]. split; [|repeat split].
    symmetry. apply forallb_filter_id. apply forallb_forall. reflexivity.
  - unfold bind. cbn [blink.cartItems.delete mutate].
    match goal with
    | |- context [forM_ rest _ ?w1] =>
        destruct (IH w1) as (w' & Hrun & Hc & Ho & Hoi & Hp & Hs)
    end.
    exists w'. split; [exact Hrun|].
    split; [|cbn in *; repeat split; assumption].
    rewrite Hc. cbn [db with_db send cartItems]. rewrite filter_twice.
    apply filter_ext. intros c. unfold Js.includes. cbn [existsb map].
    rewrite negb_orb. reflexivity.
Qed.

Lemma required_fields_pass form :
  required_fields_filled form ->
  Js.falsy_string (Checkout.firstName form)
  || Js.falsy_string (Checkout.lastName form)
  || Js.falsy_string (Checkout.email form)
  || Js.falsy_string (Checkout.address form) = false.
Proof.
  unfold required_fields_filled, Js.falsy_string.
  rewrite <- !String.eqb_neq. intros (-> & -> & -> & ->). reflexivity.
Qed.

Lemma handleSubmit_places_order form st w :
  required_fields_filled form ->
  (forall item, In item (Checkout.cartItems st) -> item_in_stock w item) ->
  exists orderId order ois w',
    Checkout.handleSubmit form st w = (Ok (Checkout.OrderPlaced orderId), w')
    /\ orders (db w') = orders (db w) ++ [order]
    /\ o_id order = orderId
    /\ o_user_id order = session_user w
    /\ o_total_amount order = Checkout.calculateTotal st
    /\ orderItems (db w') = orderItems (db w) ++ ois
    /\ map oi_product_id ois = map ci_productId (Checkout.cartItems st)
    /\ Forall (fun oi => oi_order_id oi = orderId) ois
    /\ products (db w') = restock (Checkout.cartItems st) (products (db w))
    /\ cartItems (db w')
       = filter (fun c =>
                   negb (Js.includes (map ci_id (Checkout.cartItems st))
                           (c_id c)))
           (cartItems (db w))
    /\ session_user w' = session_user w.
Proof.
  intros Hf Hv. unfold Checkout.handleSubmit.
  rewrite (required_fields_pass form Hf). unfold try_catch.
  unfold bind at 1. cbn [blink.auth_me]. unfold bind at 1.
  pose proof (stockValidation_passes (Checkout.cartItems st) []
                (send Req_auth_me w) Hv) as Hpass.
  pose proof (quiet_stockValidation (Checkout.cartItems st) []
                (send Req_auth_me w)) as Hq.
  destruct (Checkout.stockValidation _ _ _) as [r w1].
  cbn [fst snd] in Hpass, Hq. subst r.
  destruct Hq as (D1 & S1 & J1 & _). cbn [db session_user rejects send] in *.
  cbn [List.length Nat.ltb Nat.leb].
  unfold bind at 1. cbn [fresh]. unfold bind at 1.
  cbn [blink.orders.create mutate]. unfold bind at 1.
  match goal with
  | |- context [forM_ _ (Checkout.fulfil ?oid) ?w2] =>
      destruct (fulfil_loop_run oid (Checkout.cartItems st) w2)
        as (ois & w3 & Hrun & Hois & Hpids & Hoids & Hps & Hc & Ho & Hs & Hj)
  end.
  { intros item Hin. cbn [rejects with_db send]. rewrite J1.
    destruct (Hv item Hin) as [_ [p [Hl _]]]. unfold lookup in Hl.
    cbn [rejects send] in Hl.
    destruct (rejects w (ci_productId item)); [discriminate | reflexivity]. }
  rewrite Hrun. unfold bind at 1.
  match goal with
  | |- context [Checkout.recordDiscountUsage ?u ?oid ?a w3] =>
      destruct (recordDiscountUsage_run u oid a w3)
        as (w4 & Hrun4 & Hc4 & Ho4 & Hoi4 & Hp4 & Hs4)
  end.
  rewrite Hrun4. unfold bind at 1.
  destruct (clear_cart_run (Checkout.cartItems st) w4)
    as (w5 & Hrun5 & Hc5 & Ho5 & Hoi5 & Hp5 & Hs5).
  rewrite Hrun5. unfold bind at 1. cbn [toast ret].
  eexists _, _, ois, _. split; [reflexivity|].
  cbn [db orders with_db send] in *.
  split; [rewrite Ho5, Ho4, Ho; cbn; rewrite D1; reflexivity|].
  split; [reflexivity|]. split; [reflexivity|]. split; [reflexivity|].
  split; [rewrite Hoi5, Hoi4, Hois; cbn; rewrite D1; reflexivity|].
  split; [exact Hpids|]. split; [exact Hoids|].
  split; [rewrite Hp5, Hp4, Hps; cbn; rewrite D1; reflexivity|].
  split; [rewrite Hc5, Hc4, Hc; cbn; rewrite D1; reflexivity|].
  rewrite Hs5, Hs4, Hs. cbn. exact S1.
Qed.

(** *** Loading the checkout page *)

Lemma revalidates_found w row :
  revalidates w row = true ->
  exists p, lookup w (c_product_id row) = Some p
            /\ (c_quantity row <= p_stock_quantity p)%Z.
Proof.
  unfold revalidates. destruct (lookup w (c_product_id row)) as [p|];
    [|discriminate].
  intros H. exists p. split; [reflexivity | now apply Z.leb_le].
Qed.

Lemma lookup_not_rejected w pid p :
  lookup w pid = Some p -> rejects w pid = false.
Proof. unfold lookup. destruct (rejects w pid); [discriminate | reflexivity]. Qed.

Lemma lookup_stock_in w pid p :
  lookup w pid = Some p ->
  stock_in (products (db w)) pid = Some (p_stock_quantity p).
Proof.
  unfold lookup, stock_in. destruct (rejects w pid); [discriminate|].
  now intros ->.
Qed.

Lemma all_found_keeps_all w rows :
  (forall row, In row rows -> revalidates w row = true) ->
  filter has_product (map (enriched w) rows) = map (enriched w) rows.
Proof.
  intros H. apply forallb_filter_id. apply forallb_forall. intros item Hin.
  apply in_map_iff in Hin. destruct Hin as [row [<- Hrow]].
  destruct (revalidates_found w row (H row Hrow)) as [p [Hl _]].
  unfold has_product, enriched. simpl. now rewrite Hl.
Qed.

Lemma loaded_cart_all w :
  (forall row, In row (my_rows w) -> revalidates w row = true) ->
  loaded_cart w
  = map (enriched w) (orderBy_desc c_created_at (my_rows w)).
Proof.
  intros H. apply all_found_keeps_all. intros row Hin. apply H.
  now apply orderBy_desc_In in Hin.
Qed.

Lemma checkout_load_run st w :
  (forall row, In row (my_rows w) -> revalidates w row = true) ->
  exists w',
    Checkout.loadCartItems st w
    = (Ok (Checkout.mkState (loaded_cart w) (Checkout.appliedDiscount st)
             (Checkout.orderComplete st)), w')
    /\ quiet w w'.
Proof.
  intros H.
  pose proof (quiet_checkout_join
                (orderBy_desc c_created_at (my_rows w))
                (send (Req_cartItems_list (session_user w) None)
                   (send Req_auth_me w))) as Hq.
  pose proof (checkout_join_run
                (orderBy_desc c_created_at (my_rows w))
                (send (Req_cartItems_list (session_user w) None)
                   (send Req_auth_me w))) as Hrun.
  unfold Checkout.loadCartItems, try_catch.
  unfold bind at 1. cbn [blink.auth_me]. unfold bind at 1.
  cbn [blink.cartItems.list_of_user query]. unfold bind at 1.
  cbn [db send]. fold (my_rows w).
  destruct (Checkout.join _ _) as [r w1]. cbn [fst snd] in Hq, Hrun.
  rewrite Hrun.
  2:{ intros item Hin. cbn [rejects send]. apply orderBy_desc_In in Hin.
      destruct (revalidates_found w item (H item Hin)) as [p [Hl _]].
      exact (lookup_not_rejected w _ p Hl). }
  exists w1. split.
  - unfold ret, loaded_cart. reflexivity.
  - eapply quiet_trans; [|exact Hq].
    eapply quiet_trans; [apply (quiet_auth_me w)|].
    apply (quiet_query (Req_cartItems_list (session_user w) None)
             (fun _ => tt) eq_refl (send Req_auth_me w)).
Qed.

(** *** The scenario: load the page, enter the code, place the order *)

Lemma ten_percent_of_hundred subtotal d :
  subtotal == 100 ->
  d_discountType d = percentage ->
  d_discountValue d == 10 ->
  Qmax 0 (subtotal - Js.or_zero (DiscountCode.discount_of subtotal d)) == 90.
Proof.
  intros Hs Ht Hv. rewrite or_zero_eq.
  unfold DiscountCode.discount_of. rewrite Ht.
  assert (E : Qmin (subtotal * d_discountValue d / 100) subtotal == 10).
  { rewrite Hs, Hv. reflexivity. }
  rewrite E, Hs. reflexivity.
Qed.

Lemma nil_if_no_member {A} (l : list A) : (forall x, ~ In x l) -> l = [].
Proof.
  destruct l as [|x xs]; [reflexivity|]. intros H.
  exfalso. apply (H x). now left.
Qed.

(** On a page loaded just before: a customer whose cart rows all pass the
    stock re-validation (one row per product), with a subtotal of 100,
    loads the checkout page, enters a 10% code (minimum order 50, unexpired,
    not used by them before) and submits the filled-in form.  The order is
    placed with a total of 90; afterwards the customer has no cart row
    left, there is exactly one new order, exactly one new order item per
    product of the cart, and the stock of each product is lower by the
    quantity bought. *)
Lemma fresh_page_checkout_with_ten_percent_code :
  forall (now : Z) (code : string) (form : Checkout.FormData) (w : World)
         (d : DiscountCodeRow),
    required_fields_filled form ->
    (forall row, In row (my_rows w) -> revalidates w row = true) ->
    NoDup (map c_product_id (my_rows w)) ->
    Checkout.calculateSubtotal (loaded_cart w) == 100 ->
    Js.trim code <> "" ->
    first_active_match code (discountCodes (db w)) = Some d ->
    d_discountType d = percentage ->
    d_discountValue d == 10 ->
    d_minimumOrderAmount d == 50 ->
    unexpired now d ->
    under_max_uses d ->
    never_used_by (session_user w) d (discountCodeUses (db w)) ->
    exists orderId order ois,
      fst (checkout_with_code now code form w)
      = Ok (Checkout.OrderPlaced orderId)
      /\ orders (db (snd (checkout_with_code now code form w)))
         = orders (db w) ++ [order]
      /\ o_id order = orderId
      /\ o_user_id order = session_user w
      /\ o_total_amount order == 90
      /\ my_rows (snd (checkout_with_code now code form w)) = []
      /\ orderItems (db (snd (checkout_with_code now code form w)))
         = orderItems (db w) ++ ois
      /\ Forall (fun oi => oi_order_id oi = orderId) ois
      /\ Permutation (map oi_product_id ois) (map c_product_id (my_rows w))
      /\ NoDup (map oi_product_id ois)
      /\ forall row,
           In row (my_rows w) ->
           exists p,
             lookup w (c_product_id row) = Some p
             /\ stock_in
                  (products (db (snd (checkout_with_code now code form w))))
                  (c_product_id row)
                = Some (p_stock_quantity p - c_quantity row)%Z.
Proof.
  intros now code form w d Hform Hrows Hnd Hsub Hcode Hd Htype Hval Hmin
    Hexp Hmax Hused.
  remember (checkout_with_code now code form w) as run eqn:Erun.
  unfold checkout_with_code in Erun.
  destruct (checkout_load_run (Checkout.mkState [] None false) w Hrows)
    as (w1 & Hload & Hq1).
  unfold bind at 1 in Erun. rewrite Hload in Erun.
  cbn [Checkout.cartItems] in Erun. unfold bind at 1 in Erun.
  pose proof (widget_result now code
                (Checkout.calculateSubtotal (loaded_cart w)) w1) as Hw.
  pose proof (quiet_widget now code
                (Checkout.calculateSubtotal (loaded_cart w)) w1) as Hq2.
  destruct (DiscountCode.validateAndApplyDiscount _ _ _ w1) as [r w2].
  cbn [fst snd] in Hw, Hq2. subst r.
  assert (Hq : quiet w w2) by (eapply quiet_trans; eassumption).
  destruct Hq1 as (D1 & S1 & J1 & _).
  assert (Happlied :
            widget_outcome now code
              (Checkout.calculateSubtotal (loaded_cart w)) w1
            = Some (mkApplied (d_code d)
                      (DiscountCode.discount_of
                         (Checkout.calculateSubtotal (loaded_cart w)) d)
                      (d_description d))).
  { apply widget_outcome_some. split; [exact Hcode|]. exists d.
    unfold eligible. rewrite D1, S1. split; [exact Hd|].
    split; [|reflexivity].
    repeat split; try assumption. rewrite Hmin, Hsub.
    unfold Qle. simpl. lia. }
  rewrite Happlied in Erun. clear Happlied.
  set (st := Checkout.mkState (loaded_cart w) _ false) in Erun.
  assert (Hitems : forall item,
             In item (Checkout.cartItems st) -> item_in_stock w2 item).
  { intros item Hin. cbn [st Checkout.cartItems] in Hin.
    rewrite (loaded_cart_all w Hrows) in Hin.
    apply in_map_iff in Hin. destruct Hin as [row [<- Hrow]].
    apply orderBy_desc_In in Hrow.
    destruct (revalidates_found w row (Hrows row Hrow)) as [p [Hl Hle]].
    unfold item_in_stock, enriched. cbn [ci_product ci_productId ci_quantity].
    rewrite Hl. split; [discriminate|]. exists p.
    split; [|exact Hle]. now rewrite (lookup_quiet w w2 _ Hq). }
  destruct (handleSubmit_places_order form st w2 Hform Hitems)
    as (orderId & order & ois & w3 & Hrun & Ho & Hoid & Hou & Htot & Hoi
        & Hpids & Hoids & Hps & Hc & Hs).
  rewrite Hrun in Erun. subst run. cbn [fst snd].
  destruct Hq as (D2 & S2 & J2 & _).
  assert (Hcart : map ci_productId (loaded_cart w)
                  = map c_product_id (orderBy_desc c_created_at (my_rows w))).
  { rewrite (loaded_cart_all w Hrows), map_map. reflexivity. }
  assert (Hperm : Permutation (map ci_productId (loaded_cart w))
                    (map c_product_id (my_rows w))).
  { rewrite Hcart. apply Permutation_map. symmetry.
    apply orderBy_desc_perm. }
  exists orderId, order, ois.
  split; [reflexivity|].
  split; [rewrite Ho, D2; reflexivity|].
  split; [exact Hoid|]. split; [rewrite Hou; exact S2|].
  split.
  { rewrite Htot. unfold Checkout.calculateTotal.
    cbn [st Checkout.cartItems Checkout.appliedDiscount
         Checkout.discountAmount_of ad_amount].
    now apply ten_percent_of_hundred. }
  split.
  { apply nil_if_no_member. intros c Hin. unfold my_rows in Hin.
    apply filter_In in Hin. destruct Hin as [Hin Hu].
    rewrite Hc in Hin. apply filter_In in Hin. destruct Hin as [Hin Hnot].
    rewrite Hs, S2 in Hu. rewrite D2 in Hin.
    assert (Hmine : In c (my_rows w)).
    { unfold my_rows. apply filter_In. split; assumption. }
    apply negb_true_iff in Hnot.
    assert (Hyes : Js.includes (map ci_id (Checkout.cartItems st)) (c_id c)
                   = true).
    { apply includes_In. cbn [st Checkout.cartItems].
      rewrite (loaded_cart_all w Hrows), map_map. cbn [enriched ci_id].
      apply in_map. now apply orderBy_desc_In. }
    congruence. }
  split; [rewrite Hoi, D2; reflexivity|].
  split; [exact Hoids|].
  split; [rewrite Hpids; exact Hperm|].
  split.
  { rewrite Hpids. apply (Permutation_NoDup (l := map c_product_id (my_rows w)));
      [symmetry; exact Hperm | exact Hnd]. }
  intros row Hrow.
  destruct (revalidates_found w row (Hrows row Hrow)) as [p [Hl Hle]].
  exists p. split; [exact Hl|]. rewrite Hps, D2.
  cbn [st Checkout.cartItems].
  assert (Hin : In (enriched w row) (loaded_cart w)).
  { rewrite (loaded_cart_all w Hrows). apply in_map.
    now apply orderBy_desc_In. }
  pose proof (restock_hit (loaded_cart w) (products (db w)) (enriched w row)
                (view_of p) (p_stock_quantity p)) as Hhit.
  cbn [enriched ci_productId ci_quantity ci_product view_of pv_stockQuantity]
    in Hhit.
  rewrite Hhit.
  - f_equal. lia.
  - apply (Permutation_NoDup (l := map c_product_id (my_rows w)));
      [symmetry; exact Hperm | exact Hnd].
  - exact Hin.
  - now rewrite Hl.
  - now apply lookup_stock_in.
Qed.

(** *** The scenario on any page: enter the code, place the order *)





Lemma payout_beyond_balance_is_rejected_witness :
  (fst (SellerPayouts.handlePayoutRequest (request_of 50) two_sales_page
          two_sales)
   = Ok (SellerPayouts.InvalidAmount, two_sales_page)
   \/ fst (SellerPayouts.handlePayoutRequest (request_of 50) two_sales_page
             two_sales)
      = Ok (SellerPayouts.InsufficientBalance, two_sales_page))
  /\ trace (snd (SellerPayouts.handlePayoutRequest (request_of 50)
                   two_sales_page two_sales))
     = trace two_sales
  /\ db (snd (SellerPayouts.handlePayoutRequest (request_of 50)
                two_sales_page two_sales))
     = db two_sales
  /\ toasts (snd (SellerPayouts.handlePayoutRequest (request_of 50)
                    two_sales_page two_sales))
     = "Error" :: toasts two_sales.
Proof.
  apply (payout_beyond_balance_is_rejected (request_of 50) two_sales_page
           two_sales).
  - reflexivity.
  - right. reflexivity.
Defined.

(** The clamp at work: the re-validation sees five in stock and lets the
    order through, the write-back starts from the one the page holds. *)
Example stale_stock_is_clamped_to_zero :
  In (Req_products_update "p1" 0)
    (trace (snd (Checkout.handleSubmit alice_form stale_page restocked_shop))).
Proof. vm_compute. tauto. Qed.

Lemma validation_failure_writes_nothing_witness :
  quiet lamp_world
    (snd (Checkout.handleSubmit alice_form lamp_cart lamp_world))
  /\ (exists t,
         toasts (snd (Checkout.handleSubmit alice_form lamp_cart lamp_world))
         = t :: toasts lamp_world)
  /\ (fst (Checkout.handleSubmit alice_form lamp_cart lamp_world)
      = Ok Checkout.MissingFields ->
      trace (snd (Checkout.handleSubmit alice_form lamp_cart lamp_world))
      = trace lamp_world).
Proof.
  apply (proj1 validation_failure_writes_nothing alice_form lamp_cart
           lamp_world).
  vm_compute. reflexivity.
Defined.

(** * Further properties *)

Lemma find_unique_id (items : list CartItem) (id : string) (item x : CartItem) :
  NoDup (map ci_id items) ->
  find (fun i => (ci_id i =? id)%string) items = Some item ->
  In x items -> ci_id x = id -> x = item.
Proof.
  induction items as [|y ys IH]; intros Hnd Hf Hin Hid; [contradiction|].
  simpl in Hnd. inversion Hnd as [|? ? Hnot Hnd']; subst.
  simpl in Hf. destruct (String.eqb_spec (ci_id y) (ci_id x)) as [E|E].
  - inversion Hf; subst item. destruct Hin as [->|Hin]; [reflexivity|].
    exfalso. apply Hnot. rewrite E. now apply in_map.
  - destruct Hin as [->|Hin]; [contradiction|]. now apply IH.
Qed.

(** X1: a quantity change that the cart page refuses (below one, item not on
    display or without product, above the displayed stock) sends no request
    and leaves page and backend as they are. *)
Theorem refused_quantity_change_sends_nothing :
  forall (itemId : string) (newQuantity : Z) (st : Cart.State) (w : World),
    (newQuantity < 1)%Z
    \/ (forall item product,
          find (fun i => (ci_id i =? itemId)%string) (Cart.cartItems st)
          = Some item ->
          ci_product item = Some product ->
          (pv_stockQuantity product < newQuantity)%Z) ->
    fst (CartControls.updateQuantity itemId newQuantity st w) = Ok st
    /\ trace (snd (CartControls.updateQuantity itemId newQuantity st w))
       = trace w
    /\ db (snd (CartControls.updateQuantity itemId newQuantity st w)) = db w.
Proof.
  intros itemId q st w H. unfold CartControls.updateQuantity.
  destruct (Z.ltb_spec q 1) as [Hlt|Hge]; [cbn; auto|].
  destruct H as [H|H]; [lia|]. unfold try_catch.
  destruct (find _ _) as [item|]; [|cbn; auto].
  destruct (ci_product item) as [product|] eqn:Hp; [|cbn; auto].
  specialize (H item product eq_refl Hp).
  apply Z.ltb_lt in H. rewrite H. cbn. auto.
Qed.

Lemma refused_quantity_change_sends_nothing_witness :
  fst (CartControls.updateQuantity "c1" 6 two_lamps_on_display
         two_lamps_in_cart) = Ok two_lamps_on_display
  /\ trace (snd (CartControls.updateQuantity "c1" 6 two_lamps_on_display
                   two_lamps_in_cart))
     = trace two_lamps_in_cart
  /\ db (snd (CartControls.updateQuantity "c1" 6 two_lamps_on_display
                two_lamps_in_cart)) = db two_lamps_in_cart.
Proof.
  apply (refused_quantity_change_sends_nothing "c1" 6 two_lamps_on_display
           two_lamps_in_cart).
  right. intros item product Hf Hp. vm_compute in Hf. inversion Hf; subst.
  vm_compute in Hp. inversion Hp; subst. reflexivity.
Defined.

(** X2: on a page whose items have distinct ids, a quantity change keeps
    every displayed quantity between one and the displayed stock, keeps the
    displayed quantities equal to those of the backend rows, and shows the
    same items in the same order. *)
Theorem quantity_change_keeps_cart_consistent :
  forall (itemId : string) (newQuantity : Z) (st : Cart.State) (w : World),
    NoDup (map ci_id (Cart.cartItems st)) ->
    within_stock st ->
    in_sync w st ->
    exists st',
      fst (CartControls.updateQuantity itemId newQuantity st w) = Ok st'
      /\ within_stock st'
      /\ in_sync (snd (CartControls.updateQuantity itemId newQuantity st w))
           st'
      /\ map ci_id (Cart.cartItems st') = map ci_id (Cart.cartItems st).
Proof.
  intros itemId q st w Hnd Hws Hsync. unfold CartControls.updateQuantity.
  destruct (Z.ltb_spec q 1) as [Hlt|Hge]; [exists st; cbn; auto|].
  unfold try_catch.
  destruct (find _ _) as [item|] eqn:Hf; [|exists st; cbn; auto].
  destruct (ci_product item) as [product|] eqn:Hp; [|exists st; cbn; auto].
  destruct (Z.ltb_spec (pv_stockQuantity product) q) as [Hs|Hs];
    [exists st; cbn; auto|].
  eexists. cbn. split; [reflexivity|]. split; [|split].
  - intros x p Hin Hxp. apply in_map_iff in Hin.
    destruct Hin as [y [Hy Hin]].
    destruct (String.eqb_spec (ci_id y) itemId) as [E|E].
    + subst x. cbn in *.
      assert (y = item) by (eapply find_unique_id; eassumption). subst y.
      rewrite Hp in Hxp. inversion Hxp; subst. lia.
    + subst x. now apply (Hws y p).
  - intros x row Hin Hrow Hid. apply in_map_iff in Hin.
    destruct Hin as [y [Hy Hin]]. apply in_map_iff in Hrow.
    destruct Hrow as [r [Hr Hrow]].
    destruct (String.eqb_spec (ci_id y) itemId) as [E|E]; subst x;
      destruct (String.eqb_spec (c_id r) itemId) as [E'|E']; subst row;
      cbn in *; try reflexivity; try congruence.
    now apply Hsync.
  - cbn [Cart.cartItems]. clear.
    induction (Cart.cartItems st) as [|y ys IH]; [reflexivity|].
    cbn. rewrite IH. destruct (ci_id y =? itemId)%string; reflexivity.
Qed.

Lemma quantity_change_keeps_cart_consistent_witness :
  exists st',
    fst (CartControls.updateQuantity "c1" 3 two_lamps_on_display
           two_lamps_in_cart) = Ok st'
    /\ within_stock st'
    /\ in_sync (snd (CartControls.updateQuantity "c1" 3 two_lamps_on_display
                       two_lamps_in_cart)) st'
    /\ map ci_id (Cart.cartItems st')
       = map ci_id (Cart.cartItems two_lamps_on_display).
Proof.
  apply (quantity_change_keeps_cart_consistent "c1" 3 two_lamps_on_display
           two_lamps_in_cart).
  - simpl. repeat constructor. simpl. tauto.
  - intros item product [<-|[]] Hp. inversion Hp; subst. simpl. lia.
  - intros item row [<-|[]] [<-|[]] _. reflexivity.
Defined.

(** X3: removing an item deletes its backend row and takes it off the page;
    the other rows and items stay as they are, and a page that was within
    stock and in step with the backend remains so. *)
Theorem removed_item_is_gone_everywhere :
  forall (itemId : string) (st : Cart.State) (w : World),
  exists st',
    fst (CartControls.removeItem itemId st w) = Ok st'
    /\ cartItems (db (snd (CartControls.removeItem itemId st w)))
       = filter (fun c => negb (c_id c =? itemId)%string) (cartItems (db w))
    /\ Cart.cartItems st'
       = filter (fun i => negb (ci_id i =? itemId)%string) (Cart.cartItems st)
    /\ (forall row,
          In row (cartItems (db (snd (CartControls.removeItem itemId st w)))) ->
          c_id row <> itemId)
    /\ (forall item, In item (Cart.cartItems st') -> ci_id item <> itemId)
    /\ (within_stock st -> within_stock st')
    /\ (in_sync w st ->
        in_sync (snd (CartControls.removeItem itemId st w)) st').
Proof.
  intros itemId st w. eexists. cbn.
  split; [reflexivity|]. split; [reflexivity|]. split; [reflexivity|].
  split; [|split; [|split]].
  - intros row Hin. apply filter_In in Hin. destruct Hin as [_ H].
    apply negb_true_iff in H. now apply String.eqb_neq.
  - intros item Hin. apply filter_In in Hin. destruct Hin as [_ H].
    apply negb_true_iff in H. now apply String.eqb_neq.
  - intros Hws item p Hin. apply filter_In in Hin. destruct Hin as [Hin _].
    now apply Hws.
  - intros Hs item row Hin Hrow. apply filter_In in Hin.
    apply filter_In in Hrow. destruct Hin as [Hin _], Hrow as [Hrow _].
    now apply Hs.
Qed.

Lemma filter_map_stable {A} (f : A -> bool) (g : A -> A) (l : list A) :
  (forall x, f (g x) = f x) -> filter f (map g l) = map g (filter f l).
Proof.
  intros H. induction l as [|x xs IH]; simpl; [reflexivity|].
  rewrite H. destruct (f x); simpl; now rewrite IH.
Qed.

Lemma rows_of_with_quantity w id q user product :
  filter (fun c => (c_user_id c =? user)%string
                   && (c_product_id c =? product)%string)
    (with_quantity id q (cartItems (db w)))
  = with_quantity id q (rows_of w user product).
Proof.
  unfold with_quantity, rows_of. apply filter_map_stable. intros c.
  destruct (c_id c =? id)%string; reflexivity.
Qed.

Lemma one_row_with_quantity w w' id q :
  cartItems (db w') = with_quantity id q (cartItems (db w)) ->
  one_row_per_product w -> one_row_per_product w'.
Proof.
  intros E H user product. unfold rows_of. rewrite E.
  rewrite rows_of_with_quantity, with_quantity_length. apply H.
Qed.

Lemma one_row_same_cart w w' :
  cartItems (db w') = cartItems (db w) ->
  one_row_per_product w -> one_row_per_product w'.
Proof. intros E H user product. unfold rows_of. rewrite E. apply H. Qed.

Lemma one_row_new_row w w' row :
  cartItems (db w') = cartItems (db w) ++ [row] ->
  rows_of w (c_user_id row) (c_product_id row) = [] ->
  one_row_per_product w -> one_row_per_product w'.
Proof.
  intros E Hnone H user product. unfold rows_of. rewrite E, filter_app.
  rewrite length_app. cbn [filter].
  destruct ((c_user_id row =? user)%string
            && (c_product_id row =? product)%string) eqn:Em.
  - apply andb_true_iff in Em. destruct Em as [E1 E2].
    apply String.eqb_eq in E1, E2. subst user product.
    unfold rows_of in Hnone. rewrite Hnone. simpl. lia.
  - simpl. rewrite Nat.add_0_r. apply H.
Qed.

(** The three pages in closed form: what the cart table is afterwards. *)
Lemma home_addToCart_cart product w :
  cartItems (db (snd (HomePage.addToCart product w))) = cartItems (db w)
  \/ (exists existing rest,
        rows_of w (session_user w) (pv_id product) = existing :: rest
        /\ cartItems (db (snd (HomePage.addToCart product w)))
           = with_quantity (c_id existing) (c_quantity existing + 1)
               (cartItems (db w)))
  \/ (rows_of w (session_user w) (pv_id product) = []
      /\ (0 < pv_stockQuantity product)%Z
      /\ fst (HomePage.addToCart product w) = Ok AddedToCart
      /\ cartItems (db (snd (HomePage.addToCart product w)))
         = cartItems (db w) ++ [new_row_for w (pv_id product) 1]).
Proof.
  unfold HomePage.addToCart, try_catch, rows_of.
  destruct (Z.leb_spec (pv_stockQuantity product) 0); [cbn; auto|].
  unfold bind, blink.auth_me, blink.cartItems.list_of_user_product, query.
  cbn [db send session_user].
  destruct (filter _ (cartItems (db w))) as [|existing rest] eqn:Hrows.
  - right. right. cbn. auto.
  - cbv beta iota. destruct (_ <? _)%Z; cbn; [auto|].
    right. left. exists existing, rest. auto.
Qed.

Lemma product_addToCart_cart product quantity w :
  let st := ProductDetails.mkState (Some product) quantity in
  cartItems (db (snd (ProductDetails.addToCart st w))) = cartItems (db w)
  \/ (exists existing rest,
        rows_of w (session_user w) (pv_id product) = existing :: rest
        /\ cartItems (db (snd (ProductDetails.addToCart st w)))
           = with_quantity (c_id existing) (c_quantity existing + quantity)
               (cartItems (db w)))
  \/ (rows_of w (session_user w) (pv_id product) = []
      /\ (0 < pv_stockQuantity product)%Z
      /\ (quantity <= pv_stockQuantity product)%Z
      /\ fst (ProductDetails.addToCart st w) = Ok AddedToCart
      /\ cartItems (db (snd (ProductDetails.addToCart st w)))
         = cartItems (db w) ++ [new_row_for w (pv_id product) quantity]).
Proof.
  unfold ProductDetails.addToCart, try_catch, rows_of.
  cbn [ProductDetails.product ProductDetails.quantity].
  destruct (Z.leb_spec (pv_stockQuantity product) 0); [cbn; auto|].
  destruct (Z.ltb_spec (pv_stockQuantity product) quantity); [cbn; auto|].
  unfold bind, blink.auth_me, blink.cartItems.list_of_user_product, query.
  cbn [db send session_user].
  destruct (filter _ (cartItems (db w))) as [|existing rest] eqn:Hrows.
  - right. right. cbn. auto.
  - cbv beta iota. destruct (_ <? _)%Z; cbn; [auto|].
    right. left. exists existing, rest. auto.
Qed.

Lemma book_addToCart_cart book w :
  cartItems (db (snd (BookDetails.addToCart (Some book) w))) = cartItems (db w)
  \/ (exists existing rest,
        rows_of w (session_user w) (BookDetails.id book) = existing :: rest
        /\ cartItems (db (snd (BookDetails.addToCart (Some book) w)))
           = with_quantity (c_id existing) (c_quantity existing + 1)
               (cartItems (db w)))
  \/ (rows_of w (session_user w) (BookDetails.id book) = []
      /\ cartItems (db (snd (BookDetails.addToCart (Some book) w)))
         = cartItems (db w) ++ [new_row_for w (BookDetails.id book) 1]).
Proof.
  unfold BookDetails.addToCart, try_catch, rows_of.
  unfold bind, blink.auth_me, blink.cartItems.list_of_user_product, query.
  cbn [db send session_user].
  destruct (filter _ (cartItems (db w))) as [|existing rest] eqn:Hrows.
  - right. right. cbn. auto.
  - cbn. right. left. exists existing, rest. auto.
Qed.

(** X4: adding to the cart from the listing page, the product page or the
    book page never gives a user a second row for a product: a backend in
    which every user has at most one row per product stays so. *)
Theorem addToCart_keeps_one_row_per_product :
  forall (w : World),
    one_row_per_product w ->
    (forall product,
        one_row_per_product (snd (HomePage.addToCart product w)))
    /\ (forall st,
           one_row_per_product (snd (ProductDetails.addToCart st w)))
    /\ (forall book,
           one_row_per_product (snd (BookDetails.addToCart book w))).
Proof.
  intros w H. split; [|split].
  - intros product.
    destruct (home_addToCart_cart product w)
      as [E|[(existing & rest & _ & E)|(Hnone & _ & _ & E)]].
    + now apply (one_row_same_cart w).
    + now apply (one_row_with_quantity w _ _ _ E).
    + now apply (one_row_new_row w _ _ E).
  - intros [[product|] quantity]; [|exact H].
    destruct (product_addToCart_cart product quantity w)
      as [E|[(existing & rest & _ & E)|(Hnone & _ & _ & _ & E)]].
    + now apply (one_row_same_cart w).
    + now apply (one_row_with_quantity w _ _ _ E).
    + now apply (one_row_new_row w _ _ E).
  - intros [book|]; [|exact H].
    destruct (book_addToCart_cart book w)
      as [E|[(existing & rest & _ & E)|(Hnone & E)]].
    + now apply (one_row_same_cart w).
    + now apply (one_row_with_quantity w _ _ _ E).
    + now apply (one_row_new_row w _ _ E).
Qed.

Lemma addToCart_keeps_one_row_per_product_witness :
  (forall product,
      one_row_per_product (snd (HomePage.addToCart product two_lamps_in_cart)))
  /\ (forall st,
         one_row_per_product
           (snd (ProductDetails.addToCart st two_lamps_in_cart)))
  /\ (forall book,
         one_row_per_product
           (snd (BookDetails.addToCart book two_lamps_in_cart))).
Proof.
  apply (addToCart_keeps_one_row_per_product two_lamps_in_cart).
  intros user product. unfold rows_of, two_lamps_in_cart.
  cbn [db cartItems filter c_user_id c_product_id].
  destruct (("alice" =? user)%string && ("p1" =? product)%string);
    simpl; lia.
Defined.

Lemma quantity_options_bounds stock q :
  In q (quantity_options stock) ->
  (1 <= q <= 10)%Z /\ (q <= stock)%Z.
Proof.
  unfold quantity_options. intros Hin. apply in_map_iff in Hin.
  destruct Hin as [i [<- Hi]]. apply in_seq in Hi. lia.
Qed.

(** X5: every quantity the product page offers is between 1 and
    [min(10, stock)], and choosing one for a product that is not yet in the
    customer's cart succeeds and adds exactly one row, for that customer,
    product and quantity. *)
Theorem offered_quantity_is_accepted :
  forall (product : ProductView) (quantity : Z) (w : World),
    In quantity (quantity_options (pv_stockQuantity product)) ->
    rows_of w (session_user w) (pv_id product) = [] ->
    (1 <= quantity <= Z.min 10 (pv_stockQuantity product))%Z
    /\ fst (ProductDetails.addToCart
              (ProductDetails.mkState (Some product) quantity) w)
       = Ok AddedToCart
    /\ cartItems
         (db (snd (ProductDetails.addToCart
                     (ProductDetails.mkState (Some product) quantity) w)))
       = cartItems (db w) ++ [new_row_for w (pv_id product) quantity].
Proof.
  intros product quantity w Hin Hnone.
  destruct (quantity_options_bounds _ _ Hin) as [Hq Hs].
  split; [lia|].
  unfold ProductDetails.addToCart, try_catch.
  cbn [ProductDetails.product ProductDetails.quantity].
  destruct (Z.leb_spec (pv_stockQuantity product) 0); [lia|].
  destruct (Z.ltb_spec (pv_stockQuantity product) quantity); [lia|].
  unfold bind, blink.auth_me, blink.cartItems.list_of_user_product, query.
  cbn [db send session_user]. unfold rows_of in Hnone. rewrite Hnone.
  cbn. auto.
Qed.

Lemma offered_quantity_is_accepted_witness :
  (1 <= 3 <= Z.min 10 (pv_stockQuantity lamp_view))%Z
  /\ fst (ProductDetails.addToCart
            (ProductDetails.mkState (Some lamp_view) 3) empty_shop)
     = Ok AddedToCart
  /\ cartItems
       (db (snd (ProductDetails.addToCart
                   (ProductDetails.mkState (Some lamp_view) 3) empty_shop)))
     = cartItems (db empty_shop) ++ [new_row_for empty_shop (pv_id lamp_view) 3].
Proof.
  apply (offered_quantity_is_accepted lamp_view 3 empty_shop).
  - vm_compute. tauto.
  - reflexivity.
Defined.

(** ** When an order is placed *)

Lemma required_fields_fail form :
  Js.falsy_string (Checkout.firstName form)
  || Js.falsy_string (Checkout.lastName form)
  || Js.falsy_string (Checkout.email form)
  || Js.falsy_string (Checkout.address form) = false ->
  required_fields_filled form.
Proof.
  unfold required_fields_filled, Js.falsy_string. intros H.
  repeat (apply orb_false_iff in H; destruct H as [H ?]).
  repeat split; now apply String.eqb_neq.
Qed.

Lemma stockValidation_result items :
  forall errors w errors',
    fst (Checkout.stockValidation items errors w) = Ok errors' ->
    exists more,
      errors' = errors ++ more
      /\ (more = [] -> forall item, In item items -> item_in_stock w item).
Proof.
  induction items as [|item rest IH]; intros errors w errors' H; simpl in H.
  - inversion H. exists []. rewrite app_nil_r. split; [reflexivity|].
    intros _ item [].
  - destruct (ci_product item) as [product|] eqn:Hp.
    2:{ destruct (IH _ _ _ H) as [more [E _]]. eexists (_ :: more).
        rewrite E, <- app_assoc. split; [reflexivity | discriminate]. }
    unfold bind, blink.products.list_by_id in H.
    destruct (rejects w (ci_productId item)) eqn:Er; [discriminate|].
    rewrite firstn_1_filter in H.
    destruct (find _ (products (db w))) as [current|] eqn:Hf.
    2:{ destruct (IH _ _ _ H) as [more [E _]]. eexists (_ :: more).
        rewrite E, <- app_assoc. split; [reflexivity | discriminate]. }
    destruct (Z.ltb_spec (p_stock_quantity current) (ci_quantity item)).
    { destruct (IH _ _ _ H) as [more [E _]]. eexists (_ :: more).
      rewrite E, <- app_assoc. split; [reflexivity | discriminate]. }
    destruct (IH _ _ _ H) as [more [E Hall]]. exists more.
    split; [exact E|]. intros Hm x [<-|Hx].
    + split; [rewrite Hp; discriminate|]. exists current.
      unfold lookup. rewrite Er. split; assumption.
    + exact (Hall Hm x Hx).
Qed.

(** X6: a checkout places the order exactly when the four required fields
    are filled in and every line item passes the re-validation: it has a
    product, the fresh lookup finds it, and the fresh stock covers the
    quantity. *)
Theorem order_placed_iff_valid :
  forall (form : Checkout.FormData) (st : Checkout.State) (w : World),
    (exists orderId,
        fst (Checkout.handleSubmit form st w)
        = Ok (Checkout.OrderPlaced orderId))
    <-> required_fields_filled form
        /\ forall item, In item (Checkout.cartItems st) -> item_in_stock w item.
Proof.
  intros form st w. split.
  - intros [orderId H]. unfold Checkout.handleSubmit in H.
    destruct (_ || _) eqn:Ef; [discriminate|].
    split; [now apply required_fields_fail|].
    unfold try_catch in H. unfold bind at 1 in H.
    unfold blink.auth_me in H. cbv beta iota in H.
    unfold bind at 1 in H.
    pose proof (stockValidation_result (Checkout.cartItems st) []
                  (send Req_auth_me w)) as Hv.
    destruct (Checkout.stockValidation _ _ _) as [[errs|] w1];
      [|discriminate].
    destruct (Hv errs eq_refl) as [more [E Hall]]. simpl in E. subst more.
    destruct errs as [|e errs]; [|discriminate].
    intros item Hin. exact (Hall eq_refl item Hin).
  - intros [Hf Hall].
    destruct (handleSubmit_places_order form st w Hf Hall)
      as (orderId & order & ois & w' & Hrun & _).
    exists orderId. now rewrite Hrun.
Qed.

(** ** The stock writes of a checkout *)

Lemma stock_writes_app a b :
  stock_writes (a ++ b) = stock_writes a ++ stock_writes b.
Proof.
  induction a as [|r a IH]; simpl; [reflexivity|].
  destruct r; simpl; rewrite ?IH; reflexivity.
Qed.

Lemma stock_writes_In id stock requests :
  In (id, stock) (stock_writes requests)
  <-> In (Req_products_update id stock) requests.
Proof.
  induction requests as [|r rest IH]; simpl; [tauto|].
  destruct r; simpl; rewrite IH;
    try (split; [now right | intros [H|H]; [discriminate | exact H]]).
  split; (intros [H|H]; [left; congruence | now right]).
Qed.

Lemma stock_writes_reads delta :
  Forall (fun r => is_write r = false) delta -> stock_writes delta = [].
Proof.
  induction 1 as [|r delta Hr _ IH]; simpl; [reflexivity|].
  destruct r; try exact IH. discriminate.
Qed.

Lemma quiet_no_stock_write w w' : quiet w w' -> no_stock_write w w'.
Proof.
  intros (_ & _ & _ & delta & E & F). unfold no_stock_write.
  rewrite E, stock_writes_app, (stock_writes_reads delta F). reflexivity.
Qed.

Lemma no_stock_write_refl w : no_stock_write w w.
Proof. reflexivity. Qed.

Lemma no_stock_write_trans a b c :
  no_stock_write a b -> no_stock_write b c -> no_stock_write a c.
Proof. unfold no_stock_write. congruence. Qed.

Ltac nsw_step :=
  first
    [ apply (preserves_ret no_stock_write no_stock_write_refl)
    | apply (preserves_bind no_stock_write no_stock_write_trans); [| intros ?]
    | apply (preserves_try_catch no_stock_write no_stock_write_trans)
    | intros ?; reflexivity ].

Lemma no_stock_write_recordDiscountUsage user orderId applied :
  preserves no_stock_write
    (Checkout.recordDiscountUsage user orderId applied).
Proof.
  unfold Checkout.recordDiscountUsage. destruct applied; [|nsw_step].
  nsw_step; [nsw_step|]. destruct a0; repeat nsw_step.
Qed.

Lemma no_stock_write_clear_cart items :
  preserves no_stock_write
    (forM_ items (fun item => blink.cartItems.delete (ci_id item))).
Proof.
  apply (preserves_forM no_stock_write no_stock_write_refl
           no_stock_write_trans).
  intros x _. nsw_step.
Qed.

(** One pass of the fulfilment loop sends the write of its line item, also
    when the lookup that follows the write rejects. *)
Lemma fulfil_stock_writes orderId item w :
  stock_writes (trace (snd (Checkout.fulfil orderId item w)))
  = rev (clamped_write item) ++ stock_writes (trace w).
Proof.
  unfold Checkout.fulfil, clamped_write.
  unfold bind at 1. cbn [fresh]. unfold bind at 1.
  cbn [blink.orderItems.create mutate].
  destruct (ci_product item) as [product|]; [|reflexivity].
  unfold bind at 1. cbn [blink.products.update_stock mutate].
  unfold bind at 1. unfold blink.products.list_by_id.
  cbn [rejects with_db send].
  destruct (rejects w (ci_productId item)); [reflexivity|].
  destruct (firstn 1 _) as [|seller ?]; reflexivity.
Qed.

Lemma fulfil_loop_stock_writes orderId items :
  forall w w',
    forM_ items (Checkout.fulfil orderId) w = (Ok tt, w') ->
    stock_writes (trace w')
    = rev (clamped_writes items) ++ stock_writes (trace w).
Proof.
  induction items as [|item rest IH]; intros w w' H; simpl in H.
  - inversion H. reflexivity.
  - unfold bind in H.
    pose proof (fulfil_stock_writes orderId item w) as Hw.
    destruct (Checkout.fulfil orderId item w) as [[[]|] w1];
      [|discriminate].
    cbn [snd] in Hw. rewrite (IH _ _ H), Hw.
    unfold clamped_writes. simpl. rewrite rev_app_distr, app_assoc.
    reflexivity.
Qed.

(** The stock writes of a checkout, exactly: none unless the order is
    placed, and then one per line item. *)
Lemma handleSubmit_stock_writes form st w :
  stock_writes (trace (snd (Checkout.handleSubmit form st w)))
  = match fst (Checkout.handleSubmit form st w) with
    | Ok (Checkout.OrderPlaced _) =>
        rev (clamped_writes (Checkout.cartItems st))
    | _ => []
    end ++ stock_writes (trace w).
Proof.
  remember (Checkout.handleSubmit form st w) as run eqn:E.
  unfold Checkout.handleSubmit in E.
  destruct (_ || _); [subst; reflexivity|].
  unfold try_catch in E. unfold bind at 1 in E. cbn [blink.auth_me] in E.
  unfold bind at 1 in E.
  pose proof (stockValidation_result (Checkout.cartItems st) []
                (send Req_auth_me w)) as Hv.
  pose proof (quiet_stockValidation (Checkout.cartItems st) []
                (send Req_auth_me w)) as Hq.
  destruct (Checkout.stockValidation _ _ _) as [[errs|] w1];
    cbn [fst snd] in Hv, Hq.
  2:{ subst. cbn. exact (quiet_no_stock_write _ _ Hq). }
  destruct (Hv errs eq_refl) as [more [Em Hall]]. simpl in Em. subst more.
  destruct errs as [|e errs].
  2:{ subst. cbn. exact (quiet_no_stock_write _ _ Hq). }
  specialize (Hall eq_refl).
  pose proof (quiet_no_stock_write _ _ Hq) as Hn.
  destruct Hq as (D1 & S1 & J1 & _). cbn [db session_user rejects send] in *.
  cbn [List.length Nat.ltb Nat.leb] in E.
  unfold bind at 1 in E. cbn [fresh] in E. unfold bind at 1 in E.
  cbn [blink.orders.create mutate] in E. unfold bind at 1 in E.
  match type of E with
  | context [forM_ _ (Checkout.fulfil ?oid) ?w2] =>
      destruct (fulfil_loop_run oid (Checkout.cartItems st) w2)
        as (ois & w3 & Hrun & _);
        [| pose proof (fulfil_loop_stock_writes oid _ _ _ Hrun) as H3 ]
  end.
  { intros item Hin. cbn [rejects with_db send]. rewrite J1.
    destruct (Hall item Hin) as [_ [p [Hl _]]]. unfold lookup in Hl.
    cbn [rejects send] in Hl.
    destruct (rejects w (ci_productId item)); [discriminate | reflexivity]. }
  rewrite Hrun in E. unfold bind at 1 in E.
  match type of E with
  | context [Checkout.recordDiscountUsage ?u ?oid ?a w3] =>
      pose proof (no_stock_write_recordDiscountUsage u oid a w3) as H4;
      destruct (recordDiscountUsage_run u oid a w3) as (w4 & Hrun4 & _)
  end.
  rewrite Hrun4 in H4, E. cbn [snd] in H4. unfold bind at 1 in E.
  pose proof (no_stock_write_clear_cart (Checkout.cartItems st) w4) as H5.
  destruct (clear_cart_run (Checkout.cartItems st) w4) as (w5 & Hrun5 & _).
  rewrite Hrun5 in H5, E. cbn [snd] in H5. unfold bind at 1 in E.
  cbn [toast ret] in E. subst run. cbn [fst snd trace].
  unfold no_stock_write in *. rewrite H5, H4, H3.
  cbn [trace with_db send stock_writes]. rewrite Hn. reflexivity.
Qed.

(** C10: a checkout that passes the checks writes, for every line item,
    [max(0, stockQuantity - quantity)] to the item's product, computed from
    the stock the page was loaded with; these are all the stock writes of a
    checkout (one that is turned away writes none), so no checkout writes a
    negative stock, whatever the quantities are. *)
Theorem checkout_stock_writes_are_clamped :
  forall (form : Checkout.FormData) (st : Checkout.State) (w : World),
  exists delta,
    trace (snd (Checkout.handleSubmit form st w)) = delta ++ trace w
    /\ (forall id v,
           In (Req_products_update id v) delta ->
           (0 <= v)%Z
           /\ exists item product,
                In item (Checkout.cartItems st)
                /\ ci_product item = Some product
                /\ ci_productId item = id
                /\ v = Z.max 0 (pv_stockQuantity product - ci_quantity item))
    /\ stock_writes delta
       = match fst (Checkout.handleSubmit form st w) with
         | Ok (Checkout.OrderPlaced _) =>
             rev (clamped_writes (Checkout.cartItems st))
         | _ => []
         end
    /\ (required_fields_filled form ->
        (forall item, In item (Checkout.cartItems st) -> item_in_stock w item) ->
        forall item,
          In item (Checkout.cartItems st) ->
          exists product,
            ci_product item = Some product
            /\ In (Req_products_update (ci_productId item)
                     (Z.max 0 (pv_stockQuantity product - ci_quantity item)))
                 delta).
Proof.
  intros form st w.
  destruct (stock_ok_handleSubmit (Checkout.cartItems st) form st eq_refl w)
    as [delta [E F]].
  pose proof (handleSubmit_stock_writes form st w) as Hw.
  rewrite E, stock_writes_app in Hw. apply app_inv_tail in Hw.
  exists delta. split; [exact E|]. split; [|split; [exact Hw|]].
  - intros id v Hin. rewrite Forall_forall in F. exact (F _ Hin).
  - intros Hf Hv item Hin.
    destruct (handleSubmit_places_order form st w Hf Hv)
      as (orderId & order & ois & w' & Hrun & _).
    rewrite Hrun in Hw. cbn [fst] in Hw.
    destruct (Hv item Hin) as [Hp _].
    destruct (ci_product item) as [product|] eqn:Ep; [|contradiction].
    exists product. split; [reflexivity|].
    apply stock_writes_In. rewrite Hw. apply -> in_rev.
    unfold clamped_writes. apply in_flat_map. exists item.
    split; [exact Hin|]. unfold clamped_write. rewrite Ep. now left.
Qed.

Lemma checkout_stock_writes_are_clamped_witness :
  exists delta,
    trace (snd (Checkout.handleSubmit alice_form stale_page restocked_shop))
    = delta ++ trace restocked_shop
    /\ In (Req_products_update "p1" 0) delta.
Proof.
  destruct (checkout_stock_writes_are_clamped alice_form stale_page
              restocked_shop) as (delta & E & _ & _ & L).
  exists delta. split; [exact E|].
  destruct (L ltac:(unfold required_fields_filled; simpl;
                    repeat split; discriminate)
              ltac:(intros item [<-|[]]; split; [discriminate|];
                    eexists; split; [reflexivity | simpl; lia])
              _ (or_introl eq_refl)) as (product & Hp & Hin).
  inversion Hp; subst product. exact Hin.
Defined.

Section EarningWrites.

Variable items : list CartItem.

Lemma earning_trace_refl : forall w, earning_trace items w w.
Proof. apply extends_by_refl. Qed.

Lemma earning_trace_trans :
  forall a b c,
    earning_trace items a b -> earning_trace items b c ->
    earning_trace items a c.
Proof. apply extends_by_trans. Qed.

Lemma earning_ok_products_list id :
  preserves (earning_trace items) (blink.products.list_by_id id).
Proof.
  intros w. unfold blink.products.list_by_id, earning_trace.
  destruct (rejects w id); cbn;
    (eapply extends_by_cons; [reflexivity | exact I]).
Qed.

Ltac earning_step :=
  first
    [ apply (preserves_ret (earning_trace items) earning_trace_refl)
    | apply earning_ok_products_list
    | apply (preserves_bind (earning_trace items) earning_trace_trans);
      [| intros ?]
    | apply (preserves_try_catch (earning_trace items) earning_trace_trans)
    | unfold earning_trace; ext_prim ].

Lemma earning_ok_stockValidation l errors :
  preserves (earning_trace items) (Checkout.stockValidation l errors).
Proof.
  revert errors. induction l as [|item rest IH]; intros errors; simpl.
  - earning_step.
  - destruct (ci_product item) as [product|]; [|apply IH].
    earning_step; [earning_step|].
    destruct a as [|current ?]; [apply IH|].
    destruct (_ <? _)%Z; apply IH.
Qed.

Lemma earning_ok_fulfil orderId item :
  In item items ->
  preserves (earning_trace items) (Checkout.fulfil orderId item).
Proof.
  intros Hin. unfold Checkout.fulfil.
  earning_step; [earning_step|]. earning_step; [earning_step|].
  destruct (ci_product item) as [product|] eqn:Hp; [|earning_step].
  earning_step; [earning_step|].
  earning_step; [earning_step|].
  destruct a2 as [|seller ?]; [earning_step|].
  earning_step; [earning_step|].
  intros w. unfold earning_trace. cbn.
  eapply extends_by_cons; [reflexivity|]. cbn.
  split; [reflexivity|].
  split; [unfold Checkout.commissionRate; reflexivity|].
  split; [unfold Checkout.commissionRate; field|].
  exists item, product. auto 10.
Qed.

Lemma earning_ok_recordDiscountUsage user orderId applied :
  preserves (earning_trace items)
    (Checkout.recordDiscountUsage user orderId applied).
Proof.
  unfold Checkout.recordDiscountUsage. destruct applied; [|earning_step].
  earning_step; [earning_step|]. destruct a0; repeat earning_step.
Qed.

Lemma earning_ok_handleSubmit form st :
  items = Checkout.cartItems st ->
  preserves (earning_trace items) (Checkout.handleSubmit form st).
Proof.
  intros E. unfold Checkout.handleSubmit.
  destruct (_ || _); [repeat earning_step|].
  earning_step; [|repeat earning_step].
  earning_step; [earning_step|].
  earning_step; [apply earning_ok_stockValidation|].
  destruct (_ <? _)%nat; [repeat earning_step|].
  earning_step; [earning_step|]. earning_step; [earning_step|].
  earning_step.
  { apply (preserves_forM (earning_trace items) earning_trace_refl
             earning_trace_trans).
    intros x Hx. apply earning_ok_fulfil. rewrite E. exact Hx. }
  earning_step; [apply earning_ok_recordDiscountUsage|].
  earning_step.
  { apply (preserves_forM (earning_trace items) earning_trace_refl
             earning_trace_trans).
    intros x Hx. earning_step. }
  repeat earning_step.
Qed.

End EarningWrites.

(** X7: every seller earning a checkout books is for one of its line items,
    at the displayed price times the quantity, with status available, a
    commission of 5% of that total and 95% of it as net earning. *)
Theorem checkout_earnings_keep_five_percent :
  forall (form : Checkout.FormData) (st : Checkout.State) (w : World),
  exists delta,
    trace (snd (Checkout.handleSubmit form st w)) = delta ++ trace w
    /\ forall row,
         In (Req_sellerEarnings_create row) delta ->
         e_status row = available
         /\ e_commission_amount row == e_total_earnings row * (5 # 100)
         /\ e_net_earnings row == e_total_earnings row * (95 # 100)
         /\ exists item product,
              In item (Checkout.cartItems st)
              /\ ci_product item = Some product
              /\ e_product_id row = ci_productId item
              /\ e_quantity row = ci_quantity item
              /\ e_unit_price row = pv_price product
              /\ e_total_earnings row
                 = pv_price product * inject_Z (ci_quantity item).
Proof.
  intros form st w.
  destruct (earning_ok_handleSubmit (Checkout.cartItems st) form st eq_refl w)
    as [delta [E F]].
  exists delta. split; [exact E|]. intros row Hin.
  rewrite Forall_forall in F. exact (F _ Hin).
Qed.

Lemma codes_frame_refl w : codes_frame w w.
Proof. split; reflexivity. Qed.

Lemma codes_frame_trans a b c :
  codes_frame a b -> codes_frame b c -> codes_frame a c.
Proof. intros [A1 A2] [B1 B2]. split; congruence. Qed.

Ltac codes_step :=
  first
    [ apply (preserves_ret codes_frame codes_frame_refl)
    | apply (preserves_bind codes_frame codes_frame_trans); [| intros ?]
    | intros ?; unfold blink.products.list_by_id;
      match goal with
      | |- context [rejects ?w ?id] => destruct (rejects w id)
      end; split; reflexivity
    | intros ?; split; reflexivity ].

Lemma codes_frame_fulfil orderId item :
  preserves codes_frame (Checkout.fulfil orderId item).
Proof.
  unfold Checkout.fulfil.
  codes_step; [codes_step|]. codes_step; [codes_step|].
  destruct (ci_product item) as [product|]; [|codes_step].
  codes_step; [codes_step|]. codes_step; [codes_step|].
  destruct a2; repeat codes_step.
Qed.

Lemma codes_frame_fulfil_loop orderId items :
  preserves codes_frame (forM_ items (Checkout.fulfil orderId)).
Proof.
  apply (preserves_forM codes_frame codes_frame_refl codes_frame_trans).
  intros; apply codes_frame_fulfil.
Qed.

Lemma codes_frame_clear_cart items :
  preserves codes_frame
    (forM_ items (fun item => blink.cartItems.delete (ci_id item))).
Proof.
  apply (preserves_forM codes_frame codes_frame_refl codes_frame_trans).
  intros x _. codes_step.
Qed.

Lemma find_map_stable {A} (f : A -> bool) (g : A -> A) (l : list A) :
  (forall x, f (g x) = f x) -> find f (map g l) = option_map g (find f l).
Proof.
  intros H. induction l as [|x xs IH]; simpl; [reflexivity|].
  rewrite H. destruct (f x); [reflexivity | exact IH].
Qed.

Lemma find_same {A} (f g : A -> bool) (l : list A) :
  (forall x, f x = g x) -> find f l = find g l.
Proof.
  intros H. induction l as [|x xs IH]; simpl; [reflexivity|].
  rewrite H, IH. reflexivity.
Qed.

Lemma find_stronger {A} (f g : A -> bool) (l : list A) (x : A) :
  find f l = Some x -> g x = true ->
  find (fun y => f y && g y) l = Some x.
Proof.
  induction l as [|y ys IH]; simpl; [discriminate|].
  destruct (f y) eqn:Ef; simpl.
  - intros E Hg. inversion E; subst. now rewrite Hg.
  - exact IH.
Qed.

Lemma recordDiscountUsage_books user orderId applied d w :
  first_with_code (ad_code applied) (discountCodes (db w)) = Some d ->
  exists usage w',
    Checkout.recordDiscountUsage user orderId (Some applied) w = (Ok tt, w')
    /\ discountCodeUses (db w') = discountCodeUses (db w) ++ [usage]
    /\ u_discount_code_id usage = d_id d
    /\ u_user_id usage = user
    /\ u_order_id usage = orderId
    /\ u_discount_amount usage = ad_amount applied
    /\ discountCodes (db w')
       = map (fun c => if (d_id c =? d_id d)%string
                       then with_uses (d_currentUses d + 1) c else c)
           (discountCodes (db w)).
Proof.
  unfold first_with_code. intros Hf. unfold Checkout.recordDiscountUsage.
  unfold bind at 1. cbn [blink.discountCodes.list_by_code query].
  rewrite firstn_1_filter.
  rewrite (find_same (fun c => (d_code c =? ad_code applied)%string && true)
             (fun c => (d_code c =? ad_code applied)%string))
    by (intros; apply andb_true_r).
  rewrite Hf. unfold bind at 1. cbn [fresh]. unfold bind at 1.
  cbn [blink.discountCodeUses.create mutate].
  eexists _, _. split; [reflexivity|]. cbn. repeat split.
Qed.

Lemma handleSubmit_books_usage form st w applied d :
  required_fields_filled form ->
  (forall item, In item (Checkout.cartItems st) -> item_in_stock w item) ->
  Checkout.appliedDiscount st = Some applied ->
  first_with_code (ad_code applied) (discountCodes (db w)) = Some d ->
  exists usage,
    discountCodeUses (db (snd (Checkout.handleSubmit form st w)))
    = discountCodeUses (db w) ++ [usage]
    /\ u_discount_code_id usage = d_id d
    /\ u_user_id usage = session_user w
    /\ u_discount_amount usage = ad_amount applied
    /\ discountCodes (db (snd (Checkout.handleSubmit form st w)))
       = map (fun c => if (d_id c =? d_id d)%string
                       then with_uses (d_currentUses d + 1) c else c)
           (discountCodes (db w))
    /\ session_user (snd (Checkout.handleSubmit form st w)) = session_user w.
Proof.
  intros Hf Hv Ha Hd.
  remember (Checkout.handleSubmit form st w) as run eqn:Erun.
  unfold Checkout.handleSubmit in Erun.
  rewrite (required_fields_pass form Hf) in Erun. unfold try_catch in Erun.
  unfold bind at 1 in Erun. cbn [blink.auth_me] in Erun.
  unfold bind at 1 in Erun.
  pose proof (stockValidation_passes (Checkout.cartItems st) []
                (send Req_auth_me w) Hv) as Hpass.
  pose proof (quiet_stockValidation (Checkout.cartItems st) []
                (send Req_auth_me w)) as Hq.
  destruct (Checkout.stockValidation _ _ _) as [r w1].
  cbn [fst snd] in Hpass, Hq. subst r.
  destruct Hq as (D1 & S1 & J1 & _). cbn [db session_user rejects send] in *.
  cbn [List.length Nat.ltb Nat.leb] in Erun.
  unfold bind at 1 in Erun. cbn [fresh] in Erun. unfold bind at 1 in Erun.
  cbn [blink.orders.create mutate] in Erun. unfold bind at 1 in Erun.
  match type of Erun with
  | context [forM_ _ (Checkout.fulfil ?oid) ?w2] =>
      destruct (fulfil_loop_run oid (Checkout.cartItems st) w2)
        as (ois & w3 & Hrun & _ & _ & _ & _ & _ & _ & Hs & _);
      [| pose proof (codes_frame_fulfil_loop oid (Checkout.cartItems st) w2)
           as Hc3 ]
  end.
  { intros item Hin. cbn [rejects with_db send]. rewrite J1.
    destruct (Hv item Hin) as [_ [p [Hl _]]]. unfold lookup in Hl.
    cbn [rejects send] in Hl.
    destruct (rejects w (ci_productId item)); [discriminate | reflexivity]. }
  rewrite Hrun in Erun, Hc3. cbn [snd] in Hc3.
  destruct Hc3 as [C3 U3]. cbn [db with_db send discountCodes
                                  discountCodeUses] in C3, U3.
  unfold bind at 1 in Erun. rewrite Ha in Erun.
  match type of Erun with
  | context [Checkout.recordDiscountUsage ?u ?oid (Some applied) w3] =>
      destruct (recordDiscountUsage_books u oid applied d w3)
        as (usage & w4 & Hrun4 & Hu4 & Hid & Hus & _ & Hamt & Hc4);
      [ rewrite C3, D1; exact Hd |
        pose proof (recordDiscountUsage_run u oid (Some applied) w3)
          as (w4' & Hrun4' & _ & _ & _ & _ & Hs4) ]
  end.
  rewrite Hrun4 in Hrun4'. inversion Hrun4'; subst w4'.
  rewrite Hrun4 in Erun. unfold bind at 1 in Erun.
  destruct (clear_cart_run (Checkout.cartItems st) w4)
    as (w5 & Hrun5 & _ & _ & _ & _ & Hs5).
  pose proof (codes_frame_clear_cart (Checkout.cartItems st) w4) as Hc5.
  rewrite Hrun5 in Erun, Hc5. cbn [snd] in Hc5. destruct Hc5 as [C5 U5].
  unfold bind at 1 in Erun. cbn [toast ret] in Erun. subst run.
  cbn [snd db discountCodes discountCodeUses session_user].
  exists usage.
  split; [rewrite U5, Hu4, U3, D1; reflexivity|].
  split; [exact Hid|]. split; [exact Hus|]. split; [exact Hamt|].
  split; [rewrite C5, Hc4, C3, D1; reflexivity|].
  rewrite Hs5, Hs4, Hs. cbn. exact S1.
Qed.

(** X8: a checkout that places an order with a discount books the use on
    the first row with that code: the row's use counter goes up by one and
    a usage record for the customer is added.  When that row is active, the
    widget afterwards turns the same customer away for that code, however
    the entry is capitalised and whatever the subtotal. *)
Theorem redeemed_code_cannot_be_reused :
  forall (form : Checkout.FormData) (st : Checkout.State) (w : World)
         (applied : AppliedDiscount) (d : DiscountCodeRow),
    required_fields_filled form ->
    (forall item, In item (Checkout.cartItems st) -> item_in_stock w item) ->
    Checkout.appliedDiscount st = Some applied ->
    first_with_code (ad_code applied) (discountCodes (db w)) = Some d ->
    d_isActive d = true ->
    first_with_code (ad_code applied)
      (discountCodes (db (snd (Checkout.handleSubmit form st w))))
    = Some (with_uses (d_currentUses d + 1) d)
    /\ (exists usage,
           In usage
             (discountCodeUses (db (snd (Checkout.handleSubmit form st w))))
           /\ u_discount_code_id usage = d_id d
           /\ u_user_id usage = session_user w
           /\ u_discount_amount usage = ad_amount applied)
    /\ forall now entry subtotal,
         Js.toUpperCase entry = ad_code applied ->
         fst (DiscountCode.validateAndApplyDiscount now entry subtotal
                (snd (Checkout.handleSubmit form st w)))
         = Ok None.
Proof.
  intros form st w applied d Hf Hv Ha Hd Hact.
  destruct (handleSubmit_books_usage form st w applied d Hf Hv Ha Hd)
    as (usage & Hu & Hid & Hus & Hamt & Hc & Hs).
  assert (Hfirst :
            first_with_code (ad_code applied)
              (discountCodes (db (snd (Checkout.handleSubmit form st w))))
            = Some (with_uses (d_currentUses d + 1) d)).
  { unfold first_with_code in *. rewrite Hc, find_map_stable.
    - rewrite Hd. simpl. now rewrite String.eqb_refl.
    - intros c. destruct (d_id c =? d_id d)%string; reflexivity. }
  split; [exact Hfirst|]. split.
  { exists usage. rewrite Hu. split; [apply in_or_app; right; now left|].
    auto. }
  intros now entry subtotal He. rewrite widget_result. f_equal.
  unfold widget_outcome. destruct (Js.trim entry =? "")%string; [reflexivity|].
  unfold first_active_match. rewrite He.
  rewrite (find_stronger (fun c => (d_code c =? ad_code applied)%string)
             d_isActive _ (with_uses (d_currentUses d + 1) d) Hfirst Hact).
  assert (Hused : used_by
                    (session_user (snd (Checkout.handleSubmit form st w)))
                    (with_uses (d_currentUses d + 1) d)
                    (discountCodeUses
                       (db (snd (Checkout.handleSubmit form st w)))) = true).
  { unfold used_by. rewrite Hu, Hs, existsb_app. cbn [existsb with_uses d_id].
    rewrite Hid, Hus, !String.eqb_refl. cbn. apply orb_true_r. }
  rewrite Hused, !orb_true_r. reflexivity.
Qed.

Lemma redeemed_code_cannot_be_reused_witness :
  first_with_code "SAVE10"
    (discountCodes
       (db (snd (Checkout.handleSubmit alice_form shop_page_with_code shop))))
  = Some (with_uses (d_currentUses save10 + 1) save10)
  /\ (exists usage,
         In usage
           (discountCodeUses
              (db (snd (Checkout.handleSubmit alice_form shop_page_with_code
                          shop))))
         /\ u_discount_code_id usage = d_id save10
         /\ u_user_id usage = session_user shop
         /\ u_discount_amount usage = 10)
  /\ forall now entry subtotal,
       Js.toUpperCase entry = "SAVE10" ->
       fst (DiscountCode.validateAndApplyDiscount now entry subtotal
              (snd (Checkout.handleSubmit alice_form shop_page_with_code
                      shop)))
       = Ok None.
Proof.
  apply (redeemed_code_cannot_be_reused alice_form shop_page_with_code shop
           (mkApplied "SAVE10" 10 "Ten percent off") save10).
  - unfold required_fields_filled. simpl. repeat split; discriminate.
  - intros item Hin. vm_compute in Hin.
    destruct Hin as [<-|[<-|[]]].
    + split; [discriminate|]. exists chair. split; [reflexivity|].
      simpl. lia.
    + split; [discriminate|]. exists lamp. split; [reflexivity|].
      simpl. lia.
  - reflexivity.
  - reflexivity.
  - reflexivity.
Defined.

(** ** A discount applied at the current subtotal *)

(** X9: a discount the widget grants never exceeds the subtotal it was
    computed for, so the total shown for that subtotal on the cart page and
    on the checkout page is the plain difference: the clamp at zero does not
    come into play. *)
Theorem granted_discount_needs_no_clamp :
  forall (now : Z) (code : string) (subtotal : Q) (w : World)
         (applied : AppliedDiscount) (items : list CartItem),
    fst (DiscountCode.validateAndApplyDiscount now code subtotal w)
    = Ok (Some applied) ->
    Cart.calculateSubtotal items == subtotal ->
    ad_amount applied <= subtotal
    /\ Cart.calculateTotal (Cart.mkState items (Some applied))
       == subtotal - ad_amount applied
    /\ Checkout.calculateTotal (Checkout.mkState items (Some applied) false)
       == subtotal - ad_amount applied.
Proof.
  intros now code subtotal w applied items Ha Hs.
  rewrite widget_result in Ha.
  assert (Ho : widget_outcome now code subtotal w = Some applied)
    by congruence.
  clear Ha. apply widget_outcome_some in Ho.
  destruct Ho as [_ [d [_ [_ ->]]]].
  cbn [ad_amount].
  assert (Hle : DiscountCode.discount_of subtotal d <= subtotal).
  { unfold DiscountCode.discount_of. apply Q.le_min_r. }
  split; [exact Hle|].
  assert (Hc : Checkout.calculateSubtotal items == subtotal) by exact Hs.
  unfold Cart.calculateTotal, Checkout.calculateTotal.
  cbn [Cart.cartItems Cart.appliedDiscount Checkout.cartItems
       Checkout.appliedDiscount Checkout.discountAmount_of ad_amount].
  split.
  - rewrite Hs, or_zero_eq. apply Q.max_r. lra.
  - rewrite Hc, or_zero_eq. apply Q.max_r. lra.
Qed.

Lemma granted_discount_needs_no_clamp_witness :
  ad_amount (mkApplied "SAVE10" (Qmin (100 * 10 / 100) 100) "Ten percent off")
  <= 100
  /\ Cart.calculateTotal
       (Cart.mkState (loaded_cart shop)
          (Some (mkApplied "SAVE10" (Qmin (100 * 10 / 100) 100)
                   "Ten percent off")))
     == 100 - ad_amount (mkApplied "SAVE10" (Qmin (100 * 10 / 100) 100)
                           "Ten percent off")
  /\ Checkout.calculateTotal
       (Checkout.mkState (loaded_cart shop)
          (Some (mkApplied "SAVE10" (Qmin (100 * 10 / 100) 100)
                   "Ten percent off")) false)
     == 100 - ad_amount (mkApplied "SAVE10" (Qmin (100 * 10 / 100) 100)
                           "Ten percent off").
Proof.
  apply (granted_discount_needs_no_clamp 100 "SAVE10" 100 shop
           (mkApplied "SAVE10" (Qmin (100 * 10 / 100) 100) "Ten percent off")
           (loaded_cart shop)).
  - reflexivity.
  - vm_compute. reflexivity.
Defined.

Lemma flag_false_without_admin events :
  no_admin_among events -> App.isAdmin (App.run events) = false.
Proof.
  induction events as [|state rest IH] using rev_ind; intros H;
    [reflexivity|].
  rewrite run_snoc. unfold App.onAuthStateChanged. cbn [App.isAdmin].
  assert (Hrest : App.isAdmin (App.run rest) = false).
  { apply IH. intros s u Hin. apply H. apply in_or_app. now left. }
  destruct (App.auth_user state) as [u|] eqn:Hu; [|exact Hrest].
  destruct (Js.falsy_string (App.email u)); [exact Hrest|].
  apply (H state u); [apply in_or_app; right; now left | exact Hu].
Qed.

(** X10: as long as no allow-listed address has signed in during the
    lifetime of the page, the [/admin] route is registered for the user
    who signs in exactly when their address, lower-cased, is on the
    allow-list; this covers the first sign-in after a page load and users
    without an email address. *)
Theorem admin_route_on_first_admin_sign_in :
  forall (events : list App.AuthState) (u : App.User),
    no_admin_among events ->
    App.route_registered "/admin"
      (App.run (events ++ [App.mkAuthState (Some u) false]))
    = ADMIN_CONFIG.isAdmin (App.email u).
Proof.
  intros events u H. rewrite run_snoc, admin_route_iff_flag;
    [| reflexivity | discriminate].
  unfold App.onAuthStateChanged. cbn [App.isAdmin App.auth_user].
  unfold Js.falsy_string.
  destruct (String.eqb_spec (App.email u) "") as [E|E]; [|reflexivity].
  rewrite E. now rewrite flag_false_without_admin.
Qed.

Lemma admin_route_on_first_admin_sign_in_witness :
  App.route_registered "/admin"
    (App.run ([still_loading; App.mkAuthState (Some guest) false]
              ++ [App.mkAuthState (Some kai) false]))
  = ADMIN_CONFIG.isAdmin (App.email kai).
Proof.
  apply (admin_route_on_first_admin_sign_in
           [still_loading; App.mkAuthState (Some guest) false] kai).
  intros state u [<-|[<-|[]]] Hu; inversion Hu; subst; reflexivity.
Defined.

(** ** Letter case *)

Lemma lower_upper_ascii c :
  Js.lower_ascii (Js.upper_ascii c) = Js.lower_ascii c.
Proof. destruct c as [[] [] [] [] [] [] [] []]; reflexivity. Qed.

Lemma upper_lower_ascii c :
  Js.upper_ascii (Js.lower_ascii c) = Js.upper_ascii c.
Proof. destruct c as [[] [] [] [] [] [] [] []]; reflexivity. Qed.

Lemma upper_upper_ascii c :
  Js.upper_ascii (Js.upper_ascii c) = Js.upper_ascii c.
Proof. destruct c as [[] [] [] [] [] [] [] []]; reflexivity. Qed.

Lemma lower_lower_ascii c :
  Js.lower_ascii (Js.lower_ascii c) = Js.lower_ascii c.
Proof. destruct c as [[] [] [] [] [] [] [] []]; reflexivity. Qed.

Lemma is_space_upper c : Js.is_space (Js.upper_ascii c) = Js.is_space c.
Proof. destruct c as [[] [] [] [] [] [] [] []]; reflexivity. Qed.

Lemma map_string_compose f g h s :
  (forall c, f (g c) = h c) ->
  Js.map_string f (Js.map_string g s) = Js.map_string h s.
Proof.
  intros H. induction s as [|c s IH]; simpl; [reflexivity|].
  now rewrite H, IH.
Qed.

Lemma trimStart_map f s :
  (forall c, Js.is_space (f c) = Js.is_space c) ->
  Js.trimStart (Js.map_string f s) = Js.map_string f (Js.trimStart s).
Proof.
  intros H. induction s as [|c s IH]; simpl; [reflexivity|].
  rewrite H. destruct (Js.is_space c); [exact IH | reflexivity].
Qed.

Lemma rev_string_map f s :
  forall acc,
    Js.rev_string (Js.map_string f acc) (Js.map_string f s)
    = Js.map_string f (Js.rev_string acc s).
Proof.
  induction s as [|c s IH]; intros acc; simpl; [reflexivity|].
  apply (IH (String c acc)).
Qed.

Lemma rev_string_map_nil f s :
  Js.rev_string "" (Js.map_string f s) = Js.map_string f (Js.rev_string "" s).
Proof. exact (rev_string_map f s ""). Qed.

Lemma trim_map f s :
  (forall c, Js.is_space (f c) = Js.is_space c) ->
  Js.trim (Js.map_string f s) = Js.map_string f (Js.trim s).
Proof.
  intros H. unfold Js.trim, Js.trimEnd.
  rewrite (trimStart_map f s H), rev_string_map_nil.
  rewrite (trimStart_map f _ H). apply rev_string_map_nil.
Qed.

Lemma map_string_empty f s : Js.map_string f s = "" <-> s = "".
Proof. destruct s; simpl; split; intros H; congruence. Qed.

(** X11: for ASCII text, letter case does not matter where the code lower-
    or upper-cases its input: the admin check gives the same answer for an
    address however it is capitalised, and the discount widget does the
    same thing for an entry however it is capitalised. *)
Theorem letter_case_is_ignored :
  forall (text : string),
    is_ascii_text text = true ->
    (ADMIN_CONFIG.isAdmin (Js.toUpperCase text) = ADMIN_CONFIG.isAdmin text
     /\ ADMIN_CONFIG.isAdmin (Js.toLowerCase text)
        = ADMIN_CONFIG.isAdmin text)
    /\ (forall now subtotal w,
           DiscountCode.validateAndApplyDiscount now (Js.toUpperCase text)
             subtotal w
           = DiscountCode.validateAndApplyDiscount now text subtotal w
           /\ DiscountCode.validateAndApplyDiscount now (Js.toLowerCase text)
                subtotal w
              = DiscountCode.validateAndApplyDiscount now text subtotal w).
Proof.
  intros text _. split.
  - unfold ADMIN_CONFIG.isAdmin, Js.toLowerCase, Js.toUpperCase.
    rewrite (map_string_compose _ _ Js.lower_ascii _ lower_upper_ascii).
    rewrite (map_string_compose _ _ Js.lower_ascii _ lower_lower_ascii).
    split; reflexivity.
  - intros now subtotal w.
    assert (Hblank : forall f,
               (forall c, Js.is_space (f c) = Js.is_space c) ->
               Js.falsy_string (Js.trim (Js.map_string f text))
               = Js.falsy_string (Js.trim text)).
    { intros f Hf. rewrite (trim_map f text Hf). unfold Js.falsy_string.
      destruct (String.eqb_spec (Js.trim text) "") as [E|E].
      - rewrite E. reflexivity.
      - apply String.eqb_neq. intros Hm. apply E.
        now apply (map_string_empty f). }
    unfold DiscountCode.validateAndApplyDiscount, Js.toUpperCase,
      Js.toLowerCase.
    rewrite (Hblank Js.upper_ascii is_space_upper).
    rewrite (Hblank Js.lower_ascii).
    2:{ intros c. destruct c as [[] [] [] [] [] [] [] []]; reflexivity. }
    rewrite (map_string_compose _ _ Js.upper_ascii _ upper_upper_ascii).
    rewrite (map_string_compose _ _ Js.upper_ascii _ upper_lower_ascii).
    split; reflexivity.
Qed.

Lemma letter_case_is_ignored_witness :
  ADMIN_CONFIG.isAdmin (Js.toUpperCase "Kai.Jiabo.Feng@gmail.com")
  = ADMIN_CONFIG.isAdmin "Kai.Jiabo.Feng@gmail.com"
  /\ ADMIN_CONFIG.isAdmin "Kai.Jiabo.Feng@gmail.com" = true.
Proof.
  split; [|reflexivity].
  apply (letter_case_is_ignored "Kai.Jiabo.Feng@gmail.com"). reflexivity.
Defined.

Lemma same_toasts_refl w : same_toasts w w.
Proof. reflexivity. Qed.

Lemma same_toasts_trans a b c :
  same_toasts a b -> same_toasts b c -> same_toasts a c.
Proof. unfold same_toasts. congruence. Qed.

Lemma same_toasts_checkout_join items :
  preserves same_toasts (Checkout.join items).
Proof.
  unfold Checkout.join.
  apply (preserves_bind same_toasts same_toasts_trans);
    [| intros; now apply preserves_ret].
  apply (preserves_mapM same_toasts same_toasts_refl same_toasts_trans).
  intros x _. unfold Checkout.enrich.
  apply (preserves_bind same_toasts same_toasts_trans);
    [| intros; now apply preserves_ret].
  intros w. unfold blink.products.list_by_id.
  destruct (rejects w _); reflexivity.
Qed.

(** X12: when the product lookup of any of the customer's cart rows
    rejects, the checkout page loads nothing: it raises an error
    notification, keeps the cart it had and writes nothing, whereas the
    cart page shows the rows whose lookup did succeed. *)
Theorem checkout_load_fails_as_a_whole :
  forall (st : Checkout.State) (w : World),
    (exists row,
        In row (my_rows w) /\ rejects w (c_product_id row) = true) ->
    fst (Checkout.loadCartItems st w) = Ok st
    /\ toasts (snd (Checkout.loadCartItems st w)) = "Error" :: toasts w
    /\ db (snd (Checkout.loadCartItems st w)) = db w
    /\ forall page,
         exists shown,
           fst (Cart.loadCartItems page w) = Ok shown
           /\ map item_columns (Cart.cartItems shown)
              = map row_columns
                  (filter (found w) (orderBy_desc c_created_at (my_rows w))).
Proof.
  intros st w [bad [Hin Hbad]]. split; [|split; [|split]].
  4:{ intros page. eexists. split; [apply cart_load_run|].
      apply shown_columns. }
  all: pose proof (checkout_join_throws
                (orderBy_desc c_created_at (my_rows w))
                (send (Req_cartItems_list (session_user w) None)
                   (send Req_auth_me w))) as Hthrow;
    pose proof (same_toasts_checkout_join
                (orderBy_desc c_created_at (my_rows w))
                (send (Req_cartItems_list (session_user w) None)
                   (send Req_auth_me w))) as Ht;
    pose proof (quiet_checkout_join
                (orderBy_desc c_created_at (my_rows w))
                (send (Req_cartItems_list (session_user w) None)
                   (send Req_auth_me w))) as Hq;
    unfold Checkout.loadCartItems, try_catch;
    unfold bind at 1; cbn [blink.auth_me]; unfold bind at 1;
    cbn [blink.cartItems.list_of_user query]; unfold bind at 1;
    cbn [db send]; fold (my_rows w);
    destruct (Checkout.join _ _) as [r w1]; cbn [fst snd] in *;
    rewrite Hthrow
      by (exists bad; split; [now apply orderBy_desc_In | exact Hbad]);
    cbn.
  - reflexivity.
  - f_equal. exact Ht.
  - apply Hq.
Qed.

Lemma checkout_load_fails_as_a_whole_witness :
  fst (Checkout.loadCartItems (Checkout.mkState [] None false) flaky_shop)
  = Ok (Checkout.mkState [] None false)
  /\ toasts (snd (Checkout.loadCartItems (Checkout.mkState [] None false)
                    flaky_shop))
     = "Error" :: toasts flaky_shop
  /\ db (snd (Checkout.loadCartItems (Checkout.mkState [] None false)
                flaky_shop))
     = db flaky_shop
  /\ forall page,
       exists shown,
         fst (Cart.loadCartItems page flaky_shop) = Ok shown
         /\ map item_columns (Cart.cartItems shown)
            = map row_columns
                (filter (found flaky_shop)
                   (orderBy_desc c_created_at (my_rows flaky_shop))).
Proof.
  apply (checkout_load_fails_as_a_whole (Checkout.mkState [] None false)
           flaky_shop).
  exists (mkCartRow "c2" "alice" "p2" 1 20). split.
  - right. left. reflexivity.
  - reflexivity.
Defined.

Lemma hd_error_firstn_1_filter {A} (f : A -> bool) (l : list A) :
  hd_error (firstn 1 (filter f l)) = find f l.
Proof. rewrite firstn_1_filter. destruct (find f l); reflexivity. Qed.

Lemma my_earnings_In w e :
  In e (my_earnings w) ->
  In e (sellerEarnings (db w)) /\ e_seller_id e = session_user w.
Proof.
  unfold my_earnings. intros H. apply orderBy_desc_In in H.
  apply filter_In in H. destruct H as [H1 H2].
  split; [exact H1 | now apply String.eqb_eq].
Qed.

Lemma loadEarnings_run st w :
  earnings_reachable w ->
  fst (SellerPayouts.loadEarnings st w)
  = Ok (SellerPayouts.mkState (listed_earnings w)
          (SellerPayouts.payoutRequests st)
          (SellerPayouts.mkStats
             (SellerPayouts.sum_net (listed_earnings w))
             (available_balance (listed_earnings w))
             (SellerPayouts.pendingPayouts (SellerPayouts.stats st))
             (SellerPayouts.completedPayouts (SellerPayouts.stats st)))).
Proof.
  intros Hr. unfold SellerPayouts.loadEarnings, try_catch.
  unfold bind at 1. cbn [blink.auth_me]. unfold bind at 1.
  cbn [blink.sellerEarnings.list_of_seller query]. unfold bind at 1.
  cbn [db send session_user]. fold (my_earnings w).
  match goal with
  | |- context [mapM ?f (my_earnings w) ?w0] =>
      pose proof (mapM_run f
                    (fun e => SellerPayouts.mkSellerEarning e
                                (lookup w (e_product_id e)))
                    (my_earnings w) w0) as Hm
  end.
  rewrite (surjective_pairing (mapM _ _ _)). rewrite Hm.
  - reflexivity.
  - intros x _. apply (preserves_bind quiet quiet_trans);
      [apply quiet_products_list | intros; apply (preserves_ret quiet quiet_refl)].
  - intros x w' Hin Hq. destruct (my_earnings_In w x Hin) as [Hx Hs].
    unfold bind, blink.products.list_by_id.
    destruct Hq as (D & _ & J & _). cbn [db rejects send] in D, J.
    rewrite J, (Hr x Hx Hs), D. cbn [fst].
    rewrite hd_error_firstn_1_filter. unfold lookup.
    now rewrite (Hr x Hx Hs).
  - apply quiet_refl.
Qed.

Lemma handlePayoutRequest_reload form st w q :
  SellerPayouts.amount form = Js.Finite q ->
  0 < q ->
  q <= SellerPayouts.availableBalance (SellerPayouts.stats st) ->
  earnings_reachable w ->
  exists pid page w',
    SellerPayouts.handlePayoutRequest form st w
    = (Ok (SellerPayouts.Submitted pid, page), w')
    /\ SellerPayouts.earnings page = listed_earnings w'
    /\ SellerPayouts.availableBalance (SellerPayouts.stats page)
       = available_balance (listed_earnings w')
    /\ sellerEarnings (db w')
       = flip_to_pending
           (map earning_id
              (touched q (filter SellerPayouts.is_available
                            (SellerPayouts.earnings st))))
           (sellerEarnings (db w))
    /\ session_user w' = session_user w.
Proof.
  intros Ha Hpos Hle Hr. unfold SellerPayouts.handlePayoutRequest. rewrite Ha.
  assert (E1 : SellerPayouts.not_positive (Js.Finite q) = false).
  { apply not_true_is_false. intros H. apply not_positive_iff in H.
    simpl in H. lra. }
  assert (E2 : SellerPayouts.exceeds (Js.Finite q)
                 (SellerPayouts.availableBalance (SellerPayouts.stats st))
               = false).
  { apply not_true_is_false. intros H. apply exceeds_iff in H.
    simpl in H. lra. }
  rewrite E1, E2. unfold try_catch.
  unfold bind at 1. cbn [blink.auth_me].
  unfold bind at 1. cbn [fresh].
  unfold bind at 1. cbn [blink.payoutRequests.create mutate].
  unfold bind at 1.
  match goal with
  | |- context [SellerPayouts.allocate ?pid q ?l ?w0] =>
      destruct (allocate_run l pid q w0)
        as (items & w1 & Hrun & Hi & Hid & Hamt & Hp & He & Hq & Hs & Hj)
  end.
  rewrite Hrun. unfold bind at 1. cbn [toast].
  unfold bind at 1.
  cbn [db with_db send sellerEarnings session_user rejects] in He, Hs, Hj.
  match goal with
  | |- context [SellerPayouts.loadEarnings st ?w0] =>
      pose proof (quiet_loadEarnings st w0) as Hq1;
      pose proof (loadEarnings_run st w0) as Hst1;
      destruct (SellerPayouts.loadEarnings st w0) as [r1 w2]
  end.
  cbn [fst snd] in Hst1, Hq1. rewrite Hst1.
  2:{ intros e Hin Hse. cbn [db rejects session_user sellerEarnings] in *.
      rewrite Hj. rewrite He in Hin. unfold flip_to_pending in Hin.
      apply in_map_iff in Hin. destruct Hin as [e0 [<- Hin0]].
      rewrite Hs in Hse.
      destruct (Js.includes _ (e_id e0)); apply (Hr e0 Hin0 Hse). }
  unfold bind at 1.
  destruct Hq1 as (D1 & S1 & J1 & _).
  cbn [db session_user rejects] in D1, S1, J1.
  unfold SellerPayouts.loadPayoutRequests, try_catch.
  unfold bind at 1. cbn [blink.auth_me]. unfold bind at 1.
  cbn [blink.payoutRequests.list_of_seller query]. cbn [bind ret].
  eexists _, _, _. split; [reflexivity|].
  cbn [SellerPayouts.earnings SellerPayouts.stats
       SellerPayouts.availableBalance db send session_user].
  assert (El : forall wa wb,
             db wa = db wb -> session_user wa = session_user wb ->
             rejects wa = rejects wb ->
             listed_earnings wa = listed_earnings wb).
  { intros wa wb Ed Es Er. unfold listed_earnings, my_earnings, lookup.
    now rewrite Ed, Es, Er. }
  split; [apply El; cbn; congruence|].
  split; [f_equal; apply El; cbn; congruence|].
  split; [rewrite D1; exact He|].
  rewrite S1. exact Hs.
Qed.

(** X13: after a payout request has been submitted and the page has
    reloaded, the page lists the seller's earnings as the backend now has
    them, none of the earnings the request took from is listed as
    available, and the balance shown is the sum of the net earnings still
    available: what was taken cannot be requested again. *)
Theorem consumed_earnings_leave_the_balance :
  forall (form : SellerPayouts.PayoutForm) (st : SellerPayouts.State)
         (w : World) (q : Q),
    SellerPayouts.amount form = Js.Finite q ->
    0 < q ->
    q <= SellerPayouts.availableBalance (SellerPayouts.stats st) ->
    earnings_reachable w ->
    exists pid page,
      fst (SellerPayouts.handlePayoutRequest form st w)
      = Ok (SellerPayouts.Submitted pid, page)
      /\ on_display (snd (SellerPayouts.handlePayoutRequest form st w)) page
      /\ coherent page
      /\ forall earning,
           In earning (SellerPayouts.earnings page) ->
           In (earning_id earning)
             (map earning_id
                (touched q (filter SellerPayouts.is_available
                              (SellerPayouts.earnings st)))) ->
           SellerPayouts.is_available earning = false.
Proof.
  intros form st w q Ha Hpos Hle Hr.
  destruct (handlePayoutRequest_reload form st w q Ha Hpos Hle Hr)
    as (pid & page & w' & Hrun & Hlist & Hbal & He & Hs).
  rewrite Hrun. cbn [fst snd]. exists pid, page.
  split; [reflexivity|]. split; [|split].
  - unfold on_display. rewrite Hlist. unfold listed_earnings.
    rewrite map_map. cbn [SellerPayouts.row]. apply map_id.
  - unfold coherent. rewrite Hbal, Hlist. reflexivity.
  - intros earning Hin Hid. rewrite Hlist in Hin.
    unfold listed_earnings in Hin. apply in_map_iff in Hin.
    destruct Hin as [e [<- Hin]].
    destruct (my_earnings_In w' e Hin) as [Hin' _].
    rewrite He in Hin'. unfold flip_to_pending in Hin'.
    apply in_map_iff in Hin'. destruct Hin' as [e0 [<- Hin0]].
    apply includes_In in Hid. unfold earning_id in Hid.
    cbn [SellerPayouts.row] in Hid.
    assert (Hid0 : Js.includes
                     (map earning_id
                        (touched q (filter SellerPayouts.is_available
                                      (SellerPayouts.earnings st))))
                     (e_id e0) = true).
    { destruct (Js.includes _ (e_id e0)) eqn:E; [reflexivity|].
      rewrite E in Hid. exact Hid. }
    rewrite Hid0. reflexivity.
Qed.

Lemma consumed_earnings_leave_the_balance_witness :
  exists pid page,
    fst (SellerPayouts.handlePayoutRequest (request_of 25) two_sales_page
           two_sales)
    = Ok (SellerPayouts.Submitted pid, page)
    /\ on_display
         (snd (SellerPayouts.handlePayoutRequest (request_of 25)
                 two_sales_page two_sales)) page
    /\ coherent page
    /\ forall earning,
         In earning (SellerPayouts.earnings page) ->
         In (earning_id earning)
           (map earning_id
              (touched 25 (filter SellerPayouts.is_available
                             (SellerPayouts.earnings two_sales_page)))) ->
         SellerPayouts.is_available earning = false.
Proof.
  apply (consumed_earnings_leave_the_balance (request_of 25) two_sales_page
           two_sales 25).
  - reflexivity.
  - reflexivity.
  - vm_compute. discriminate.
  - intros e _ _. reflexivity.
Defined.

(** X14: the listing's three filters combine by conjunction.  A row is
    selected exactly when the search text is empty or found in its name,
    brand, description or category, and the category filter is "all" or
    equals the row's category, and the condition filter is "all" or equals
    the row's condition. *)
Theorem listing_filters_combine :
  forall (contains : string -> string -> bool) (row : string -> string)
         (searchQuery filterCategory filterCondition : string),
    selects contains row
      (ProductListing.query searchQuery filterCategory filterCondition)
    = (Js.falsy_string searchQuery
       || existsb (fun field => contains searchQuery (row field))
            ["name"; "brand"; "description"; "category"])
      && ((filterCategory =? "all") || (row "category" =? filterCategory))
      && ((filterCondition =? "all") || (row "condition" =? filterCondition)).
Proof.
  intros contains row s c d. unfold ProductListing.query.
  destruct (Js.falsy_string s), (c =? "all"), (d =? "all");
    cbn [negb ProductListing.has_AND ProductListing.has_OR
         ProductListing.key_count orb Nat.ltb Nat.leb selects forallb existsb
         andb];
    repeat rewrite ?andb_true_r, ?orb_false_r, ?andb_true_l, ?orb_true_r;
    try reflexivity.
Qed.
